(** * The billing dashboard's API server, embedded and verified

    The server (an Express application) exposes two read paths over the
    Cost Explorer client:

    - [GET /api/costs]: builds a detail request and a record-type summary
      request, normalises the detail response, classifies the summary into
      usage / credit / tax / refund / other, and memoises the payload in a
      process-wide [Map] with a 60 second time-to-live;
    - [GET /api/credits]: sums the credit records of the trailing 365 days
      per service and reports magnitudes, largest first.

    JavaScript numbers are IEEE-754 binary64 values; they are modelled by the
    Standard Library's executable specification of floating-point numbers
    ([spec_float], precision 53, maximal exponent 1024).  Strings are
    sequences of 8-bit code units.  The clock ([Date.now()], [new Date()])
    is an explicit argument in milliseconds since the epoch, and the
    upstream client's answer is an explicit argument of sum type. *)

From Stdlib Require Import ZArith List Bool Ascii String Lia.
From Stdlib Require Import Permutation Sorted.
From Stdlib Require Import Floats.SpecFloat.
From Stdlib Require Import QArith Qcanon.
From stdpp Require Import gmap strings.

Local Open Scope string_scope.
Local Open Scope Z_scope.

(** ** JavaScript numbers *)

Module JsNumber.

Definition prec : Z := 53.
Definition emax : Z := 1024.

Definition number : Type := spec_float.

Definition pos_zero : number := S754_zero false.
Definition NaN : number := S754_nan.
Definition Infinity : number := S754_infinity false.

(** [a + b], [a - b], [Math.abs(a)], unary minus. *)
Definition add (a b : number) : number := SFadd prec emax a b.
Definition sub (a b : number) : number := SFsub prec emax a b.
Definition abs (a : number) : number := SFabs a.
Definition neg (a : number) : number := SFopp a.

Definition is_nan (a : number) : bool :=
  match a with S754_nan => true | _ => false end.

(** [v > 0] and [v < 0] on a comparator's result; both are false on
    [NaN] and on either zero. *)
Definition is_pos (v : number) : bool :=
  match v with
  | S754_infinity false | S754_finite false _ _ => true
  | _ => false
  end.
Definition is_neg (v : number) : bool :=
  match v with
  | S754_infinity true | S754_finite true _ _ => true
  | _ => false
  end.

(** The Number value of the exact decimal [(-1)^s * m * 10^k]: the
    nearest binary64 value, ties to even. *)
Definition of_decimal (s : bool) (m : N) (k : Z) : number :=
  match m with
  | N0 => S754_zero s
  | Npos p =>
      match k with
      | Zneg q =>
          SFdiv prec emax (S754_finite s p 0)
                (S754_finite false (Pos.pow 10 q) 0)
      | _ => binary_round prec emax s (p * Z.to_pos (10 ^ k))%positive 0
      end
  end.

(** The Number value of an integer. *)
Definition of_Z (z : Z) : number := binary_normalize prec emax z 0 false.

(** *** The order of number values

    A finite number is [(-1)^s * m * 2^e].  Two of them are compared
    exactly by bringing both mantissas to the smaller exponent, which is
    also how subtraction aligns them. *)
Definition aligned (s : bool) (m : positive) (e ez : Z) : Z :=
  cond_Zopp s (Zpos (fst (shl_align m e ez))).

(** [a >= b]: false when either is [NaN]; the two zeros are equal. *)
Definition geb (a b : number) : bool :=
  match a, b with
  | S754_nan, _ | _, S754_nan => false
  | S754_infinity false, _ => true
  | _, S754_infinity true => true
  | S754_infinity true, _ => false
  | _, S754_infinity false => false
  | S754_zero _, S754_zero _ => true
  | S754_zero _, S754_finite sb _ _ => sb
  | S754_finite sa _ _, S754_zero _ => negb sa
  | S754_finite sa ma ea, S754_finite sb mb eb =>
      let ez := Z.min ea eb in
      aligned sb mb eb ez <=? aligned sa ma ea ez
  end.

(** The exponent of a finite number is not below the least exponent of
    the format (-1074). *)
Definition exponent_ok (a : number) : Prop :=
  match a with
  | S754_finite _ _ e => emin prec emax <= e
  | _ => True
  end.

(** *** Numeric literals in strings

    [StrWhiteSpaceChar]: the white space and line terminator code units
    below U+0100. *)
Definition is_space (c : ascii) : bool :=
  let n := N_of_ascii c in
  N.eqb n 9 || N.eqb n 10 || N.eqb n 11 || N.eqb n 12 || N.eqb n 13
  || N.eqb n 32 || N.eqb n 160.

Fixpoint trim_start (s : string) : string :=
  match s with
  | String c s' => if is_space c then trim_start s' else s
  | EmptyString => s
  end.

(** The string without its trailing white space. *)
Fixpoint trim_end (s : string) : string :=
  match s with
  | String c s' =>
      match trim_end s' with
      | EmptyString => if is_space c then EmptyString else String c EmptyString
      | t => String c t
      end
  | EmptyString => EmptyString
  end.

(** The value of [c] as a digit of the given radix, if it is one. *)
Definition digit_of (radix : N) (c : ascii) : option N :=
  let n := N_of_ascii c in
  let v :=
    if N.leb 48 n && N.leb n 57 then Some (n - 48)%N
    else if N.leb 97 n && N.leb n 102 then Some (n - 87)%N
    else if N.leb 65 n && N.leb n 70 then Some (n - 55)%N
    else None in
  match v with
  | Some d => if N.ltb d radix then Some d else None
  | None => None
  end.

(** The longest run of decimal digits at the head of [s]: the value
    accumulated onto [acc], the number of digits read, and the rest. *)
Fixpoint read_digits (s : string) (acc : N) (cnt : Z) : N * Z * string :=
  match s with
  | String c s' =>
      match digit_of 10 c with
      | Some d => read_digits s' (10 * acc + d)%N (cnt + 1)
      | None => (acc, cnt, s)
      end
  | EmptyString => (acc, cnt, s)
  end.

(** An optional sign at the head of [s]: whether it is a minus, and
    the rest. *)
Definition read_sign (s : string) : bool * string :=
  match s with
  | String c t =>
      if Ascii.eqb c "+" then (false, t)
      else if Ascii.eqb c "-" then (true, t)
      else (false, s)
  | EmptyString => (false, s)
  end.

(** [ExponentPart_opt]: consumed only when a digit follows the indicator
    and the optional sign. *)
Definition read_exponent (s : string) : Z * string :=
  match s with
  | String c s1 =>
      if Ascii.eqb c "e" || Ascii.eqb c "E" then
        let '(sg, s2) := read_sign s1 in
        let '(e, n, rest) := read_digits s2 0 0 in
        if Z.eqb n 0 then (0, s)
        else ((if sg then - Z.of_N e else Z.of_N e), rest)
      else (0, s)
  | EmptyString => (0, s)
  end.

Variant literal : Type :=
  | LitInfinity
  | LitDecimal (m : N) (k : Z).

(** Whether [s] goes on with a decimal point, and what follows it. *)
Definition read_point (s : string) : option string :=
  match s with
  | String c t => if Ascii.eqb c "." then Some t else None
  | EmptyString => None
  end.

(** The longest prefix of [s] that is a [StrUnsignedDecimalLiteral],
    with the rest of the string. *)
Definition read_unsigned (s : string) : option (literal * string) :=
  if String.prefix "Infinity" s
  then Some (LitInfinity, String.substring 8 (String.length s - 8) s)
  else
    let '(ip, ni, r1) := read_digits s 0 0 in
    match read_point r1 with
    | Some r2 =>
        let '(fp, nf, r3) := read_digits r2 ip 0 in
        if Z.eqb ni 0 && Z.eqb nf 0 then None
        else let '(e, r4) := read_exponent r3 in
             Some (LitDecimal fp (e - nf), r4)
    | None =>
        if Z.eqb ni 0 then None
        else let '(e, r4) := read_exponent r1 in
             Some (LitDecimal ip e, r4)
    end.

(** The longest prefix of [s] that is a [StrDecimalLiteral]: its sign,
    its unsigned part, and the rest of the string. *)
Definition read_literal (s : string) : option (bool * literal * string) :=
  let '(sg, s1) := read_sign s in
  match read_unsigned s1 with
  | Some (lit, rest) => Some (sg, lit, rest)
  | None => None
  end.

(** The Number value of a literal. *)
Definition number_of_literal (sg : bool) (lit : literal) : number :=
  match lit with
  | LitInfinity => S754_infinity sg
  | LitDecimal m k => of_decimal sg m k
  end.

Definition read_decimal (s : string) : option (number * string) :=
  match read_literal s with
  | Some (sg, lit, rest) => Some (number_of_literal sg lit, rest)
  | None => None
  end.

(** The global [parseFloat]: leading white space is skipped, the longest
    decimal literal at the head is converted, what follows it is
    ignored; [NaN] when there is no such literal. *)
Definition parseFloat (s : string) : number :=
  match read_decimal (trim_start s) with
  | Some (v, _) => v
  | None => NaN
  end.

(** A whole string of digits of the given radix. *)
Fixpoint read_radix (radix : N) (s : string) (acc : N) : option N :=
  match s with
  | String c s' =>
      match digit_of radix c with
      | Some d => read_radix radix s' (radix * acc + d)%N
      | None => None
      end
  | EmptyString => Some acc
  end.

(** [NonDecimalIntegerLiteral]: a radix prefix and at least one digit. *)
Definition read_non_decimal (s : string) : option N :=
  match s with
  | String z (String c (String d t)) =>
      if Ascii.eqb z "0" then
        if Ascii.eqb c "x" || Ascii.eqb c "X" then read_radix 16 (String d t) 0
        else if Ascii.eqb c "o" || Ascii.eqb c "O" then read_radix 8 (String d t) 0
        else if Ascii.eqb c "b" || Ascii.eqb c "B" then read_radix 2 (String d t) 0
        else None
      else None
  | _ => None
  end.

(** [Number(s)] on a string: white space is trimmed at both ends, the
    empty string is [+0], and the whole of what remains has to be a
    numeric literal. *)
Definition StringToNumber (s : string) : number :=
  let t := trim_end (trim_start s) in
  match t with
  | EmptyString => pos_zero
  | _ =>
      match read_non_decimal t with
      | Some n => of_Z (Z.of_N n)
      | None =>
          match read_decimal t with
          | Some (v, EmptyString) => v
          | _ => NaN
          end
      end
  end.

(** The characters a decimal literal can begin with: a digit, a sign,
    the point, and the [I] of [Infinity]. *)
Definition startsNumeric (c : ascii) : bool :=
  match digit_of 10 c with
  | Some _ => true
  | None =>
      Ascii.eqb c "+" || Ascii.eqb c "-" || Ascii.eqb c "." || Ascii.eqb c "I"
  end.

End JsNumber.

Export JsNumber.

(** ** Exceptions, promises and the clock *)

Module Js.

(** A thrown value, as the handlers read it: [err?.name] and
    [err.message], each possibly absent.  A thrown [undefined] reads like
    an error with neither. *)
Record JsError : Type := { name : option string; message : option string }.

Definition RangeError : JsError :=
  {| name := Some "RangeError"; message := Some "Invalid time value" |}.

(** A computation that returns or throws; an awaited promise that is
    fulfilled or rejected. *)
Variant result (A : Type) : Type :=
  | Ok (a : A)
  | Throw (e : JsError).
Arguments Ok {A} a.
Arguments Throw {A} e.

Definition bind {A B : Type} (m : result A) (k : A -> result B) : result B :=
  match m with
  | Ok a => k a
  | Throw e => Throw e
  end.

(** [try { m } catch (err) { h err }]. *)
Definition try_catch {A : Type} (m : result A) (h : JsError -> A) : A :=
  match m with
  | Ok a => a
  | Throw e => h e
  end.

(** [await Promise.all([p1, p2])]: both values when both promises are
    fulfilled, otherwise the reason of the promise that is rejected
    first.  [second_first] tells that the second promise settles before
    the first one. *)
Definition Promise_all {A B : Type} (second_first : bool)
           (p1 : result A) (p2 : result B) : result (A * B) :=
  match p1, p2 with
  | Ok a, Ok b => Ok (a, b)
  | Throw e, Ok _ => Throw e
  | Ok _, Throw e => Throw e
  | Throw e1, Throw e2 => Throw (if second_first then e2 else e1)
  end.

(** *** Dates

    A [Date] is its time value, in milliseconds since the epoch (UTC). *)
Definition msPerDay : Z := 86400000.

(** Time values range over 100,000,000 days on either side of the epoch;
    a [Date] built from anything else is invalid. *)
Definition valid_time (t : Z) : bool := Z.abs t <=? 8640000000000000.

Definition Day (t : Z) : Z := t / msPerDay.
Definition TimeWithinDay (t : Z) : Z := t mod msPerDay.

(** Within an era of 400 years (146097 days) that begins on the first of
    March: the year of the era, the month (1..12) and the day of the month
    of the day [doe] of the era. *)
Definition civil_of_doe (doe : Z) : Z * Z * Z :=
  let yoe := (doe - doe / 1460 + doe / 36524 - doe / 146096) / 365 in
  let doy := doe - (365 * yoe + yoe / 4 - yoe / 100) in
  let mp := (5 * doy + 2) / 153 in
  let d := doy - (153 * mp + 2) / 5 + 1 in
  let m := if mp <? 10 then mp + 3 else mp - 9 in
  (yoe, m, d).

(** Year, month and day of the month of a day number, in the proleptic
    Gregorian calendar. *)
Definition civil_from_days (days : Z) : Z * Z * Z :=
  let z := days + 719468 in
  let era := z / 146097 in
  let '(yoe, m, d) := civil_of_doe (z - era * 146097) in
  (yoe + era * 400 + (if m <=? 2 then 1 else 0), m, d).

(** The day of the era of a date given as in [civil_of_doe]. *)
Definition doe_of_civil (yoe m d : Z) : Z :=
  let mp := if 2 <? m then m - 3 else m + 9 in
  let doy := (153 * mp + 2) / 5 + d - 1 in
  yoe * 365 + yoe / 4 - yoe / 100 + doy.

(** The day number of a calendar date. *)
Definition days_from_civil (y m d : Z) : Z :=
  let y' := y - (if m <=? 2 then 1 else 0) in
  let era := y' / 400 in
  era * 146097 + doe_of_civil (y' - era * 400) m d - 719468.

Definition YearFromTime (t : Z) : Z := fst (fst (civil_from_days (Day t))).

Definition digit_char (d : Z) : ascii := ascii_of_N (48 + Z.to_N d).

(** The last [w] decimal digits of [n], zero-padded. *)
Fixpoint pad (w : nat) (n : Z) : string :=
  match w with
  | O => ""
  | S w' => pad w' (n / 10) ++ String (digit_char (n mod 10)) ""
  end.

(** Years 0 to 9999 are written with four digits, the others with a sign
    and six. *)
Definition year_string (y : Z) : string :=
  if (0 <=? y) && (y <=? 9999) then pad 4 y
  else (if y <? 0 then "-" else "+") ++ pad 6 (Z.abs y).

Definition date_string (days : Z) : string :=
  let '(y, m, d) := civil_from_days days in
  year_string y ++ "-" ++ pad 2 m ++ "-" ++ pad 2 d.

Definition time_string (ms : Z) : string :=
  pad 2 (ms / 3600000) ++ ":" ++ pad 2 (ms / 60000 mod 60) ++ ":"
  ++ pad 2 (ms / 1000 mod 60) ++ "." ++ pad 3 (ms mod 1000).

(** [d.toISOString()]; a [RangeError] on an invalid date. *)
Definition toISOString (t : Z) : result string :=
  if valid_time t
  then Ok (date_string (Day t) ++ "T" ++ time_string (TimeWithinDay t) ++ "Z")
  else Throw RangeError.

(** [s.slice(0, n)]. *)
Definition slice0 (n : nat) (s : string) : string := String.substring 0 n s.

(** *** [JSON.stringify] on strings *)

Definition hex_char (d : N) : ascii :=
  if N.ltb d 10 then ascii_of_N (48 + d) else ascii_of_N (87 + d).

Definition quote_char (c : ascii) : string :=
  let n := N_of_ascii c in
  if N.eqb n 8 then "\b"
  else if N.eqb n 9 then "\t"
  else if N.eqb n 10 then "\n"
  else if N.eqb n 12 then "\f"
  else if N.eqb n 13 then "\r"
  else if N.eqb n 34 then String "\"%char (String (ascii_of_N 34) "")
  else if N.eqb n 92 then "\\"
  else if N.ltb n 32
       then "\u00" ++ String (hex_char (n / 16)) (String (hex_char (n mod 16)) "")
       else String c "".

Fixpoint quote_body (s : string) : string :=
  match s with
  | String c s' => quote_char c ++ quote_body s'
  | EmptyString => ""
  end.

Definition dquote : string := String (ascii_of_N 34) "".

Definition JSON_quote (s : string) : string := dquote ++ quote_body s ++ dquote.

End Js.

Export Js.

(** ** The response cache

    [cache] is a [Map] from key to [{ expiresAt, value }]; the map is
    threaded through explicitly, and each [Date.now()] is an argument. *)

Module Cache.
Section Cache.

Context {V : Type}.

Record entry : Type := { expiresAt : Z; value : V }.

Definition CACHE_TTL_MS : Z := 60000.

Definition cacheGet (cache : gmap string entry) (key : string) (now : Z)
  : option V * gmap string entry :=
  match cache !! key with
  | None => (None, cache)
  | Some hit =>
      if expiresAt hit <? now
      then (None, delete key cache)
      else (Some (value hit), cache)
  end.

Definition cacheSet (cache : gmap string entry) (key : string) (v : V) (now : Z)
  : gmap string entry :=
  <[ key := {| expiresAt := now + CACHE_TTL_MS; value := v |} ]> cache.

End Cache.
Arguments entry V : clear implicits.
End Cache.

Export Cache.

(** ** The Cost Explorer client's data *)

(** What [GetCostAndUsage] answers; every member is optional, as the
    client declares it. *)
Module Response.

Record MetricValue : Type := { Amount : option string; Unit : option string }.

Record Group : Type :=
  { Keys : option (list string);
    Metrics : option (gmap string MetricValue) }.

Record DateInterval : Type := { Start : option string; End : option string }.

Record ResultByTime : Type :=
  { TimePeriod : option DateInterval;
    Total : option (gmap string MetricValue);
    Groups : option (list Group) }.

Record GetCostAndUsageResponse : Type :=
  { ResultsByTime : option (list ResultByTime) }.

End Response.

(** The input of a [GetCostAndUsageCommand]. *)
Module Request.

Record DateInterval : Type := { Start : string; End : string }.

Record GroupDefinition : Type := { Type_ : string; Key : string }.

Record DimensionValues : Type := { DimKey : string; Values : list string }.

Inductive Expression : Type :=
  | Not (e : Expression)
  | Dimensions (d : DimensionValues).

Record GetCostAndUsageCommand : Type :=
  { TimePeriod : DateInterval;
    Granularity : string;
    Metrics : list string;
    GroupBy : option (list GroupDefinition);
    Filter : option Expression }.

End Request.

(** [r ?? d] on an optional member. *)
Definition orElse {A : Type} (d : A) (o : option A) : A :=
  match o with Some a => a | None => d end.

(** [s || d] on an optional string: the empty string is falsy too. *)
Definition orString (d : string) (o : option string) : string :=
  match o with
  | Some EmptyString | None => d
  | Some s => s
  end.

(** [g.Keys?.[0]]. *)
Definition firstKey (g : Response.Group) : option string :=
  match Response.Keys g with
  | Some (k :: _) => Some k
  | _ => None
  end.

(** [g.Metrics?.UnblendedCost?.Amount]. *)
Definition unblendedAmount (g : Response.Group) : option string :=
  match Response.Metrics g with
  | Some m =>
      match m !! "UnblendedCost" with
      | Some v => Response.Amount v
      | None => None
      end
  | None => None
  end.

(** The groups of every period, in the order the nested [forEach] visits
    them. *)
Definition allGroups (out : Response.GetCostAndUsageResponse) : list Response.Group :=
  concat (map (fun r => orElse [] (Response.Groups r))
              (orElse [] (Response.ResultsByTime out))).

(** ** The summary classifier

    The classifier only adds numbers and compares record types, so it is
    written once over the arithmetic it uses: [zero], [plus] and the
    conversion [parse] of an amount string.  The server runs it on
    JavaScript numbers ([classifySummary] below). *)

Module Summary.

Record SummaryTotals (num : Type) : Type :=
  { usage : num; credit : num; tax : num; refund : num; other : num; total : num }.
Arguments usage {num} _.
Arguments credit {num} _.
Arguments tax {num} _.
Arguments refund {num} _.
Arguments other {num} _.
Arguments total {num} _.

(** [type === s], where [type] may be [undefined]. *)
Definition isType (type : option string) (s : string) : bool :=
  match type with
  | Some t => String.eqb t s
  | None => false
  end.

Section Classifier.

Context {num : Type} (zero : num) (plus : num -> num -> num)
        (parse : string -> num).

Definition emptySummary : SummaryTotals num :=
  {| usage := zero; credit := zero; tax := zero; refund := zero;
     other := zero; total := zero |}.

(** The amount a group contributes:
    [parseFloat(g.Metrics?.UnblendedCost?.Amount || "0")]. *)
Definition groupAmount (g : Response.Group) : num :=
  parse (orString "0" (unblendedAmount g)).

(** The body of the inner [forEach]. *)
Definition classifyGroup (s : SummaryTotals num) (g : Response.Group)
  : SummaryTotals num :=
  let type := firstKey g in
  let amount := groupAmount g in
  let t := plus (total s) amount in
  if isType type "Credit" then
    {| usage := usage s; credit := plus (credit s) amount; tax := tax s;
       refund := refund s; other := other s; total := t |}
  else if isType type "Tax" then
    {| usage := usage s; credit := credit s; tax := plus (tax s) amount;
       refund := refund s; other := other s; total := t |}
  else if isType type "Refund" then
    {| usage := usage s; credit := credit s; tax := tax s;
       refund := plus (refund s) amount; other := other s; total := t |}
  else if isType type "Usage" then
    {| usage := plus (usage s) amount; credit := credit s; tax := tax s;
       refund := refund s; other := other s; total := t |}
  else
    {| usage := usage s; credit := credit s; tax := tax s;
       refund := refund s; other := plus (other s) amount; total := t |}.

(** The sum of the five buckets, in the order the payload lists
    them: [usage + credit + tax + refund + other]. *)
Definition bucketSum (s : SummaryTotals num) : num :=
  plus (plus (plus (plus (usage s) (credit s)) (tax s)) (refund s)) (other s).

(** The two nested [forEach] loops over [summaryOut.ResultsByTime]. *)
Definition classify (summaryOut : Response.GetCostAndUsageResponse)
  : SummaryTotals num :=
  fold_left
    (fun s r => fold_left classifyGroup (orElse [] (Response.Groups r)) s)
    (orElse [] (Response.ResultsByTime summaryOut))
    emptySummary.

End Classifier.

(** The classifier as the server runs it. *)
Definition classifySummary : Response.GetCostAndUsageResponse -> SummaryTotals number :=
  classify pos_zero add parseFloat.

End Summary.

(** ** The result normalizer *)

Module Payload.

Record Metric : Type := { amount : number; unit : string }.

Record MetricSet : Type :=
  { unblended : Metric; amortized : Metric; blended : Metric;
    usage : Metric; netUnblended : Metric; netAmortized : Metric }.

Record Group : Type := { keys : list string; metrics : MetricSet }.

Record PeriodResult : Type :=
  { start : option string; end_ : option string;
    total : MetricSet; groups : list Group }.

(** [Number(obj?.Amount ?? 0)]. *)
Definition amountOf (a : option string) : number :=
  match a with
  | Some s => StringToNumber s
  | None => of_Z 0
  end.

(** [m?.[key]], [obj?.Amount] and [obj?.Unit]. *)
Definition metricOf (m : option (gmap string Response.MetricValue)) (key : string)
  : option Response.MetricValue :=
  match m with Some m => m !! key | None => None end.

Definition rawAmount (obj : option Response.MetricValue) : option string :=
  match obj with Some o => Response.Amount o | None => None end.

Definition rawUnit (obj : option Response.MetricValue) : option string :=
  match obj with Some o => Response.Unit o | None => None end.

(** [getMetric(m, key)], where [m] is a possibly absent record of metric
    values. *)
Definition getMetric (m : option (gmap string Response.MetricValue)) (key : string)
  : Metric :=
  let obj := metricOf m key in
  {| amount := amountOf (rawAmount obj); unit := orElse "USD" (rawUnit obj) |}.

Definition metricSet (m : option (gmap string Response.MetricValue)) : MetricSet :=
  {| unblended := getMetric m "UnblendedCost";
     amortized := getMetric m "AmortizedCost";
     blended := getMetric m "BlendedCost";
     usage := getMetric m "UsageQuantity";
     netUnblended := getMetric m "NetUnblendedCost";
     netAmortized := getMetric m "NetAmortizedCost" |}.

Definition normalizeGroup (g : Response.Group) : Group :=
  {| keys := orElse [] (Response.Keys g);
     metrics := metricSet (Response.Metrics g) |}.

Definition normalizePeriod (r : Response.ResultByTime) : PeriodResult :=
  {| start := match Response.TimePeriod r with
              | Some p => Response.Start p
              | None => None
              end;
     end_ := match Response.TimePeriod r with
             | Some p => Response.End p
             | None => None
             end;
     total := metricSet (Response.Total r);
     groups := map normalizeGroup (orElse [] (Response.Groups r)) |}.

Definition normalize (out : Response.GetCostAndUsageResponse) : list PeriodResult :=
  map normalizePeriod (orElse [] (Response.ResultsByTime out)).

End Payload.

(** ** [GET /api/costs] *)

Module Costs.

Variant Granularity : Type := DAILY | MONTHLY.
Variant Grouping : Type := SERVICE | NONE.

Definition granularityName (g : Granularity) : string :=
  match g with DAILY => "DAILY" | MONTHLY => "MONTHLY" end.

Definition groupingName (g : Grouping) : string :=
  match g with SERVICE => "SERVICE" | NONE => "NONE" end.

(** [req.query]: the four parameters the schema reads, each absent or a
    string. *)
Record RawQuery : Type :=
  { raw_start : option string; raw_end : option string;
    raw_granularity : option string; raw_groupBy : option string }.

(** [parsed.data]. *)
Record CostsQuery : Type :=
  { start : option string; end_ : option string;
    granularity : Granularity; groupBy : Grouping }.

Definition isDigit (c : ascii) : bool :=
  let n := N_of_ascii c in N.leb 48 n && N.leb n 57.

(** The schema's pattern for dates: four digits, a dash, two digits, a
    dash, two digits, and nothing else. *)
Definition isDateString (s : string) : bool :=
  match list_ascii_of_string s with
  | [y1; y2; y3; y4; d1; m1; m2; d2; a1; a2] =>
      isDigit y1 && isDigit y2 && isDigit y3 && isDigit y4
      && Ascii.eqb d1 "-" && isDigit m1 && isDigit m2
      && Ascii.eqb d2 "-" && isDigit a1 && isDigit a2
  | _ => false
  end.

Definition parseDate (o : option string) : option (option string) :=
  match o with
  | None => Some None
  | Some s => if isDateString s then Some (Some s) else None
  end.

Definition parseGranularity (o : option string) : option Granularity :=
  match o with
  | None => Some DAILY
  | Some s =>
      if String.eqb s "DAILY" then Some DAILY
      else if String.eqb s "MONTHLY" then Some MONTHLY
      else None
  end.

Definition parseGrouping (o : option string) : option Grouping :=
  match o with
  | None => Some SERVICE
  | Some s =>
      if String.eqb s "SERVICE" then Some SERVICE
      else if String.eqb s "NONE" then Some NONE
      else None
  end.

(** [costsQuerySchema.safeParse(req.query)]; [None] when it fails. *)
Definition safeParse (r : RawQuery) : option CostsQuery :=
  match parseDate (raw_start r), parseDate (raw_end r),
        parseGranularity (raw_granularity r), parseGrouping (raw_groupBy r) with
  | Some s, Some e, Some g, Some b =>
      Some {| start := s; end_ := e; granularity := g; groupBy := b |}
  | _, _, _, _ => None
  end.

(** [isoDate(d)]: the first ten characters of [d.toISOString()]. *)
Definition isoDate (d : Z) : result string :=
  bind (toISOString d) (fun s => Ok (slice0 10 s)).

(** The resolved [end] and [start]: the query's, or the defaults computed
    from [now = new Date()]. *)
Definition resolveEnd (now : Z) (q : CostsQuery) : result string :=
  match end_ q with
  | Some e => Ok e
  | None => isoDate now
  end.

Definition resolveStart (now : Z) (q : CostsQuery) : result string :=
  match start q with
  | Some s => Ok s
  | None => isoDate (now - 30 * 24 * 60 * 60 * 1000)
  end.

(** [JSON.stringify({ start, end, granularity: q.granularity,
    groupBy: q.groupBy })]. *)
Definition cacheKey (start end_ : string) (g : Granularity) (b : Grouping) : string :=
  "{" ++ JSON_quote "start" ++ ":" ++ JSON_quote start
  ++ "," ++ JSON_quote "end" ++ ":" ++ JSON_quote end_
  ++ "," ++ JSON_quote "granularity" ++ ":" ++ JSON_quote (granularityName g)
  ++ "," ++ JSON_quote "groupBy" ++ ":" ++ JSON_quote (groupingName b)
  ++ "}".

(** *** The query builder *)

Definition allMetrics : list string :=
  ["UnblendedCost"; "AmortizedCost"; "BlendedCost"; "UsageQuantity";
   "NetUnblendedCost"; "NetAmortizedCost"].

Definition cmd (start end_ : string) (q : CostsQuery)
  : Request.GetCostAndUsageCommand :=
  let groupBy :=
    match groupBy q with
    | SERVICE => Some [ {| Request.Type_ := "DIMENSION"; Request.Key := "SERVICE" |} ]
    | NONE => None
    end in
  {| Request.TimePeriod := {| Request.Start := start; Request.End := end_ |};
     Request.Granularity := granularityName (granularity q);
     Request.Metrics := allMetrics;
     Request.GroupBy := groupBy;
     Request.Filter :=
       Some (Request.Not
               (Request.Dimensions
                  {| Request.DimKey := "RECORD_TYPE";
                     Request.Values := ["Credit"; "Refund"] |})) |}.

Definition summaryCmd (start end_ : string) : Request.GetCostAndUsageCommand :=
  {| Request.TimePeriod := {| Request.Start := start; Request.End := end_ |};
     Request.Granularity := "MONTHLY";
     Request.Metrics := ["UnblendedCost"];
     Request.GroupBy :=
       Some [ {| Request.Type_ := "DIMENSION"; Request.Key := "RECORD_TYPE" |} ];
     Request.Filter := None |}.

(** *** The handler *)

Record CostsPayload : Type :=
  { p_start : string; p_end : string;
    p_granularity : Granularity; p_groupBy : Grouping;
    results : list Payload.PeriodResult;
    summary : Summary.SummaryTotals number }.

Variant body : Type :=
  | CostsBody (p : CostsPayload)
  | InvalidQuery (error : string)
  | UpstreamFailure (error message : string).

Record HttpResponse : Type := { status : Z; json : body }.

(** The message of the 500 answer:
    [err?.name ? `${err.name}: ${err.message ?? ""}` : "Unknown error"]. *)
Definition errorMessage (err : JsError) : string :=
  match name err with
  | Some EmptyString | None => "Unknown error"
  | Some n => n ++ ": " ++ orElse "" (message err)
  end.

(** The three readings of the clock in one request: [new Date()], the
    [Date.now()] of the cache lookup and the one of the cache write. *)
Record Clock : Type := { now : Z; lookupTime : Z; storeTime : Z }.

(** The handler, from the query, the clock, the upstream client [send],
    the order in which its two answers arrive, and the cache, to the
    answer and the cache it leaves.  A [Throw] is an exception that
    escapes the handler. *)
Definition handler (clock : Clock) (query : RawQuery)
           (send : Request.GetCostAndUsageCommand -> result Response.GetCostAndUsageResponse)
           (second_first : bool)
           (cache : gmap string (entry CostsPayload))
  : result HttpResponse * gmap string (entry CostsPayload) :=
  match safeParse query with
  | None => (Ok {| status := 400; json := InvalidQuery "Invalid query" |}, cache)
  | Some q =>
      match bind (resolveEnd (now clock) q)
                 (fun e => bind (resolveStart (now clock) q) (fun s => Ok (s, e))) with
      | Throw err => (Throw err, cache)
      | Ok (start, end_) =>
          let key := cacheKey start end_ (granularity q) (groupBy q) in
          match cacheGet cache key (lookupTime clock) with
          | (Some cached, cache1) =>
              (Ok {| status := 200; json := CostsBody cached |}, cache1)
          | (None, cache1) =>
              match Promise_all second_first
                      (send (cmd start end_ q))
                      (send (summaryCmd start end_)) with
              | Ok (out, summaryOut) =>
                  let payload :=
                    {| p_start := start; p_end := end_;
                       p_granularity := granularity q; p_groupBy := groupBy q;
                       results := Payload.normalize out;
                       summary := Summary.classifySummary summaryOut |} in
                  (Ok {| status := 200; json := CostsBody payload |},
                   cacheSet cache1 key payload (storeTime clock))
              | Throw err =>
                  (Ok {| status := 500;
                         json := UpstreamFailure
                                   "Failed to fetch costs from AWS Cost Explorer"
                                   (errorMessage err) |},
                   cache1)
              end
          end
      end
  end.

End Costs.

(** ** [GET /api/credits] *)

Module Credits.

Record ServiceAmount : Type := { service : string; amount : number }.

Record CreditsPayload : Type :=
  { total_used : number; by_service : list ServiceAmount }.

(** [serviceMap]: a [Map] iterates in insertion order and [set] on a key
    already present keeps its place, so it is a list of bindings. *)
Fixpoint mapGet (m : list (string * number)) (k : string) : option number :=
  match m with
  | [] => None
  | (k', v) :: m' => if String.eqb k k' then Some v else mapGet m' k
  end.

Fixpoint mapSet (m : list (string * number)) (k : string) (v : number)
  : list (string * number) :=
  match m with
  | [] => [(k, v)]
  | (k', v') :: m' =>
      if String.eqb k k' then (k, v) :: m' else (k', v') :: mapSet m' k v
  end.

(** [v || 0] on what [serviceMap.get] returns: [undefined], [NaN] and the
    two zeros are falsy. *)
Definition orZero (o : option number) : number :=
  match o with
  | None | Some S754_nan | Some (S754_zero _) => pos_zero
  | Some v => v
  end.

(** [g.Keys?.[0] || "Unknown"]. *)
Definition serviceOf (g : Response.Group) : string :=
  orString "Unknown" (firstKey g).

(** [parseFloat(g.Metrics?.UnblendedCost?.Amount || "0")]. *)
Definition amountOf (g : Response.Group) : number :=
  parseFloat (orString "0" (unblendedAmount g)).

(** The body of the inner [forEach], on [(totalUsed, serviceMap)]. *)
Definition accumulate (st : number * list (string * number)) (g : Response.Group)
  : number * list (string * number) :=
  let '(totalUsed, serviceMap) := st in
  let service := serviceOf g in
  let amount := amountOf g in
  (add totalUsed amount,
   mapSet serviceMap service (add (orZero (mapGet serviceMap service)) amount)).

Definition aggregate (out : Response.GetCostAndUsageResponse)
  : number * list (string * number) :=
  fold_left
    (fun st r => fold_left accumulate (orElse [] (Response.Groups r)) st)
    (orElse [] (Response.ResultsByTime out))
    (pos_zero, []).

(** [Array.prototype.sort] with a comparator: the sort is stable; [x]
    goes behind [y] when the comparator's result on [(x, y)] is positive,
    and a [NaN] result counts as zero.  With a consistent comparator the
    outcome of a stable sort is unique; it is computed here by
    insertion. *)
Section Sort.
Context {A : Type} (compare : A -> A -> number).

Fixpoint insert (x : A) (l : list A) : list A :=
  match l with
  | [] => [x]
  | y :: l' => if is_pos (compare x y) then y :: insert x l' else x :: l
  end.

Definition sort (l : list A) : list A := fold_right insert [] l.
End Sort.

(** [(a, b) => b.amount - a.amount]. *)
Definition byAmountDesc (a b : ServiceAmount) : number :=
  sub (amount b) (amount a).

(** [a] goes before [b] in a list sorted descending by amount. *)
Definition descending (a b : ServiceAmount) : Prop :=
  geb (amount a) (amount b) = true.

(** What [serviceMap] holds for a service after the groups [gs]: nothing
    when no group is of the service, otherwise the running sum of its
    amounts, each step being [(serviceMap.get(service) || 0) + amount]. *)
Definition serviceTotal (svc : string) (gs : list Response.Group) : option number :=
  fold_left
    (fun acc g =>
       if String.eqb svc (serviceOf g)
       then Some (add (orZero acc) (amountOf g))
       else acc)
    gs None.

Definition toEntry (kv : string * number) : ServiceAmount :=
  {| service := fst kv; amount := abs (snd kv) |}.

Definition creditsPayload (out : Response.GetCostAndUsageResponse) : CreditsPayload :=
  let '(totalUsed, serviceMap) := aggregate out in
  {| total_used := abs totalUsed;
     by_service := sort byAmountDesc (map toEntry serviceMap) |}.

Definition cmd (start end_ : string) : Request.GetCostAndUsageCommand :=
  {| Request.TimePeriod := {| Request.Start := start; Request.End := end_ |};
     Request.Granularity := "MONTHLY";
     Request.Metrics := ["UnblendedCost"];
     Request.GroupBy :=
       Some [ {| Request.Type_ := "DIMENSION"; Request.Key := "SERVICE" |} ];
     Request.Filter :=
       Some (Request.Dimensions
               {| Request.DimKey := "RECORD_TYPE"; Request.Values := ["Credit"] |}) |}.

Record HttpResponse : Type := { status : Z; json : CreditsPayload }.

Definition fallback : CreditsPayload :=
  {| total_used := of_Z 0; by_service := [] |}.

(** The handler: [now] is [new Date()], [now'] the [Date.now()] of the
    next line; everything up to [res.json] is inside the [try]. *)
Definition handler (now now' : Z)
           (send : Request.GetCostAndUsageCommand -> result Response.GetCostAndUsageResponse)
  : HttpResponse :=
  try_catch
    (bind (Costs.isoDate now) (fun end_ =>
     bind (Costs.isoDate (now' - 365 * 24 * 60 * 60 * 1000)) (fun start =>
     bind (send (cmd start end_)) (fun out =>
     Ok {| status := 200; json := creditsPayload out |}))))
    (fun _ => {| status := 200; json := fallback |}).

End Credits.

(** ** Exact arithmetic on decimal amounts

    The reading of the classifier in exact arithmetic: amounts are the
    rationals their decimal literals denote, added without rounding. *)

Module Exact.

Definition exact_of_literal (sg : bool) (lit : literal) : Qc :=
  match lit with
  | LitInfinity => Q2Qc 0
  | LitDecimal m k =>
      let v := (inject_Z (Z.of_N m) * Qpower (inject_Z 10) k)%Q in
      Q2Qc (if sg then Qopp v else v)
  end.

(** The exact value of the literal [parseFloat] reads; zero where it
    reads none, or an infinite one. *)
Definition parseExact (s : string) : Qc :=
  match read_literal (trim_start s) with
  | Some (sg, lit, _) => exact_of_literal sg lit
  | None => Q2Qc 0
  end.

Definition classifySummary : Response.GetCostAndUsageResponse -> Summary.SummaryTotals Qc :=
  Summary.classify (Q2Qc 0) Qcplus parseExact.

End Exact.

(** ** Sample upstream answers *)

Module Sample.

Definition metrics (amount : string) : gmap string Response.MetricValue :=
  {[ "UnblendedCost" := {| Response.Amount := Some amount; Response.Unit := Some "USD" |} ]}.

(** A group with one key and an unblended amount. *)
Definition group (key amount : string) : Response.Group :=
  {| Response.Keys := Some [key]; Response.Metrics := Some (metrics amount) |}.

(** An answer of one period that holds the given groups. *)
Definition response (gs : list Response.Group) : Response.GetCostAndUsageResponse :=
  {| Response.ResultsByTime :=
       Some [ {| Response.TimePeriod := None; Response.Total := None;
                 Response.Groups := Some gs |} ] |}.

Definition failure : JsError :=
  {| name := Some "AccessDeniedException"; message := Some "not authorized" |}.

(** A query for two days of January 2024, its cache key, and a payload
    cached for it. *)
Definition query : Costs.RawQuery :=
  {| Costs.raw_start := Some "2024-01-01"; Costs.raw_end := Some "2024-01-03";
     Costs.raw_granularity := Some "DAILY"; Costs.raw_groupBy := Some "SERVICE" |}.

Definition key : string :=
  Costs.cacheKey "2024-01-01" "2024-01-03" Costs.DAILY Costs.SERVICE.

Definition payload : Costs.CostsPayload :=
  {| Costs.p_start := "2024-01-01"; Costs.p_end := "2024-01-03";
     Costs.p_granularity := Costs.DAILY; Costs.p_groupBy := Costs.SERVICE;
     Costs.results := [];
     Costs.summary := Summary.emptySummary pos_zero |}.

(** 14 November 2023, 22:13:20 UTC, for all three readings. *)
Definition clock : Costs.Clock :=
  {| Costs.now := 1700000000000; Costs.lookupTime := 1700000000000;
     Costs.storeTime := 1700000000000 |}.

(** A cache whose only entry, under [key], expired long ago. *)
Definition staleCache : gmap string (entry Costs.CostsPayload) :=
  {[ key := {| expiresAt := 1600000000000; value := payload |} ]}.

Definition failing (_ : Request.GetCostAndUsageCommand)
  : result Response.GetCostAndUsageResponse := Throw failure.

End Sample.

(** ** Notions used to state further properties *)

(** Reading one character of a JSON string body back: the inverse of
    [quote_char] at the head of a string, [None] at the closing quote or
    at something [quote_char] does not write. *)
Definition unquote_char (s : string) : option (ascii * string) :=
  match s with
  | EmptyString => None
  | String a rest =>
      if Ascii.eqb a (ascii_of_N 34) then None
      else if Ascii.eqb a "\" then
        match rest with
        | EmptyString => None
        | String b rest' =>
            if Ascii.eqb b "b" then Some (ascii_of_N 8, rest')
            else if Ascii.eqb b "t" then Some (ascii_of_N 9, rest')
            else if Ascii.eqb b "n" then Some (ascii_of_N 10, rest')
            else if Ascii.eqb b "f" then Some (ascii_of_N 12, rest')
            else if Ascii.eqb b "r" then Some (ascii_of_N 13, rest')
            else if Ascii.eqb b (ascii_of_N 34) then Some (ascii_of_N 34, rest')
            else if Ascii.eqb b "\" then Some (ascii_of_N 92, rest')
            else if Ascii.eqb b "u" then
              match rest' with
              | String _ (String _ (String h (String l rest''))) =>
                  match digit_of 16 h, digit_of 16 l with
                  | Some x, Some y => Some (ascii_of_N (16 * x + y), rest'')
                  | _, _ => None
                  end
              | _ => None
              end
            else None
        end
      else Some (a, rest)
  end.

(** A query the schema rejects: a date that is present and not of the
    form YYYY-MM-DD, or a granularity or grouping that is present and not
    one of the two words allowed. *)
Definition malformed (r : Costs.RawQuery) : Prop :=
  (exists s, Costs.raw_start r = Some s /\ Costs.isDateString s = false)
  \/ (exists s, Costs.raw_end r = Some s /\ Costs.isDateString s = false)
  \/ (exists s, Costs.raw_granularity r = Some s /\ s <> "DAILY" /\ s <> "MONTHLY")
  \/ (exists s, Costs.raw_groupBy r = Some s /\ s <> "SERVICE" /\ s <> "NONE").

(** The key under which the handler stores a payload. *)
Definition keyOf (p : Costs.CostsPayload) : string :=
  Costs.cacheKey (Costs.p_start p) (Costs.p_end p)
                 (Costs.p_granularity p) (Costs.p_groupBy p).

(** Every entry of the cache sits under the key of the query its payload
    echoes. *)
Definition consistent (cache : gmap string (entry Costs.CostsPayload)) : Prop :=
  forall k e, cache !! k = Some e -> k = keyOf (value e).

(** An upstream client that answers every command with [out]. *)
Definition answering (out : Response.GetCostAndUsageResponse)
           (_ : Request.GetCostAndUsageCommand)
  : result Response.GetCostAndUsageResponse := Ok out.

(** The answer of the costs handler on a payload, and on a failure. *)
Definition okResponse (p : Costs.CostsPayload) : Costs.HttpResponse :=
  {| Costs.status := 200; Costs.json := Costs.CostsBody p |}.

Definition badRequest : Costs.HttpResponse :=
  {| Costs.status := 400; Costs.json := Costs.InvalidQuery "Invalid query" |}.

Definition upstreamError (err : JsError) : Costs.HttpResponse :=
  {| Costs.status := 500;
     Costs.json := Costs.UpstreamFailure "Failed to fetch costs from AWS Cost Explorer"
                                         (Costs.errorMessage err) |}.

(** The payload the handler builds from the two upstream answers. *)
Definition payloadOf (start end_ : string) (q : Costs.CostsQuery)
           (out summaryOut : Response.GetCostAndUsageResponse) : Costs.CostsPayload :=
  {| Costs.p_start := start; Costs.p_end := end_;
     Costs.p_granularity := Costs.granularity q; Costs.p_groupBy := Costs.groupBy q;
     Costs.results := Payload.normalize out;
     Costs.summary := Summary.classifySummary summaryOut |}.

(** A group whose record type (its first key) is exactly [t], and a
    group whose record type is none of the four the classifier knows. *)
Definition ofType (t : string) (g : Response.Group) : bool :=
  Summary.isType (firstKey g) t.

Definition ofOtherType (g : Response.Group) : bool :=
  negb (ofType "Credit" g) && negb (ofType "Tax" g)
  && negb (ofType "Refund" g) && negb (ofType "Usage" g).

(** The amounts of the groups [gs] added one after the other, from left
    to right, onto [zero]. *)
Definition runningSum {num : Type} (zero : num) (plus : num -> num -> num)
           (parse : string -> num) (gs : list Response.Group) : num :=
  fold_left (fun acc g => plus acc (Summary.groupAmount parse g)) gs zero.

(** The raw query that spells out the dates of [now] wherever the given
    one leaves a date out. *)
Definition withDefaults (now : Z) (r : Costs.RawQuery) : Costs.RawQuery :=
  {| Costs.raw_start := Some (orElse (date_string (Day now - 30)) (Costs.raw_start r));
     Costs.raw_end := Some (orElse (date_string (Day now)) (Costs.raw_end r));
     Costs.raw_granularity := Costs.raw_granularity r;
     Costs.raw_groupBy := Costs.raw_groupBy r |}.

(** A plain decimal numeral: an optional minus sign, one or more digits
    and, optionally, a point followed by one or more digits. *)
Fixpoint dropDigits (s : string) : string :=
  match s with
  | String c s' => if Costs.isDigit c then dropDigits s' else s
  | EmptyString => EmptyString
  end.

Definition startsWithDigit (s : string) : bool :=
  match s with
  | String c _ => Costs.isDigit c
  | EmptyString => false
  end.

Definition unsignedDecimal (s : string) : bool :=
  startsWithDigit s
  && match dropDigits s with
     | EmptyString => true
     | String c fp =>
         Ascii.eqb c "." && startsWithDigit fp
         && match dropDigits fp with EmptyString => true | _ => false end
     end.

Definition plainDecimal (s : string) : bool :=
  match s with
  | String c t => if Ascii.eqb c "-" then unsignedDecimal t else unsignedDecimal s
  | EmptyString => false
  end.

Fixpoint no_space (s : string) : bool :=
  match s with
  | String c s' => negb (is_space c) && no_space s'
  | EmptyString => true
  end.

(** ** Requests in flight

    The costs handler is an [async] function with one [await]: what comes
    before it (validation, default dates, the cache lookup and the two
    [send] calls) runs when the request arrives, what comes after it (the
    normalizer, the classifier, the cache write and the answer) runs when
    the two upstream answers are in.  Between the two, other requests
    arrive and other answers come in, all on the one cache. *)

Module Server.

(** What a request waits with: the resolved dates and the parsed query. *)
Record InFlight : Type :=
  { f_start : string; f_end : string; f_query : Costs.CostsQuery }.

Definition f_key (f : InFlight) : string :=
  Costs.cacheKey (f_start f) (f_end f)
                 (Costs.granularity (f_query f)) (Costs.groupBy (f_query f)).

(** The two commands sent for a request in flight. *)
Definition commands (f : InFlight)
  : Request.GetCostAndUsageCommand * Request.GetCostAndUsageCommand :=
  (Costs.cmd (f_start f) (f_end f) (f_query f),
   Costs.summaryCmd (f_start f) (f_end f)).

Variant Arrival : Type :=
  | Answered (r : result Costs.HttpResponse)
  | Awaiting (f : InFlight).

(** The handler up to its [await]. *)
Definition arrive (now lookupTime : Z) (query : Costs.RawQuery)
           (cache : gmap string (entry Costs.CostsPayload))
  : Arrival * gmap string (entry Costs.CostsPayload) :=
  match Costs.safeParse query with
  | None =>
      (Answered (Ok {| Costs.status := 400;
                       Costs.json := Costs.InvalidQuery "Invalid query" |}),
       cache)
  | Some q =>
      match bind (Costs.resolveEnd now q)
                 (fun e => bind (Costs.resolveStart now q) (fun s => Ok (s, e))) with
      | Throw err => (Answered (Throw err), cache)
      | Ok (start, end_) =>
          let key := Costs.cacheKey start end_ (Costs.granularity q) (Costs.groupBy q) in
          match cacheGet cache key lookupTime with
          | (Some cached, cache1) =>
              (Answered (Ok {| Costs.status := 200; Costs.json := Costs.CostsBody cached |}),
               cache1)
          | (None, cache1) =>
              (Awaiting {| f_start := start; f_end := end_; f_query := q |}, cache1)
          end
      end
  end.

(** The payload built from the two upstream answers. *)
Definition payload (f : InFlight) (out summaryOut : Response.GetCostAndUsageResponse)
  : Costs.CostsPayload :=
  {| Costs.p_start := f_start f; Costs.p_end := f_end f;
     Costs.p_granularity := Costs.granularity (f_query f);
     Costs.p_groupBy := Costs.groupBy (f_query f);
     Costs.results := Payload.normalize out;
     Costs.summary := Summary.classifySummary summaryOut |}.

(** The handler from its [await] on: [answers] is what [Promise.all]
    settles with. *)
Definition settle (f : InFlight)
           (answers : result (Response.GetCostAndUsageResponse
                              * Response.GetCostAndUsageResponse))
           (storeTime : Z) (cache : gmap string (entry Costs.CostsPayload))
  : Costs.HttpResponse * gmap string (entry Costs.CostsPayload) :=
  match answers with
  | Ok (out, summaryOut) =>
      ({| Costs.status := 200; Costs.json := Costs.CostsBody (payload f out summaryOut) |},
       cacheSet cache (f_key f) (payload f out summaryOut) storeTime)
  | Throw err =>
      ({| Costs.status := 500;
          Costs.json := Costs.UpstreamFailure
                          "Failed to fetch costs from AWS Cost Explorer"
                          (Costs.errorMessage err) |},
       cache)
  end.

(** The server between two events: the cache and the requests that wait
    for their answers, by request. *)
Record State : Type :=
  { cache : gmap string (entry Costs.CostsPayload);
    inflight : gmap nat InFlight }.

Definition initial : State := {| cache := ∅; inflight := ∅ |}.

(** What happens to the server: a request arrives, at the given readings
    of the clock; or the answers to the two commands of a request in
    flight are in. *)
Variant Event : Type :=
  | Arrives (id : nat) (now lookupTime : Z) (query : Costs.RawQuery)
  | Settles (id : nat) (storeTime : Z)
            (answers : result (Response.GetCostAndUsageResponse
                               * Response.GetCostAndUsageResponse)).

Variant Output : Type :=
  | Replies (id : nat) (r : result Costs.HttpResponse)
  | Sends (id : nat) (f : InFlight)
  | Nothing.

Definition step (st : State) (ev : Event) : State * Output :=
  match ev with
  | Arrives id now lookupTime query =>
      match arrive now lookupTime query (cache st) with
      | (Answered r, cache1) =>
          ({| cache := cache1; inflight := inflight st |}, Replies id r)
      | (Awaiting f, cache1) =>
          ({| cache := cache1; inflight := <[id := f]> (inflight st) |}, Sends id f)
      end
  | Settles id storeTime answers =>
      match inflight st !! id with
      | Some f =>
          let '(r, cache2) := settle f answers storeTime (cache st) in
          ({| cache := cache2; inflight := delete id (inflight st) |}, Replies id (Ok r))
      | None => (st, Nothing)
      end
  end.

(** The state after a sequence of events. *)
Definition run (st : State) (evs : list Event) : State :=
  fold_left (fun st ev => fst (step st ev)) evs st.

End Server.

(** The entry [e] under the key [k] was stored during the events [evs]:
    one of them brought the answers to a request in flight for that key,
    at the store time [s], and [e] holds the payload built from them and
    expires 60000 ms after [s]. *)
Definition storedBy (evs : list Server.Event) (k : string)
           (e : entry Costs.CostsPayload) : Prop :=
  exists pre post id s out summaryOut f,
    evs = (pre ++ Server.Settles id s (Ok (out, summaryOut)) :: post)%list
    /\ Server.inflight (Server.run Server.initial pre) !! id = Some f
    /\ k = Server.f_key f
    /\ value e = Server.payload f out summaryOut
    /\ expiresAt e = s + 60000.

(** Two numbers that are the same value, bit for bit, can be told. *)
#[global] Instance number_eq_dec : EqDecision number.
Proof. solve_decision. Defined.

(** The distinct members of a list, each at its first occurrence. *)
Fixpoint firstOccurrences (l : list string) : list string :=
  match l with
  | [] => []
  | k :: l' => k :: filter (fun k' => k' <> k) (firstOccurrences l')
  end.

(** The entry [by_service] holds for a service, given the groups. *)
Definition entryOf (gs : list Response.Group) (svc : string) : Credits.ServiceAmount :=
  {| Credits.service := svc;
     Credits.amount := abs (orElse pos_zero (Credits.serviceTotal svc gs)) |}.

(** * Properties *)

(** ** The response cache *)

Section CacheFacts.

Context {V : Type}.
Implicit Types (cache : gmap string (entry V)) (key : string) (v : V).

Lemma cacheGet_hit cache key hit now :
  cache !! key = Some hit -> now <= expiresAt hit ->
  cacheGet cache key now = (Some (value hit), cache).
Proof.
  intros Hk Hle. unfold cacheGet. rewrite Hk.
  destruct (Z.ltb_spec (expiresAt hit) now); [lia | reflexivity].
Qed.

Lemma cacheGet_expired cache key hit now :
  cache !! key = Some hit -> expiresAt hit < now ->
  cacheGet cache key now = (None, delete key cache).
Proof.
  intros Hk Hlt. unfold cacheGet. rewrite Hk.
  destruct (Z.ltb_spec (expiresAt hit) now); [reflexivity | lia].
Qed.

Lemma cacheGet_miss cache key now :
  cache !! key = None -> cacheGet cache key now = (None, cache).
Proof. intros Hk. unfold cacheGet. now rewrite Hk. Qed.

Lemma cacheGet_Some_inv cache key now v cache' :
  cacheGet cache key now = (Some v, cache') ->
  exists hit, cache !! key = Some hit /\ value hit = v
              /\ now <= expiresAt hit /\ cache' = cache.
Proof.
  unfold cacheGet. destruct (cache !! key) as [hit|] eqn:Hk; [|discriminate].
  destruct (Z.ltb_spec (expiresAt hit) now); [discriminate|].
  intros [= <- <-]. exists hit. auto.
Qed.

Lemma cacheSet_lookup cache key v t :
  cacheSet cache key v t !! key
  = Some {| expiresAt := t + CACHE_TTL_MS; value := v |}.
Proof. unfold cacheSet. apply lookup_insert_eq. Qed.

Lemma cacheSet_lookup_ne cache key key' v t :
  key <> key' -> cacheSet cache key v t !! key' = cache !! key'.
Proof. intros Hne. unfold cacheSet. now apply lookup_insert_ne. Qed.

(** A lookup under another key does not see what [cacheSet] stored: it
    answers as on the cache before, and leaves the new entry alone. *)
Lemma cacheGet_cacheSet_ne cache key key' v t now :
  key <> key' ->
  fst (cacheGet (cacheSet cache key v t) key' now) = fst (cacheGet cache key' now).
Proof.
  intros Hne. unfold cacheGet. rewrite cacheSet_lookup_ne by assumption.
  destruct (cache !! key') as [hit|]; [|reflexivity].
  now destruct (expiresAt hit <? now).
Qed.

End CacheFacts.

(** C3. Reading a key back at any time up to 60000 ms after [cacheSet]
    stored a payload under it returns that payload and leaves the map as it
    is; a lookup strictly after an entry's [expiresAt] returns nothing and
    deletes the entry, so that the key is absent afterwards; and whenever a
    lookup returns a payload, it is the payload of an entry whose
    [expiresAt] is not before the time of the lookup. *)
Theorem cache_round_trip_and_expiry :
  forall (V : Type) (cache : gmap string (entry V)) (key : string) (payload : V)
         (t now : Z),
    (now <= t + 60000 ->
     cacheGet (cacheSet cache key payload t) key now
     = (Some payload, cacheSet cache key payload t))
    /\ (forall hit, cache !! key = Some hit -> expiresAt hit < now ->
        cacheGet cache key now = (None, delete key cache)
        /\ delete key cache !! key = None)
    /\ (forall v cache', cacheGet cache key now = (Some v, cache') ->
        exists hit, cache !! key = Some hit /\ value hit = v
                    /\ now <= expiresAt hit).
Proof.
  intros V cache key payload t now. split; [|split].
  - intros Hle.
    apply (cacheGet_hit _ key {| expiresAt := t + CACHE_TTL_MS; value := payload |}).
    + apply cacheSet_lookup.
    + exact Hle.
  - intros hit Hk Hlt. split.
    + now apply cacheGet_expired with hit.
    + apply lookup_delete_eq.
  - intros v cache' Hget.
    destruct (cacheGet_Some_inv _ _ _ _ _ Hget) as (hit & Hk & Hv & Hle & _).
    exists hit. auto.
Qed.

Lemma cache_round_trip_and_expiry_witness :
  cacheGet (cacheSet (∅ : gmap string (entry nat)) "k" 7%nat 1000) "k" 61000
  = (Some 7%nat, cacheSet ∅ "k" 7%nat 1000)
  /\ (cacheGet (cacheSet (∅ : gmap string (entry nat)) "k" 7%nat 1000) "k" 61001
      = (None, delete "k" (cacheSet ∅ "k" 7%nat 1000))
      /\ delete "k" (cacheSet (∅ : gmap string (entry nat)) "k" 7%nat 1000) !! "k" = None).
Proof.
  split.
  - apply (cache_round_trip_and_expiry nat ∅ "k" 7%nat 1000 61000). lia.
  - apply (cache_round_trip_and_expiry nat (cacheSet ∅ "k" 7%nat 1000) "k" 7%nat 1000 61001)
      with (hit := {| expiresAt := 61000; value := 7%nat |}).
    + reflexivity.
    + simpl. lia.
Defined.

(** ** The query builder *)

(** C8. For every resolved time range and validated query the builder
    makes two commands.  The detail command has the given time range, the
    requested granularity, the six metrics, a grouping by the SERVICE
    dimension exactly when [groupBy] is SERVICE (none otherwise), and the
    filter that excludes the record types Credit and Refund.  The summary
    command has the same time range, MONTHLY granularity whatever was
    requested, the single metric UnblendedCost, a grouping by the
    RECORD_TYPE dimension, and no filter. *)
Theorem query_builder_commands :
  forall (start end_ : string) (q : Costs.CostsQuery),
    let d := Costs.cmd start end_ q in
    let s := Costs.summaryCmd start end_ in
    Request.TimePeriod d = {| Request.Start := start; Request.End := end_ |}
    /\ Request.Granularity d = Costs.granularityName (Costs.granularity q)
    /\ Request.Metrics d
       = ["UnblendedCost"; "AmortizedCost"; "BlendedCost"; "UsageQuantity";
          "NetUnblendedCost"; "NetAmortizedCost"]
    /\ (Costs.groupBy q = Costs.SERVICE <->
        Request.GroupBy d
        = Some [ {| Request.Type_ := "DIMENSION"; Request.Key := "SERVICE" |} ])
    /\ (Costs.groupBy q = Costs.NONE <-> Request.GroupBy d = None)
    /\ Request.Filter d
       = Some (Request.Not
                 (Request.Dimensions
                    {| Request.DimKey := "RECORD_TYPE";
                       Request.Values := ["Credit"; "Refund"] |}))
    /\ Request.TimePeriod s = {| Request.Start := start; Request.End := end_ |}
    /\ Request.Granularity s = "MONTHLY"
    /\ Request.Metrics s = ["UnblendedCost"]
    /\ Request.GroupBy s
       = Some [ {| Request.Type_ := "DIMENSION"; Request.Key := "RECORD_TYPE" |} ]
    /\ Request.Filter s = None.
Proof.
  intros start end_ q d s. subst d s. unfold Costs.cmd, Costs.summaryCmd.
  cbn [Request.TimePeriod Request.Granularity Request.Metrics Request.GroupBy
       Request.Filter].
  repeat split; try reflexivity;
    destruct (Costs.groupBy q); intros H; try reflexivity; discriminate H.
Qed.

(** The handler consults the upstream client on these two commands and on
    nothing else. *)
Lemma handler_sends_two_commands clock query send send' second_first cache :
  (forall start end_ q,
      send (Costs.cmd start end_ q) = send' (Costs.cmd start end_ q)) ->
  (forall start end_,
      send (Costs.summaryCmd start end_) = send' (Costs.summaryCmd start end_)) ->
  Costs.handler clock query send second_first cache
  = Costs.handler clock query send' second_first cache.
Proof.
  intros Hd Hs. unfold Costs.handler.
  destruct (Costs.safeParse query) as [q|]; [|reflexivity].
  destruct (bind _ _) as [[start end_]|err]; [|reflexivity].
  destruct (cacheGet _ _ _) as [[cached|] cache1]; [reflexivity|].
  now rewrite Hd, Hs.
Qed.

(** ** Cache keys *)

Lemma list_ascii_of_string_app (s t : string) :
  list_ascii_of_string (s ++ t) = (list_ascii_of_string s ++ list_ascii_of_string t)%list.
Proof. induction s as [|c s IH]; simpl; [reflexivity | now rewrite IH]. Qed.

Lemma string_app_assoc (s t u : string) : (s ++ t) ++ u = s ++ (t ++ u).
Proof.
  induction s as [|c s IH]; [reflexivity|].
  change (String c ((s ++ t) ++ u) = String c (s ++ (t ++ u))). now f_equal.
Qed.

(** The key ends with the serialized [groupBy] member. *)
Lemma cacheKey_tail start end_ g b :
  exists head : string,
    Costs.cacheKey start end_ g b
    = head ++ (JSON_quote (Costs.groupingName b) ++ "}").
Proof.
  exists ("{" ++ JSON_quote "start" ++ ":" ++ JSON_quote start
          ++ "," ++ JSON_quote "end" ++ ":" ++ JSON_quote end_
          ++ "," ++ JSON_quote "granularity" ++ ":"
          ++ JSON_quote (Costs.granularityName g)
          ++ "," ++ JSON_quote "groupBy" ++ ":").
  unfold Costs.cacheKey. now rewrite !string_app_assoc.
Qed.

Lemma cacheKey_groupBy_ne s1 e1 g1 s2 e2 g2 :
  Costs.cacheKey s1 e1 g1 Costs.SERVICE <> Costs.cacheKey s2 e2 g2 Costs.NONE.
Proof.
  destruct (cacheKey_tail s1 e1 g1 Costs.SERVICE) as [h1 ->].
  destruct (cacheKey_tail s2 e2 g2 Costs.NONE) as [h2 ->].
  change (JSON_quote (Costs.groupingName Costs.SERVICE) ++ "}")
    with ((dquote ++ "SERVI") ++ ("CE" ++ dquote ++ "}")).
  change (JSON_quote (Costs.groupingName Costs.NONE) ++ "}")
    with ((dquote ++ "NO") ++ ("NE" ++ dquote ++ "}")).
  rewrite <- (string_app_assoc h1 _ ("CE" ++ dquote ++ "}")).
  rewrite <- (string_app_assoc h2 _ ("NE" ++ dquote ++ "}")).
  intros Heq. apply (f_equal list_ascii_of_string) in Heq.
  rewrite (list_ascii_of_string_app _ ("CE" ++ dquote ++ "}")) in Heq.
  rewrite (list_ascii_of_string_app _ ("NE" ++ dquote ++ "}")) in Heq.
  apply app_inj_2 in Heq; [|reflexivity].
  destruct Heq as [_ Heq]. discriminate Heq.
Qed.

(** C9. Two resolved queries that differ in [groupBy] have different cache
    keys, whatever their other members; hence a payload stored under the
    key of one is never what a lookup under the key of the other sees. *)
Theorem cache_keys_differ_on_groupBy :
  forall (s1 e1 s2 e2 : string) (g1 g2 : Costs.Granularity) (b1 b2 : Costs.Grouping),
    b1 <> b2 ->
    Costs.cacheKey s1 e1 g1 b1 <> Costs.cacheKey s2 e2 g2 b2
    /\ forall (cache : gmap string (entry Costs.CostsPayload))
              (payload : Costs.CostsPayload) (t now : Z),
        fst (cacheGet (cacheSet cache (Costs.cacheKey s1 e1 g1 b1) payload t)
                      (Costs.cacheKey s2 e2 g2 b2) now)
        = fst (cacheGet cache (Costs.cacheKey s2 e2 g2 b2) now).
Proof.
  intros s1 e1 s2 e2 g1 g2 b1 b2 Hb.
  assert (Hne : Costs.cacheKey s1 e1 g1 b1 <> Costs.cacheKey s2 e2 g2 b2).
  { destruct b1, b2; try congruence.
    - apply cacheKey_groupBy_ne.
    - intros Heq. symmetry in Heq. revert Heq. apply cacheKey_groupBy_ne. }
  split; [exact Hne|].
  intros cache payload t now. now apply cacheGet_cacheSet_ne.
Qed.

Lemma cache_keys_differ_on_groupBy_witness :
  Costs.SERVICE <> Costs.NONE
  /\ Costs.cacheKey "2024-01-01" "2024-01-03" Costs.DAILY Costs.SERVICE
     <> Costs.cacheKey "2024-01-01" "2024-01-03" Costs.DAILY Costs.NONE.
Proof.
  assert (H : Costs.SERVICE <> Costs.NONE) by discriminate.
  split; [exact H|].
  exact (proj1 (cache_keys_differ_on_groupBy
                  "2024-01-01" "2024-01-03" "2024-01-01" "2024-01-03"
                  Costs.DAILY Costs.DAILY Costs.SERVICE Costs.NONE H)).
Defined.

(** ** Upstream failures *)

(** C5. [GET /api/credits] always answers with status 200; when the
    upstream call is rejected (or anything before it throws) the body is
    the zero-valued payload, with [total_used] 0 and an empty
    [by_service]. *)
Theorem credits_failure_degrades_to_zero :
  forall (now now' : Z)
         (send : Request.GetCostAndUsageCommand -> result Response.GetCostAndUsageResponse),
    Credits.status (Credits.handler now now' send) = 200
    /\ ((forall cmd, exists err, send cmd = Throw err) ->
        Credits.json (Credits.handler now now' send)
        = {| Credits.total_used := S754_zero false; Credits.by_service := [] |}).
Proof.
  intros now now' send. unfold Credits.handler. split.
  - destruct (Costs.isoDate now) as [end_|e]; [|reflexivity]. cbn.
    destruct (Costs.isoDate _) as [start|e]; [|reflexivity]. cbn.
    destruct (send _) as [out|e]; reflexivity.
  - intros Hfail.
    destruct (Costs.isoDate now) as [end_|e]; [|reflexivity]. cbn.
    destruct (Costs.isoDate _) as [start|e]; [|reflexivity]. cbn.
    destruct (Hfail (Credits.cmd start end_)) as [err ->]. reflexivity.
Qed.

Lemma credits_failure_degrades_to_zero_witness :
  Credits.handler 1700000000000 1700000000000 Sample.failing
  = {| Credits.status := 200;
       Credits.json := {| Credits.total_used := S754_zero false;
                          Credits.by_service := [] |} |}.
Proof.
  destruct (credits_failure_degrades_to_zero 1700000000000 1700000000000 Sample.failing)
    as [Hs Hj].
  specialize (Hj (fun cmd => ex_intro _ Sample.failure eq_refl)).
  destruct (Credits.handler _ _ _) as [st js]. simpl in *. now subst.
Defined.

Lemma errorMessage_named (err : JsError) (n : string) :
  name err = Some n -> n <> "" ->
  Costs.errorMessage err = n ++ ": " ++ orElse "" (message err).
Proof.
  intros Hn Hne. unfold Costs.errorMessage. rewrite Hn.
  destruct n; [contradiction | reflexivity].
Qed.

Lemma errorMessage_unnamed (err : JsError) :
  name err = None \/ name err = Some "" ->
  Costs.errorMessage err = "Unknown error".
Proof. intros [Hn|Hn]; unfold Costs.errorMessage; now rewrite Hn. Qed.

(** What the lookup leaves behind when it finds nothing to return: the
    cache without the key. *)
Lemma cacheGet_None_cache {V : Type} (cache : gmap string (entry V)) key now :
  fst (cacheGet cache key now) = None ->
  snd (cacheGet cache key now) = delete key cache.
Proof.
  unfold cacheGet. destruct (cache !! key) as [hit|] eqn:Hk.
  - destruct (expiresAt hit <? now); [reflexivity | discriminate].
  - intros _. cbn. symmetry. now apply delete_id.
Qed.

(** C6, as the handler has it.  For a valid query whose key has no live
    entry, if either upstream call is rejected the answer is a 500 whose
    message is that of a rejected call, the one [Promise.all] reports.
    The message is [name: message] when the error has a non-empty name
    (with an empty message text when it has none) and ["Unknown error"]
    otherwise.  Nothing is written to the cache: it is left as the lookup
    left it, that is, without any entry under the key, an expired one
    having been evicted, and with every other entry as before. *)
Theorem costs_failure_is_500_and_not_cached :
  forall (clock : Costs.Clock) (query : Costs.RawQuery)
         (send : Request.GetCostAndUsageCommand -> result Response.GetCostAndUsageResponse)
         (second_first : bool) (cache : gmap string (entry Costs.CostsPayload))
         (q : Costs.CostsQuery) (start end_ : string),
    Costs.safeParse query = Some q ->
    Costs.resolveEnd (Costs.now clock) q = Ok end_ ->
    Costs.resolveStart (Costs.now clock) q = Ok start ->
    let key := Costs.cacheKey start end_ (Costs.granularity q) (Costs.groupBy q) in
    fst (cacheGet cache key (Costs.lookupTime clock)) = None ->
    ((exists e, send (Costs.cmd start end_ q) = Throw e)
     \/ (exists e, send (Costs.summaryCmd start end_) = Throw e)) ->
    exists err,
      (send (Costs.cmd start end_ q) = Throw err
       \/ send (Costs.summaryCmd start end_) = Throw err)
      /\ Costs.handler clock query send second_first cache
         = (Ok {| Costs.status := 500;
                  Costs.json :=
                    Costs.UpstreamFailure
                      "Failed to fetch costs from AWS Cost Explorer"
                      (Costs.errorMessage err) |},
            delete key cache)
      /\ (forall n, name err = Some n -> n <> "" ->
          Costs.errorMessage err = n ++ ": " ++ orElse "" (message err))
      /\ (name err = None \/ name err = Some "" ->
          Costs.errorMessage err = "Unknown error")
      /\ delete key cache !! key = None
      /\ (forall key', key' <> key -> delete key cache !! key' = cache !! key').
Proof.
  intros clock query send second_first cache q start end_ Hq He Hs key Hmiss Hfail.
  assert (Hcache := cacheGet_None_cache cache key (Costs.lookupTime clock) Hmiss).
  assert (Hall : exists err,
             (send (Costs.cmd start end_ q) = Throw err
              \/ send (Costs.summaryCmd start end_) = Throw err)
             /\ Promise_all second_first (send (Costs.cmd start end_ q))
                            (send (Costs.summaryCmd start end_)) = Throw err).
  { destruct (send (Costs.cmd start end_ q)) as [out|e1] eqn:H1;
      destruct (send (Costs.summaryCmd start end_)) as [sout|e2] eqn:H2.
    - destruct Hfail as [[e Hf]|[e Hf]]; discriminate Hf.
    - exists e2. split; [now right | reflexivity].
    - exists e1. split; [now left | reflexivity].
    - destruct second_first.
      + exists e2. split; [now right | reflexivity].
      + exists e1. split; [now left | reflexivity]. }
  destruct Hall as (err & Hor & Hall).
  exists err. split; [exact Hor|]. split; [|split; [|split; [|split]]].
  - unfold Costs.handler. rewrite Hq, He. cbn [bind]. rewrite Hs. cbn [bind].
    fold key.
    destruct (cacheGet cache key (Costs.lookupTime clock)) as [o cache1].
    cbn in Hmiss, Hcache. subst o cache1. now rewrite Hall.
  - intros n. apply errorMessage_named.
  - apply errorMessage_unnamed.
  - apply lookup_delete_eq.
  - intros key' Hne. now apply lookup_delete_ne.
Qed.

Lemma costs_failure_is_500_and_not_cached_witness :
  Costs.handler Sample.clock Sample.query Sample.failing false Sample.staleCache
  = (Ok {| Costs.status := 500;
           Costs.json :=
             Costs.UpstreamFailure
               "Failed to fetch costs from AWS Cost Explorer"
               "AccessDeniedException: not authorized" |},
     delete Sample.key Sample.staleCache).
Proof.
  destruct (costs_failure_is_500_and_not_cached
              Sample.clock Sample.query Sample.failing false Sample.staleCache
              {| Costs.start := Some "2024-01-01"; Costs.end_ := Some "2024-01-03";
                 Costs.granularity := Costs.DAILY; Costs.groupBy := Costs.SERVICE |}
              "2024-01-01" "2024-01-03")
    as (err & Hor & Hh & _).
  - reflexivity.
  - reflexivity.
  - reflexivity.
  - vm_compute. reflexivity.
  - left. exists Sample.failure. reflexivity.
  - rewrite Hh. destruct Hor as [Hor|Hor]; injection Hor as <-; reflexivity.
Defined.

(** C6, as stated, fails on the cache: a request whose key has an expired
    entry and whose upstream calls are rejected is answered with the 500,
    and the cache it leaves is not the cache it found, the expired entry
    being gone. *)
Lemma costs_failure_changes_cache :
  fst (Costs.handler Sample.clock Sample.query Sample.failing false Sample.staleCache)
  = Ok {| Costs.status := 500;
          Costs.json :=
            Costs.UpstreamFailure
              "Failed to fetch costs from AWS Cost Explorer"
              "AccessDeniedException: not authorized" |}
  /\ Sample.staleCache !! Sample.key
     = Some {| expiresAt := 1600000000000; value := Sample.payload |}
  /\ snd (Costs.handler Sample.clock Sample.query Sample.failing false Sample.staleCache)
     !! Sample.key = None
  /\ snd (Costs.handler Sample.clock Sample.query Sample.failing false Sample.staleCache)
     <> Sample.staleCache.
Proof.
  assert (H1 : Sample.staleCache !! Sample.key
               = Some {| expiresAt := 1600000000000; value := Sample.payload |})
    by apply lookup_singleton_eq.
  assert (H2 : Costs.handler Sample.clock Sample.query Sample.failing false
                             Sample.staleCache
               = (Ok {| Costs.status := 500;
                        Costs.json :=
                          Costs.UpstreamFailure
                            "Failed to fetch costs from AWS Cost Explorer"
                            "AccessDeniedException: not authorized" |},
                  delete Sample.key Sample.staleCache)).
  { unfold Costs.handler.
    change (Costs.safeParse Sample.query)
      with (Some {| Costs.start := Some "2024-01-01"; Costs.end_ := Some "2024-01-03";
                    Costs.granularity := Costs.DAILY; Costs.groupBy := Costs.SERVICE |}).
    cbn [bind Costs.resolveEnd Costs.resolveStart Costs.end_ Costs.start
         Costs.granularity Costs.groupBy].
    fold Sample.key.
    rewrite (cacheGet_expired Sample.staleCache Sample.key _ _ H1)
      by (cbn; lia).
    reflexivity. }
  rewrite H2. cbn [fst snd].
  split; [reflexivity|]. split; [exact H1|].
  split; [apply lookup_delete_eq|].
  intros Heq. apply (f_equal (fun m => m !! Sample.key)) in Heq.
  rewrite lookup_delete_eq, H1 in Heq. discriminate Heq.
Qed.

(** ** The handlers when nothing fails *)

(** A live cache entry is answered as it is, without consulting the
    upstream client. *)
Lemma costs_handler_cache_hit clock query send second_first cache q start end_ hit :
  Costs.safeParse query = Some q ->
  Costs.resolveEnd (Costs.now clock) q = Ok end_ ->
  Costs.resolveStart (Costs.now clock) q = Ok start ->
  cache !! Costs.cacheKey start end_ (Costs.granularity q) (Costs.groupBy q) = Some hit ->
  Costs.lookupTime clock <= expiresAt hit ->
  Costs.handler clock query send second_first cache
  = (Ok {| Costs.status := 200; Costs.json := Costs.CostsBody (value hit) |}, cache).
Proof.
  intros Hq He Hs Hk Hlive. unfold Costs.handler.
  rewrite Hq, He. cbn [bind]. rewrite Hs. cbn [bind].
  now rewrite (cacheGet_hit _ _ _ _ Hk Hlive).
Qed.

(** Without a live entry, and with both upstream calls fulfilled, the
    answer is the payload made of the normalized detail answer and the
    classified summary answer, and it is stored under the key. *)
Lemma costs_handler_fetch clock query send second_first cache q start end_ out summaryOut :
  Costs.safeParse query = Some q ->
  Costs.resolveEnd (Costs.now clock) q = Ok end_ ->
  Costs.resolveStart (Costs.now clock) q = Ok start ->
  fst (cacheGet cache (Costs.cacheKey start end_ (Costs.granularity q) (Costs.groupBy q))
                (Costs.lookupTime clock)) = None ->
  send (Costs.cmd start end_ q) = Ok out ->
  send (Costs.summaryCmd start end_) = Ok summaryOut ->
  let key := Costs.cacheKey start end_ (Costs.granularity q) (Costs.groupBy q) in
  let payload :=
    {| Costs.p_start := start; Costs.p_end := end_;
       Costs.p_granularity := Costs.granularity q; Costs.p_groupBy := Costs.groupBy q;
       Costs.results := Payload.normalize out;
       Costs.summary := Summary.classifySummary summaryOut |} in
  Costs.handler clock query send second_first cache
  = (Ok {| Costs.status := 200; Costs.json := Costs.CostsBody payload |},
     cacheSet (delete key cache) key payload (Costs.storeTime clock)).
Proof.
  intros Hq He Hs Hmiss Hout Hsum key payload. unfold Costs.handler.
  rewrite Hq, He. cbn [bind]. rewrite Hs. cbn [bind]. fold key.
  pose proof (cacheGet_None_cache cache key (Costs.lookupTime clock) Hmiss) as Hcache.
  fold key in Hmiss.
  destruct (cacheGet cache key (Costs.lookupTime clock)) as [o cache1].
  cbn [fst snd] in Hmiss, Hcache. subst o cache1.
  now rewrite Hout, Hsum.
Qed.

(** The credits handler on a fulfilled upstream call. *)
Lemma credits_handler_fetch now now' send end_ start out :
  Costs.isoDate now = Ok end_ ->
  Costs.isoDate (now' - 365 * 24 * 60 * 60 * 1000) = Ok start ->
  send (Credits.cmd start end_) = Ok out ->
  Credits.handler now now' send
  = {| Credits.status := 200; Credits.json := Credits.creditsPayload out |}.
Proof.
  intros He Hs Hout. unfold Credits.handler.
  rewrite He. cbn [bind]. rewrite Hs. cbn [bind]. now rewrite Hout.
Qed.

(** ** The summary classifier *)

Section ClassifierFacts.

Context {num : Type} (zero : num) (plus : num -> num -> num)
        (parse : string -> num).

Lemma classify_allGroups (out : Response.GetCostAndUsageResponse) :
  Summary.classify zero plus parse out
  = fold_left (Summary.classifyGroup plus parse) (allGroups out)
              (Summary.emptySummary zero).
Proof.
  unfold Summary.classify, allGroups.
  generalize (Summary.emptySummary zero).
  induction (orElse [] (Response.ResultsByTime out)) as [|r rs IH]; intros s.
  - reflexivity.
  - cbn [map concat fold_left]. rewrite fold_left_app. apply IH.
Qed.

Lemma isType_true (type : option string) (s : string) :
  Summary.isType type s = true <-> type = Some s.
Proof.
  destruct type as [t|]; cbn.
  - rewrite String.eqb_eq. split; congruence.
  - split; discriminate.
Qed.

Lemma isType_false (type : option string) (s : string) :
  Summary.isType type s = false <-> type <> Some s.
Proof.
  rewrite <- isType_true. destruct (Summary.isType type s); split; congruence.
Qed.

Hypothesis plus_assoc : forall a b c, plus a (plus b c) = plus (plus a b) c.
Hypothesis plus_comm : forall a b, plus a b = plus b a.
Hypothesis plus_zero : forall a, plus zero a = a.

Lemma bucketSum_empty : Summary.bucketSum plus (Summary.emptySummary zero) = zero.
Proof. unfold Summary.bucketSum. cbn. now rewrite !plus_zero. Qed.

Lemma bucketSum_classifyGroup s g :
  Summary.bucketSum plus (Summary.classifyGroup plus parse s g)
  = plus (Summary.bucketSum plus s) (Summary.groupAmount parse g).
Proof.
  unfold Summary.classifyGroup, Summary.bucketSum.
  set (a := Summary.groupAmount parse g).
  assert (swap : forall x y, plus (plus x a) y = plus (plus x y) a).
  { intros x y. rewrite <- !plus_assoc. f_equal. apply plus_comm. }
  repeat (match goal with |- context [if ?b then _ else _] => destruct b end);
    cbn; rewrite ?plus_assoc, ?swap; reflexivity.
Qed.

Lemma classify_total_bucketSum s gs :
  Summary.total s = Summary.bucketSum plus s ->
  Summary.total (fold_left (Summary.classifyGroup plus parse) gs s)
  = Summary.bucketSum plus (fold_left (Summary.classifyGroup plus parse) gs s).
Proof.
  revert s. induction gs as [|g gs IH]; intros s Hs; [exact Hs|].
  cbn [fold_left]. apply IH. rewrite bucketSum_classifyGroup, <- Hs.
  unfold Summary.classifyGroup.
  repeat (match goal with |- context [if ?b then _ else _] => destruct b end);
    reflexivity.
Qed.

End ClassifierFacts.

(** C1. For every summary answer the classifier folds one step over the
    groups of all periods, from the all-zero summary.  The step adds the
    group's parsed unblended amount to [total] and to one bucket, leaving
    the other four as they were: [credit], [tax], [refund] or [usage] when
    the first key is exactly that word, [other] when it is none of the
    four (or absent).  On the two groups Credit 12.50 and Usage 40.00 the
    result is usage 40, credit 12.5, tax, refund and other 0, total 52.5. *)
Theorem summary_classifier_buckets :
  (forall (s : Summary.SummaryTotals number) (g : Response.Group),
      let a := parseFloat (orString "0" (unblendedAmount g)) in
      let s' := Summary.classifyGroup add parseFloat s g in
      Summary.total s' = add (Summary.total s) a
      /\ (firstKey g = Some "Credit" ->
          Summary.credit s' = add (Summary.credit s) a
          /\ Summary.tax s' = Summary.tax s /\ Summary.refund s' = Summary.refund s
          /\ Summary.usage s' = Summary.usage s /\ Summary.other s' = Summary.other s)
      /\ (firstKey g = Some "Tax" ->
          Summary.tax s' = add (Summary.tax s) a
          /\ Summary.credit s' = Summary.credit s /\ Summary.refund s' = Summary.refund s
          /\ Summary.usage s' = Summary.usage s /\ Summary.other s' = Summary.other s)
      /\ (firstKey g = Some "Refund" ->
          Summary.refund s' = add (Summary.refund s) a
          /\ Summary.credit s' = Summary.credit s /\ Summary.tax s' = Summary.tax s
          /\ Summary.usage s' = Summary.usage s /\ Summary.other s' = Summary.other s)
      /\ (firstKey g = Some "Usage" ->
          Summary.usage s' = add (Summary.usage s) a
          /\ Summary.credit s' = Summary.credit s /\ Summary.tax s' = Summary.tax s
          /\ Summary.refund s' = Summary.refund s /\ Summary.other s' = Summary.other s)
      /\ (firstKey g <> Some "Credit" -> firstKey g <> Some "Tax" ->
          firstKey g <> Some "Refund" -> firstKey g <> Some "Usage" ->
          Summary.other s' = add (Summary.other s) a
          /\ Summary.credit s' = Summary.credit s /\ Summary.tax s' = Summary.tax s
          /\ Summary.refund s' = Summary.refund s /\ Summary.usage s' = Summary.usage s))
  /\ (forall out : Response.GetCostAndUsageResponse,
         Summary.classifySummary out
         = fold_left (Summary.classifyGroup add parseFloat) (allGroups out)
             {| Summary.usage := pos_zero; Summary.credit := pos_zero;
                Summary.tax := pos_zero; Summary.refund := pos_zero;
                Summary.other := pos_zero; Summary.total := pos_zero |})
  /\ Summary.classifySummary
       (Sample.response [Sample.group "Credit" "12.50"; Sample.group "Usage" "40.00"])
     = {| Summary.usage := of_Z 40; Summary.credit := of_decimal false 125 (-1);
          Summary.tax := of_Z 0; Summary.refund := of_Z 0; Summary.other := of_Z 0;
          Summary.total := of_decimal false 525 (-1) |}.
Proof.
  split; [|split].
  - intros s g a s'. subst a s'. unfold Summary.classifyGroup, Summary.groupAmount.
    split; [|split; [|split; [|split; [|split]]]].
    + repeat (match goal with |- context [if ?b then _ else _] => destruct b end);
        reflexivity.
    + intros ->. cbn. repeat split.
    + intros ->. cbn. repeat split.
    + intros ->. cbn. repeat split.
    + intros ->. cbn. repeat split.
    + intros Hc Ht Hr Hu.
      apply isType_false in Hc, Ht, Hr, Hu. rewrite Hc, Ht, Hr, Hu. cbn. repeat split.
  - intros out. apply classify_allGroups.
  - vm_compute. reflexivity.
Qed.

Lemma summary_classifier_buckets_witness :
  Summary.credit
    (Summary.classifyGroup add parseFloat (Summary.emptySummary pos_zero)
                           (Sample.group "Credit" "12.50"))
  = add pos_zero (parseFloat "12.50")
  /\ Summary.other
       (Summary.classifyGroup add parseFloat (Summary.emptySummary pos_zero)
                              (Sample.group "Support" "3"))
     = add pos_zero (parseFloat "3").
Proof.
  pose proof (proj1 summary_classifier_buckets) as H.
  split.
  - destruct (H (Summary.emptySummary pos_zero) (Sample.group "Credit" "12.50"))
      as (_ & Hc & _).
    exact (proj1 (Hc eq_refl)).
  - destruct (H (Summary.emptySummary pos_zero) (Sample.group "Support" "3"))
      as (_ & _ & _ & _ & _ & Ho).
    refine (proj1 (Ho _ _ _ _)); intros [=].
Defined.

(** C10. In exact arithmetic, that is, whenever the addition the
    classifier uses is associative and commutative with the initial value
    as its neutral element, the classified summary of every answer has
    [total = usage + credit + tax + refund + other]. *)
Theorem summary_total_is_sum_of_buckets :
  forall (num : Type) (zero : num) (plus : num -> num -> num) (parse : string -> num),
    (forall a b c, plus a (plus b c) = plus (plus a b) c) ->
    (forall a b, plus a b = plus b a) ->
    (forall a, plus zero a = a) ->
    forall out : Response.GetCostAndUsageResponse,
      Summary.total (Summary.classify zero plus parse out)
      = plus (plus (plus (plus (Summary.usage (Summary.classify zero plus parse out))
                               (Summary.credit (Summary.classify zero plus parse out)))
                         (Summary.tax (Summary.classify zero plus parse out)))
                   (Summary.refund (Summary.classify zero plus parse out)))
             (Summary.other (Summary.classify zero plus parse out)).
Proof.
  intros num zero plus parse Ha Hc Hz out.
  rewrite classify_allGroups.
  apply (classify_total_bucketSum plus parse Ha Hc).
  now rewrite (bucketSum_empty zero plus Hz).
Qed.

Lemma summary_total_is_sum_of_buckets_witness :
  Summary.total
    (Exact.classifySummary
       (Sample.response [Sample.group "Usage" "0.1"; Sample.group "Credit" "0.2";
                         Sample.group "Usage" "0.4"]))
  = Summary.bucketSum Qcplus
      (Exact.classifySummary
         (Sample.response [Sample.group "Usage" "0.1"; Sample.group "Credit" "0.2";
                           Sample.group "Usage" "0.4"])).
Proof.
  apply (summary_total_is_sum_of_buckets Qc (Q2Qc 0) Qcplus Exact.parseExact).
  - intros a b c. apply Qcplus_assoc.
  - intros a b. apply Qcplus_comm.
  - intros a. apply Qcplus_0_l.
Defined.

(** The same three groups in binary64: the running total and the sum of
    the buckets round differently (0.7000000000000001 against 0.7), which
    is why the identity is one of exact arithmetic. *)
Remark binary64_total_and_bucket_sum :
  let s := Summary.classifySummary
             (Sample.response [Sample.group "Usage" "0.1"; Sample.group "Credit" "0.2";
                               Sample.group "Usage" "0.4"]) in
  Summary.total s = S754_finite false 6305039478318695 (-53)
  /\ Summary.bucketSum add s = S754_finite false 6305039478318694 (-53).
Proof. vm_compute. split; reflexivity. Qed.

(** ** Amount parsing *)

Lemma trim_start_head (s : string) (c : ascii) (s' : string) :
  trim_start s = String c s' -> is_space c = false.
Proof.
  induction s as [|d s IH]; cbn; [discriminate|].
  destruct (is_space d) eqn:Hd; [exact IH|].
  intros [= <- _]. exact Hd.
Qed.

Lemma trim_end_head (c : ascii) (s : string) :
  is_space c = false -> exists t, trim_end (String c s) = String c t.
Proof.
  intros Hc. cbn. destruct (trim_end s) as [|d t].
  - rewrite Hc. now exists EmptyString.
  - now exists (String d t).
Qed.

Lemma startsNumeric_false (c : ascii) :
  startsNumeric c = false ->
  digit_of 10 c = None
  /\ Ascii.eqb c "+" = false /\ Ascii.eqb c "-" = false
  /\ Ascii.eqb c "." = false /\ Ascii.eqb c "I" = false /\ Ascii.eqb c "0" = false.
Proof.
  unfold startsNumeric. destruct (digit_of 10 c) eqn:Hd; [discriminate|].
  intros H. apply orb_false_elim in H as [H HI].
  apply orb_false_elim in H as [H Hdot]. apply orb_false_elim in H as [Hp Hm].
  repeat split; try assumption.
  destruct (Ascii.eqb_spec c "0") as [->|]; [discriminate Hd | reflexivity].
Qed.

Lemma read_literal_not_numeric (c : ascii) (s : string) :
  startsNumeric c = false -> read_literal (String c s) = None.
Proof.
  intros H. destruct (startsNumeric_false c H) as (Hd & Hp & Hm & Hdot & HI & _).
  unfold read_literal, read_sign. rewrite Hp, Hm.
  unfold read_unsigned.
  assert (Hpre : String.prefix "Infinity" (String c s) = false).
  { change (String.prefix "Infinity" (String c s))
      with (if ascii_dec "I" c then String.prefix "nfinity" s else false).
    destruct (ascii_dec "I" c) as [<-|]; [discriminate HI | reflexivity]. }
  rewrite Hpre. cbn [read_digits]. rewrite Hd.
  cbn [read_point]. rewrite Hdot. reflexivity.
Qed.

Lemma parseFloat_not_numeric (s : string) (c : ascii) (s' : string) :
  trim_start s = String c s' -> startsNumeric c = false -> parseFloat s = S754_nan.
Proof.
  intros Ht Hc. unfold parseFloat, read_decimal.
  now rewrite Ht, read_literal_not_numeric.
Qed.

Lemma StringToNumber_not_numeric (s : string) (c : ascii) (s' : string) :
  trim_start s = String c s' -> startsNumeric c = false -> StringToNumber s = S754_nan.
Proof.
  intros Ht Hc. unfold StringToNumber. rewrite Ht.
  destruct (trim_end_head c s' (trim_start_head _ _ _ Ht)) as [t ->].
  assert (Hnd : read_non_decimal (String c t) = None).
  { destruct (startsNumeric_false c Hc) as (_ & _ & _ & _ & _ & H0).
    unfold read_non_decimal. destruct t as [|d [|e t]]; try reflexivity.
    now rewrite H0. }
  rewrite Hnd. unfold read_decimal. now rewrite read_literal_not_numeric.
Qed.

(** C2, as the code has it.  The normalizer's amount is 0 when the raw
    amount is absent and [Number] of the string otherwise; the
    classifier's amount is 0 when the raw amount is absent or the empty
    string and [parseFloat] of the string otherwise.  Both conversions are
    total (nothing throws), and both give [NaN], not 0, on a string whose
    first character after leading white space cannot begin a numeric
    literal.  The unit is USD when absent, so that a missing
    [UsageQuantity] normalizes to amount 0, unit USD. *)
Theorem amount_parsing_defaults :
  (forall m key, Payload.rawAmount (Payload.metricOf m key) = None ->
                 Payload.amount (Payload.getMetric m key) = S754_zero false)
  /\ (forall m key s, Payload.rawAmount (Payload.metricOf m key) = Some s ->
                      Payload.amount (Payload.getMetric m key) = StringToNumber s)
  /\ (forall m key, Payload.rawUnit (Payload.metricOf m key) = None ->
                    Payload.unit (Payload.getMetric m key) = "USD")
  /\ (forall g, Payload.metricOf (Response.Metrics g) "UsageQuantity" = None ->
                Payload.usage (Payload.metrics (Payload.normalizeGroup g))
                = {| Payload.amount := S754_zero false; Payload.unit := "USD" |})
  /\ (forall g, unblendedAmount g = None \/ unblendedAmount g = Some "" ->
                Summary.groupAmount parseFloat g = S754_zero false)
  /\ (forall g s, unblendedAmount g = Some s -> s <> "" ->
                  Summary.groupAmount parseFloat g = parseFloat s)
  /\ (forall s c s', trim_start s = String c s' -> startsNumeric c = false ->
                     StringToNumber s = S754_nan /\ parseFloat s = S754_nan).
Proof.
  repeat apply conj.
  - intros m key H. unfold Payload.getMetric. cbn. now rewrite H.
  - intros m key s H. unfold Payload.getMetric. cbn. now rewrite H.
  - intros m key H. unfold Payload.getMetric. cbn. now rewrite H.
  - intros g H. cbn. unfold Payload.getMetric. now rewrite H.
  - intros g [H|H]; unfold Summary.groupAmount; rewrite H; reflexivity.
  - intros g s H Hs. unfold Summary.groupAmount. rewrite H.
    destruct s; [contradiction | reflexivity].
  - intros s c s' Ht Hc. split.
    + now apply StringToNumber_not_numeric with c s'.
    + now apply parseFloat_not_numeric with c s'.
Qed.

Lemma amount_parsing_defaults_witness :
  Payload.usage
    (Payload.metrics (Payload.normalizeGroup (Sample.group "Amazon S3" "1.25")))
  = {| Payload.amount := S754_zero false; Payload.unit := "USD" |}
  /\ (StringToNumber " n/a" = S754_nan /\ parseFloat " n/a" = S754_nan).
Proof.
  destruct amount_parsing_defaults as (_ & _ & _ & Hu & _ & _ & Hn).
  split.
  - apply Hu. reflexivity.
  - apply (Hn " n/a" "n"%char "/a"); reflexivity.
Defined.

(** C2, as stated, fails on a non-numeric amount: on the amount ["abc"]
    the normalizer's metric and the classifier's amount are [NaN], which
    is not 0. *)
Lemma non_numeric_amount_is_NaN :
  Payload.getMetric (Some (Sample.metrics "abc")) "UnblendedCost"
  = {| Payload.amount := S754_nan; Payload.unit := "USD" |}
  /\ Summary.groupAmount parseFloat (Sample.group "Usage" "abc") = S754_nan
  /\ S754_nan <> S754_zero false.
Proof. split; [|split]; [vm_compute; reflexivity .. | discriminate]. Qed.

(** ** Default dates *)

(** The calendar conversion is well formed on every day of an era, maps
    back to the day, and puts January and February of the era's last year
    on the days from 146037 on. *)
Lemma civil_of_doe_bounds (doe : Z) :
  0 <= doe <= 146096 ->
  exists yoe m d,
    civil_of_doe doe = (yoe, m, d)
    /\ 0 <= yoe <= 399 /\ 1 <= m <= 12 /\ 1 <= d <= 31
    /\ doe_of_civil yoe m d = doe
    /\ (yoe = 399 /\ m <= 2 <-> 146037 <= doe).
Proof.
  intros H. unfold civil_of_doe, doe_of_civil.
  set (yoe := (doe - doe / 1460 + doe / 36524 - doe / 146096) / 365).
  set (doy := doe - (365 * yoe + yoe / 4 - yoe / 100)).
  set (mp := (5 * doy + 2) / 153).
  assert (Hy : 0 <= yoe <= 399 /\ 0 <= doy <= 365).
  { subst doy yoe. Z.div_mod_to_equations. lia. }
  assert (Hmp : 0 <= mp <= 11) by (subst mp; Z.div_mod_to_equations; lia).
  assert (Hd : 1 <= doy - (153 * mp + 2) / 5 + 1 <= 31)
    by (subst mp; Z.div_mod_to_equations; lia).
  assert (Hlast : yoe = 399 /\ 10 <= mp <-> 146037 <= doe).
  { subst mp doy yoe. Z.div_mod_to_equations. lia. }
  eexists _, _, _. split; [reflexivity|].
  destruct (Z.ltb_spec mp 10) as [Hlt|Hge].
  - destruct (Z.ltb_spec 2 (mp + 3)); [|lia].
    replace (mp + 3 - 3) with mp by lia.
    repeat split; try lia; subst doy; lia.
  - destruct (Z.ltb_spec 2 (mp - 9)); [lia|].
    replace (mp - 9 + 9) with mp by lia.
    repeat split; try lia; subst doy; lia.
Qed.

Lemma era_decompose (z : Z) : 0 <= z - z / 146097 * 146097 <= 146096.
Proof. Z.div_mod_to_equations. lia. Qed.

(** Every day number has a well-formed date, and the date determines the
    day. *)
Lemma civil_from_days_round_trip (days : Z) :
  exists y m d,
    civil_from_days days = (y, m, d)
    /\ 1 <= m <= 12 /\ 1 <= d <= 31 /\ days_from_civil y m d = days.
Proof.
  unfold civil_from_days.
  set (z := days + 719468). set (era := z / 146097).
  destruct (civil_of_doe_bounds (z - era * 146097) (era_decompose z))
    as (yoe & m & d & -> & Hy & Hm & Hd & Hback & _).
  eexists _, _, _. split; [reflexivity|]. split; [exact Hm|]. split; [exact Hd|].
  unfold days_from_civil.
  replace (yoe + era * 400 + (if m <=? 2 then 1 else 0) - (if m <=? 2 then 1 else 0))
    with (yoe + era * 400) by lia.
  assert (He : (yoe + era * 400) / 400 = era) by (Z.div_mod_to_equations; lia).
  rewrite He. replace (yoe + era * 400 - era * 400) with yoe by lia.
  rewrite Hback. subst z. lia.
Qed.

(** From the first day of year 0 to the last day of year 9999. *)
Lemma year_of_day_bounds (days : Z) :
  -719528 <= days <= 2932896 ->
  0 <= fst (fst (civil_from_days days)) <= 9999.
Proof.
  intros H. unfold civil_from_days.
  set (z := days + 719468). set (era := z / 146097).
  destruct (civil_of_doe_bounds (z - era * 146097) (era_decompose z))
    as (yoe & m & d & -> & Hy & Hm & Hd & _ & Hlast).
  cbn [fst].
  assert (He : -1 <= era <= 24) by (subst era z; Z.div_mod_to_equations; lia).
  assert (Hdoe : era = -1 -> 146037 <= z - era * 146097) by (subst z; lia).
  assert (Hdoe' : era = 24 -> z - era * 146097 < 146037) by (subst z; lia).
  destruct (Z.leb_spec m 2); lia.
Qed.

Lemma Day_bounds (t : Z) :
  -62167219200000 <= t < 253402300800000 -> -719528 <= Day t <= 2932896.
Proof. unfold Day, msPerDay. intros H. Z.div_mod_to_equations. lia. Qed.

Lemma Day_30_days_before (t : Z) : Day (t - 30 * 24 * 60 * 60 * 1000) = Day t - 30.
Proof. unfold Day, msPerDay. Z.div_mod_to_equations. lia. Qed.

Lemma isDigit_digit_char (n : Z) : Costs.isDigit (digit_char (n mod 10)) = true.
Proof.
  unfold Costs.isDigit, digit_char.
  pose proof (Z.mod_pos_bound n 10 eq_refl) as Hn.
  rewrite N_ascii_embedding by lia.
  apply andb_true_intro. split; apply N.leb_le; lia.
Qed.

Lemma pad_2 (n : Z) :
  pad 2 n = String (digit_char (n / 10 mod 10)) (String (digit_char (n mod 10)) "").
Proof. reflexivity. Qed.

Lemma pad_4 (n : Z) :
  pad 4 n
  = String (digit_char (n / 10 / 10 / 10 mod 10))
      (String (digit_char (n / 10 / 10 mod 10))
         (String (digit_char (n / 10 mod 10)) (String (digit_char (n mod 10)) ""))).
Proof. reflexivity. Qed.

Lemma slice0_length_app (s rest : string) :
  slice0 (String.length s) (s ++ rest) = s.
Proof.
  unfold slice0. induction s as [|c s IH].
  - now destruct rest.
  - change (String c (String.substring 0 (String.length s) (s ++ rest)) = String c s).
    now f_equal.
Qed.

(** In the years 0 to 9999 the date is written with ten characters, in
    the pattern the query schema accepts, and they are the first ten of
    the ISO string. *)
Lemma date_string_format (days : Z) :
  0 <= fst (fst (civil_from_days days)) <= 9999 ->
  Costs.isDateString (date_string days) = true
  /\ forall rest, slice0 10 (date_string days ++ rest) = date_string days.
Proof.
  intros Hy. unfold date_string.
  destruct (civil_from_days days) as [[y m] d]. cbn [fst] in Hy.
  unfold year_string.
  destruct (Z.leb_spec 0 y); [|lia]. destruct (Z.leb_spec y 9999); [|lia].
  cbn [andb]. rewrite pad_4, !pad_2. split.
  - unfold Costs.isDateString. cbv [String.append list_ascii_of_string].
    now rewrite !isDigit_digit_char.
  - intros rest.
    match goal with
    | |- slice0 _ (?s ++ rest) = _ =>
        change (slice0 (String.length s) (s ++ rest) = s)
    end.
    apply slice0_length_app.
Qed.

Lemma isoDate_date_string (t : Z) :
  -62167219200000 <= t < 253402300800000 ->
  Costs.isoDate t = Ok (date_string (Day t))
  /\ Costs.isDateString (date_string (Day t)) = true.
Proof.
  intros Ht.
  destruct (date_string_format (Day t) (year_of_day_bounds _ (Day_bounds t Ht)))
    as [Hfmt Hslice].
  split; [|exact Hfmt].
  unfold Costs.isoDate, toISOString, valid_time.
  destruct (Z.leb_spec (Z.abs t) 8640000000000000); [|lia].
  cbn [bind]. now rewrite Hslice.
Qed.

(** C7. While [new Date()] lies in the years 0 to 9999, and so does the
    instant 30 days before it, an omitted [end] resolves to the UTC
    calendar date of [now] and an omitted [start] to the calendar date 30
    days before it, each written as YYYY-MM-DD (the schema's own pattern
    accepts it); a date the query gives is kept as it is. *)
Theorem default_dates :
  forall (now : Z) (q : Costs.CostsQuery),
    -62164627200000 <= now < 253402300800000 ->
    (Costs.end_ q = None -> Costs.resolveEnd now q = Ok (date_string (Day now)))
    /\ (Costs.start q = None ->
        Costs.resolveStart now q = Ok (date_string (Day now - 30)))
    /\ Costs.isDateString (date_string (Day now)) = true
    /\ Costs.isDateString (date_string (Day now - 30)) = true
    /\ (forall e, Costs.end_ q = Some e -> Costs.resolveEnd now q = Ok e)
    /\ (forall s, Costs.start q = Some s -> Costs.resolveStart now q = Ok s).
Proof.
  intros now q Hnow.
  destruct (isoDate_date_string now) as [He Hfe]; [lia|].
  destruct (isoDate_date_string (now - 30 * 24 * 60 * 60 * 1000)) as [Hs Hfs]; [lia|].
  rewrite Day_30_days_before in Hs, Hfs.
  unfold Costs.resolveEnd, Costs.resolveStart.
  repeat apply conj.
  - now intros ->.
  - now intros ->.
  - exact Hfe.
  - exact Hfs.
  - now intros e ->.
  - now intros s ->.
Qed.

Lemma default_dates_witness :
  Costs.resolveEnd 1700000000000
    {| Costs.start := None; Costs.end_ := None;
       Costs.granularity := Costs.DAILY; Costs.groupBy := Costs.SERVICE |}
  = Ok "2023-11-14"
  /\ Costs.resolveStart 1700000000000
       {| Costs.start := None; Costs.end_ := None;
          Costs.granularity := Costs.DAILY; Costs.groupBy := Costs.SERVICE |}
     = Ok "2023-10-15".
Proof.
  destruct (default_dates 1700000000000
              {| Costs.start := None; Costs.end_ := None;
                 Costs.granularity := Costs.DAILY; Costs.groupBy := Costs.SERVICE |})
    as (He & Hs & _); [lia|].
  split.
  - rewrite (He eq_refl). reflexivity.
  - rewrite (Hs eq_refl). reflexivity.
Defined.

(** ** Facts about rounding to binary64 *)

Lemma digits2_pos_lower (m : positive) : 2 ^ (Zpos (digits2_pos m) - 1) <= Zpos m.
Proof.
  induction m as [p IH|p IH|]; cbn [digits2_pos]; [| |now cbn].
  - rewrite Pos2Z.inj_succ.
    replace (Z.succ (Zpos (digits2_pos p)) - 1) with (Z.succ (Zpos (digits2_pos p) - 1)) by lia.
    rewrite Z.pow_succ_r by lia. lia.
  - rewrite Pos2Z.inj_succ.
    replace (Z.succ (Zpos (digits2_pos p)) - 1) with (Z.succ (Zpos (digits2_pos p) - 1)) by lia.
    rewrite Z.pow_succ_r by lia. lia.
Qed.

Lemma shr_1_m (mrs : shr_record) :
  0 <= shr_m mrs -> shr_m (shr_1 mrs) = shr_m mrs / 2.
Proof.
  destruct mrs as [m r s]. cbn [shr_m]. intros Hm.
  destruct m as [|[p|p|]|p]; cbn [shr_1 shr_m]; try reflexivity;
    Z.div_mod_to_equations; lia.
Qed.

Lemma iter_pos_shr_1_m (p : positive) (mrs : shr_record) :
  0 <= shr_m mrs -> shr_m (SpecFloat.iter_pos shr_1 p mrs) = shr_m mrs / 2 ^ Zpos p.
Proof.
  revert mrs. induction p as [p IH|p IH|]; intros mrs Hm; cbn [SpecFloat.iter_pos].
  - assert (Hpow : 2 ^ Zpos p~1 = 2 * 2 ^ Zpos p * 2 ^ Zpos p).
    { rewrite Pos2Z.inj_xI.
      replace (2 * Zpos p + 1) with (1 + Zpos p + Zpos p) by lia.
      rewrite !Z.pow_add_r by lia. now rewrite Z.pow_1_r. }
    assert (Hp : 0 < 2 ^ Zpos p) by (apply Z.pow_pos_nonneg; lia).
    assert (H1 : 0 <= shr_m (shr_1 mrs)).
    { rewrite shr_1_m by assumption. apply Z.div_pos; lia. }
    assert (H2 : 0 <= shr_m (SpecFloat.iter_pos shr_1 p (shr_1 mrs))).
    { rewrite IH by assumption. apply Z.div_pos; lia. }
    rewrite IH, IH, shr_1_m by assumption.
    rewrite Hpow, !Z.div_div by lia. f_equal. lia.
  - assert (Hpow : 2 ^ Zpos p~0 = 2 ^ Zpos p * 2 ^ Zpos p).
    { replace (Zpos p~0) with (Zpos p + Zpos p) by lia.
      apply Z.pow_add_r; lia. }
    assert (Hp : 0 < 2 ^ Zpos p) by (apply Z.pow_pos_nonneg; lia).
    assert (H2 : 0 <= shr_m (SpecFloat.iter_pos shr_1 p mrs)).
    { rewrite IH by assumption. apply Z.div_pos; lia. }
    rewrite IH, IH by assumption.
    rewrite Hpow, Z.div_div by lia. reflexivity.
  - rewrite shr_1_m by assumption. now rewrite Z.pow_1_r.
Qed.

Lemma shr_m_of_loc (m : Z) (l : location) : shr_m (shr_record_of_loc m l) = m.
Proof. now destruct l as [|[]]. Qed.

(** Shifting to the format's exponent never goes below the least
    exponent, and keeps a positive mantissa positive when it starts at or
    above the least exponent. *)
Lemma shr_fexp_exponent (m e : Z) (l : location) :
  emin prec emax <= snd (shr_fexp prec emax m e l).
Proof.
  unfold shr_fexp, shr, fexp.
  destruct (Z.max (Zdigits2 m + e - prec) (emin prec emax) - e) eqn:Hn;
    cbn [snd]; lia.
Qed.

Lemma shr_fexp_positive (m e : Z) (l : location) :
  0 < m -> emin prec emax <= e ->
  0 < shr_m (fst (shr_fexp prec emax m e l)).
Proof.
  intros Hm He. unfold shr_fexp, shr, fexp.
  destruct (Z.max (Zdigits2 m + e - prec) (emin prec emax) - e) eqn:Hn;
    cbn [fst]; rewrite ?shr_m_of_loc; try assumption.
  rewrite iter_pos_shr_1_m by (rewrite shr_m_of_loc; lia).
  rewrite shr_m_of_loc.
  destruct m as [|q|q]; try lia. cbn [Zdigits2] in Hn.
  pose proof (digits2_pos_lower q) as Hd.
  assert (Hp : Zpos p <= Zpos (digits2_pos q) - 1) by (unfold prec in *; lia).
  assert (Hpow : 2 ^ Zpos p <= 2 ^ (Zpos (digits2_pos q) - 1))
    by (apply Z.pow_le_mono_r; lia).
  apply Z.div_str_pos. split; [apply Z.pow_pos_nonneg; lia | lia].
Qed.

Lemma round_nearest_even_ge (m : Z) (l : location) : m <= round_nearest_even m l.
Proof. destruct l as [|[]]; cbn; try lia. destruct (Z.even m); lia. Qed.

(** The result of rounding: it has the sign it was given, an exponent of
    the format, and it is not zero when the mantissa to round is positive
    and starts at or above the least exponent. *)
Lemma binary_round_aux_shape (sx : bool) (mx ex : Z) (lx : location) :
  let r := binary_round_aux prec emax sx mx ex lx in
  exponent_ok r
  /\ (is_pos r = true -> sx = false)
  /\ (is_neg r = true -> sx = true)
  /\ (0 < mx -> emin prec emax <= ex -> is_pos r = negb sx /\ is_neg r = sx).
Proof.
  unfold binary_round_aux.
  pose proof (shr_fexp_exponent mx ex lx) as He1.
  pose proof (shr_fexp_positive mx ex lx) as Hp1.
  destruct (shr_fexp prec emax mx ex lx) as [mrs' e']. cbn [fst snd] in He1, Hp1.
  set (m1 := round_nearest_even (shr_m mrs') (loc_of_shr_record mrs')).
  pose proof (round_nearest_even_ge (shr_m mrs') (loc_of_shr_record mrs')) as Hge.
  fold m1 in Hge.
  pose proof (shr_fexp_exponent m1 e' loc_Exact) as He2.
  pose proof (shr_fexp_positive m1 e' loc_Exact) as Hp2.
  destruct (shr_fexp prec emax m1 e' loc_Exact) as [mrs'' e'']. cbn [fst snd] in He2, Hp2.
  destruct (shr_m mrs'') as [|m|m] eqn:Hm.
  - cbn. repeat split; try discriminate. all: intros; exfalso.
    all: assert (0 < 0) by (apply Hp2; [|assumption]; specialize (Hp1 ltac:(assumption) ltac:(assumption)); lia); lia.
  - destruct (e'' <=? emax - prec); destruct sx; cbn; repeat split;
      try assumption; try discriminate; reflexivity.
  - cbn. repeat split; try discriminate. all: intros; exfalso.
    all: assert (0 < Zneg m) by (apply Hp2; [|assumption]; specialize (Hp1 ltac:(assumption) ltac:(assumption)); lia); lia.
Qed.

Lemma binary_round_shape (sx : bool) (mx : positive) (ex : Z) :
  let r := binary_round prec emax sx mx ex in
  exponent_ok r
  /\ (is_pos r = true -> sx = false)
  /\ (is_neg r = true -> sx = true)
  /\ (emin prec emax <= ex -> is_pos r = negb sx /\ is_neg r = sx).
Proof.
  unfold binary_round.
  assert (Hez : emin prec emax <= ex ->
                emin prec emax
                <= snd (shl_align mx ex (fexp prec emax (Zpos (digits2_pos mx) + ex)))).
  { unfold shl_align, fexp.
    destruct (Z.max (Zpos (digits2_pos mx) + ex - prec) (emin prec emax) - ex);
      cbn [snd]; lia. }
  destruct (shl_align mx ex _) as [mz ez]. cbn [snd] in Hez.
  destruct (binary_round_aux_shape sx (Zpos mz) ez loc_Exact) as (He & Hp & Hn & Hnz).
  repeat split; try assumption; apply Hnz; try lia; auto.
Qed.

(** The sign of a rounded integer multiple of a power of two. *)
Lemma binary_normalize_shape (z e : Z) :
  let r := binary_normalize prec emax z e false in
  exponent_ok r
  /\ (is_pos r = true -> 0 < z)
  /\ (is_neg r = true -> z < 0)
  /\ (emin prec emax <= e -> 0 < z -> is_pos r = true)
  /\ (emin prec emax <= e -> z < 0 -> is_neg r = true).
Proof.
  destruct z as [|p|p]; cbn [binary_normalize].
  - cbn. repeat split; try discriminate; lia.
  - destruct (binary_round_shape false p e) as (He & Hp & Hn & Hnz).
    repeat split; try assumption; try lia.
    + intros H. apply Hn in H. discriminate H.
    + intros H _. now apply Hnz.
  - destruct (binary_round_shape true p e) as (He & Hp & Hn & Hnz).
    repeat split; try assumption; try lia.
    + intros H. apply Hp in H. discriminate H.
    + intros H _. now apply Hnz.
Qed.

Lemma add_exponent_ok (a b : number) :
  exponent_ok a -> exponent_ok b -> exponent_ok (add a b).
Proof.
  intros Ha Hb. unfold add.
  destruct a as [sa|sa| |sa ma ea], b as [sb|sb| |sb mb eb];
    try (destruct sa, sb); cbn [SFadd exponent_ok]; try exact I; try assumption.
  all: apply binary_normalize_shape.
Qed.

Lemma abs_exponent_ok (a : number) : exponent_ok a -> exponent_ok (abs a).
Proof. now destruct a. Qed.

Lemma of_decimal_exponent_ok (s : bool) (m : N) (k : Z) : exponent_ok (of_decimal s m k).
Proof.
  unfold of_decimal. destruct m as [|p]; [exact I|].
  destruct k as [|q|q]; try apply binary_round_shape.
  cbn [SFdiv]. destruct (SFdiv_core_binary _ _ _ _ _ _) as [[mz ez] lz].
  apply binary_round_aux_shape.
Qed.

Lemma parseFloat_exponent_ok (s : string) : exponent_ok (parseFloat s).
Proof.
  unfold parseFloat, read_decimal.
  destruct (read_literal (trim_start s)) as [[[sg lit] rest]|]; [|exact I].
  destruct lit; [exact I | apply of_decimal_exponent_ok].
Qed.

(** The comparator's sign and the order of values.  A positive
    difference [y - x] means [y >= x]; between numbers that are not [NaN]
    a difference that is not positive means [x >= y]. *)
Lemma sub_pos_geb (x y : number) :
  is_pos (sub y x) = true -> geb y x = true.
Proof.
  unfold sub.
  destruct x as [sx|sx| |sx mx ex], y as [sy|sy| |sy my ey];
    try (destruct sx); try (destruct sy); cbn [SFsub is_pos geb negb];
    try discriminate; try reflexivity.
  all: intros H; apply binary_normalize_shape in H; unfold aligned;
    apply Z.leb_le; lia.
Qed.

Lemma sub_not_pos_geb (x y : number) :
  is_nan x = false -> is_nan y = false -> exponent_ok x -> exponent_ok y ->
  is_pos (sub y x) = false -> geb x y = true.
Proof.
  unfold sub.
  destruct x as [sx|sx| |sx mx ex], y as [sy|sy| |sy my ey];
    try (destruct sx); try (destruct sy);
    cbn [SFsub is_pos geb negb is_nan exponent_ok];
    try discriminate; try reflexivity.
  all: intros _ _ Hx Hy H; unfold aligned; rewrite (Z.min_comm ex ey);
    apply Z.leb_le;
    match goal with
    | |- ?X <= ?Y =>
        destruct (Z.le_gt_cases X Y) as [Hle|Hgt]; [exact Hle|]; exfalso
    end.
  all: revert H; apply not_false_iff_true.
  all: apply binary_normalize_shape; [apply Z.min_glb; assumption | lia].
Qed.

(** ** The order of values and the library's comparison *)

Lemma digits2_pos_upper (m : positive) : Zpos m < 2 ^ Zpos (digits2_pos m).
Proof.
  induction m as [p IH|p IH|]; cbn [digits2_pos]; [| |now cbn].
  - rewrite Pos2Z.inj_succ, Z.pow_succ_r by lia. lia.
  - rewrite Pos2Z.inj_succ, Z.pow_succ_r by lia. lia.
Qed.

Lemma iter_xO_value (m d : positive) : Zpos (Pos.iter xO m d) = Zpos m * 2 ^ Zpos d.
Proof.
  induction d as [|d IH] using Pos.peano_ind.
  - cbn [Pos.iter]. rewrite Z.pow_1_r. lia.
  - rewrite Pos.iter_succ, Pos2Z.inj_xO, IH, Pos2Z.inj_succ, Z.pow_succ_r by lia. lia.
Qed.

(** Aligning on an exponent that is not larger multiplies the mantissa by
    the power of two between the exponents. *)
Lemma shl_align_value (m : positive) (e ez : Z) :
  ez <= e -> Zpos (fst (shl_align m e ez)) = Zpos m * 2 ^ (e - ez).
Proof.
  intros Hle. unfold shl_align.
  destruct (ez - e) as [|d|d] eqn:Hd; cbn [fst]; try lia.
  - replace (e - ez) with 0 by lia. lia.
  - rewrite iter_xO_value. f_equal. f_equal. lia.
Qed.

(** Of two canonical mantissas, the one with the larger exponent is the
    larger number. *)
Lemma canonical_exponent_lt (m1 m2 : positive) (e1 e2 : Z) :
  canonical_mantissa prec emax m1 e1 = true ->
  canonical_mantissa prec emax m2 e2 = true ->
  e1 < e2 ->
  Zpos m1 < Zpos m2 * 2 ^ (e2 - e1).
Proof.
  unfold canonical_mantissa, fexp. intros H1 H2 Hlt.
  apply Z.eqb_eq in H1, H2.
  pose proof (digits2_pos_upper m1) as Hu. pose proof (digits2_pos_lower m2) as Hl.
  assert (Hd2 : Zpos (digits2_pos m2) = prec) by lia.
  assert (Hd1 : Zpos (digits2_pos m1) <= prec) by lia.
  assert (Hp1 : 2 ^ Zpos (digits2_pos m1) <= 2 ^ prec) by (apply Z.pow_le_mono_r; lia).
  assert (Hp2 : 2 ^ prec = 2 * 2 ^ (prec - 1)).
  { rewrite <- Z.pow_succ_r by (unfold prec; lia). reflexivity. }
  assert (Hp3 : 2 ^ 1 <= 2 ^ (e2 - e1)) by (apply Z.pow_le_mono_r; lia).
  rewrite Z.pow_1_r in Hp3. rewrite Hd2 in Hl.
  nia.
Qed.

(** On valid binary64 values [geb a b] is the library's [b <= a]. *)
Lemma geb_SFleb (a b : number) :
  valid_binary prec emax a = true -> valid_binary prec emax b = true ->
  geb a b = SFleb b a.
Proof.
  destruct a as [sa|sa| |sa ma ea], b as [sb|sb| |sb mb eb];
    try (destruct sa); try (destruct sb); intros Ha Hb; try reflexivity.
  all: cbn [valid_binary] in Ha, Hb; unfold bounded in Ha, Hb;
    apply andb_prop in Ha as [Ha _]; apply andb_prop in Hb as [Hb _].
  all: unfold geb, aligned, SFleb, SFcompare; cbn [cond_Zopp].
  all: destruct (Z.compare_spec eb ea) as [Heq|Hlt|Hgt].
  all: try (rewrite shl_align_value by lia); try (rewrite (shl_align_value ma) by lia);
    try (rewrite (shl_align_value mb) by lia).
  all: try (pose proof (canonical_exponent_lt _ _ _ _ Hb Ha ltac:(assumption)) as Hc);
    try (pose proof (canonical_exponent_lt _ _ _ _ Ha Hb ltac:(assumption)) as Hc).
  all: try (subst eb; rewrite Z.min_id, Z.sub_diag, Z.pow_0_r, !Z.mul_1_r;
            rewrite Pos.compare_cont_spec; cbn [Pos.switch_Eq];
            change (Pos.compare mb ma) with (Z.compare (Zpos mb) (Zpos ma));
            destruct (Z.compare_spec (Zpos mb) (Zpos ma)); cbn [CompOpp];
            first [apply Z.leb_le; lia | apply Z.leb_gt; lia]).
  all: try (rewrite Z.min_r by lia; rewrite Z.sub_diag, Z.pow_0_r, Z.mul_1_r in *;
            first [apply Z.leb_le; lia | apply Z.leb_gt; lia]).
  all: try (rewrite Z.min_l by lia; rewrite Z.sub_diag, Z.pow_0_r, Z.mul_1_r in *;
            first [apply Z.leb_le; lia | apply Z.leb_gt; lia]).
Qed.

(** ** The credits aggregator *)

Section SortFacts.

Context {A : Type} (compare : A -> A -> number).

Lemma insert_permutation (x : A) (l : list A) :
  Permutation (Credits.insert compare x l) (x :: l).
Proof.
  induction l as [|y l IH]; cbn [Credits.insert]; [reflexivity|].
  destruct (is_pos (compare x y)); [|reflexivity].
  rewrite IH. apply perm_swap.
Qed.

Lemma sort_permutation (l : list A) : Permutation (Credits.sort compare l) l.
Proof.
  induction l as [|x l IH]; cbn [Credits.sort fold_right]; [reflexivity|].
  fold (Credits.sort compare l). rewrite insert_permutation. now apply perm_skip.
Qed.

(** [ok] singles out the elements on which the comparator is consistent
    with the order [before]. *)
Context (ok : A -> Prop) (before : A -> A -> Prop).

Hypothesis compare_pos :
  forall x y, ok x -> ok y -> is_pos (compare x y) = true -> before y x.
Hypothesis compare_not_pos :
  forall x y, ok x -> ok y -> is_pos (compare x y) = false -> before x y.

Lemma insert_sorted (x : A) (l : list A) :
  ok x -> Forall ok l -> Sorted before l -> Sorted before (Credits.insert compare x l).
Proof.
  intros Hx Hl Hs. induction l as [|y l IH]; cbn [Credits.insert].
  - repeat constructor.
  - inversion Hl as [|? ? Hy Hl']; subst. inversion Hs as [|? ? Hs' Hhd]; subst.
    destruct (is_pos (compare x y)) eqn:Hc.
    + constructor; [now apply IH|].
      destruct l as [|z l]; cbn [Credits.insert].
      * constructor. now apply compare_pos.
      * destruct (is_pos (compare x z)).
        -- constructor. now inversion Hhd.
        -- constructor. now apply compare_pos.
    + constructor; [assumption|]. constructor. now apply compare_not_pos.
Qed.

Lemma sort_sorted (l : list A) : Forall ok l -> Sorted before (Credits.sort compare l).
Proof.
  induction l as [|x l IH]; intros Hl; cbn [Credits.sort fold_right].
  - constructor.
  - fold (Credits.sort compare l). inversion Hl as [|? ? Hx Hl']; subst.
    apply insert_sorted; [assumption | | now apply IH].
    now rewrite sort_permutation.
Qed.

End SortFacts.

Lemma mapGet_mapSet (m : list (string * number)) (k : string) (v : number) (k' : string) :
  Credits.mapGet (Credits.mapSet m k v) k'
  = if String.eqb k' k then Some v else Credits.mapGet m k'.
Proof.
  induction m as [|[k0 v0] m IH]; cbn [Credits.mapSet Credits.mapGet]; [reflexivity|].
  destruct (String.eqb_spec k k0) as [->|Hk]; cbn [Credits.mapGet].
  - now destruct (String.eqb k' k0).
  - rewrite IH. destruct (String.eqb_spec k' k0) as [->|]; [|reflexivity].
    destruct (String.eqb_spec k0 k); [congruence | reflexivity].
Qed.

Lemma mapSet_keys (m : list (string * number)) (k : string) (v : number) (k' : string) :
  In k' (map fst (Credits.mapSet m k v)) <-> k' = k \/ In k' (map fst m).
Proof.
  induction m as [|[k0 v0] m IH]; cbn [Credits.mapSet map fst In].
  - split; intros [H|[]]; left; congruence.
  - destruct (String.eqb_spec k k0) as [->|Hk]; cbn [map fst In].
    + split; [intros [H|H] | intros [H|[H|H]]]; auto.
    + rewrite IH. split; [intros [H|[H|H]] | intros [H|[H|H]]]; auto.
Qed.

Lemma mapSet_NoDup (m : list (string * number)) (k : string) (v : number) :
  List.NoDup (map fst m) -> List.NoDup (map fst (Credits.mapSet m k v)).
Proof.
  induction m as [|[k0 v0] m IH]; cbn [Credits.mapSet map fst]; intros Hm.
  - constructor; [intros [] | constructor].
  - inversion Hm as [|? ? Hnotin Hm']; subst.
    destruct (String.eqb_spec k k0) as [->|Hk]; cbn [map fst].
    + now constructor.
    + constructor; [|now apply IH].
      rewrite mapSet_keys. intros [?|?]; [congruence | contradiction].
Qed.

Lemma mapSet_Forall (P : number -> Prop) (m : list (string * number))
      (k : string) (v : number) :
  Forall (fun kv => P (snd kv)) m -> P v ->
  Forall (fun kv => P (snd kv)) (Credits.mapSet m k v).
Proof.
  intros Hm Hv. induction m as [|[k0 v0] m IH]; cbn [Credits.mapSet].
  - now repeat constructor.
  - inversion Hm; subst. destruct (String.eqb k k0); constructor; auto.
Qed.

Lemma mapGet_Some_In (m : list (string * number)) (k : string) (v : number) :
  Credits.mapGet m k = Some v -> In (k, v) m.
Proof.
  induction m as [|[k0 v0] m IH]; cbn [Credits.mapGet]; [discriminate|].
  destruct (String.eqb_spec k k0) as [->|Hk].
  - intros [= ->]. now left.
  - intros H. right. now apply IH.
Qed.

Lemma In_mapGet (m : list (string * number)) (k : string) (v : number) :
  List.NoDup (map fst m) -> In (k, v) m -> Credits.mapGet m k = Some v.
Proof.
  induction m as [|[k0 v0] m IH]; cbn [map fst Credits.mapGet]; intros Hm; [intros []|].
  inversion Hm as [|? ? Hnotin Hm']; subst. intros [[= -> ->]|Hin].
  - now rewrite String.eqb_refl.
  - destruct (String.eqb_spec k k0) as [->|Hk]; [|now apply IH].
    exfalso. apply Hnotin. apply in_map_iff. now exists (k0, v).
Qed.

Lemma orZero_exponent_ok (o : option number) :
  (forall v, o = Some v -> exponent_ok v) -> exponent_ok (Credits.orZero o).
Proof.
  intros H. destruct o as [v|]; [|exact I].
  specialize (H v eq_refl). now destruct v.
Qed.

Lemma aggregate_allGroups (out : Response.GetCostAndUsageResponse) :
  Credits.aggregate out
  = fold_left Credits.accumulate (allGroups out) (pos_zero, []).
Proof.
  unfold Credits.aggregate, allGroups.
  generalize (pos_zero, @nil (string * number)).
  induction (orElse [] (Response.ResultsByTime out)) as [|r rs IH]; intros st.
  - reflexivity.
  - cbn [map concat fold_left]. rewrite fold_left_app. apply IH.
Qed.

(** What the loop over the groups leaves in [(totalUsed, serviceMap)]. *)
Lemma accumulate_fold (gs : list Response.Group) (st : number * list (string * number)) :
  List.NoDup (map fst (snd st)) ->
  Forall (fun kv => exponent_ok (snd kv)) (snd st) ->
  let st' := fold_left Credits.accumulate gs st in
  fst st' = fold_left (fun t g => add t (Credits.amountOf g)) gs (fst st)
  /\ List.NoDup (map fst (snd st'))
  /\ Forall (fun kv => exponent_ok (snd kv)) (snd st')
  /\ (forall svc,
         Credits.mapGet (snd st') svc
         = fold_left
             (fun acc g =>
                if String.eqb svc (Credits.serviceOf g)
                then Some (add (Credits.orZero acc) (Credits.amountOf g))
                else acc)
             gs (Credits.mapGet (snd st) svc))
  /\ (forall svc,
         In svc (map fst (snd st'))
         <-> In svc (map fst (snd st))
             \/ exists g, In g gs /\ Credits.serviceOf g = svc).
Proof.
  revert st. induction gs as [|g gs IH]; intros [t m] Hnd Hok; cbn [fold_left fst snd].
  - repeat split; try assumption; try reflexivity.
    + now left.
    + intros [H|(g & [] & _)]. exact H.
  - cbn [fst snd] in Hnd, Hok.
    set (v := add (Credits.orZero (Credits.mapGet m (Credits.serviceOf g)))
                  (Credits.amountOf g)).
    assert (Hv : exponent_ok v).
    { apply add_exponent_ok; [|apply parseFloat_exponent_ok].
      apply orZero_exponent_ok. intros w Hw. apply mapGet_Some_In in Hw.
      rewrite Forall_forall in Hok. exact (Hok _ (proj2 (list_elem_of_In _ _) Hw)). }
    destruct (IH (add t (Credits.amountOf g), Credits.mapSet m (Credits.serviceOf g) v))
      as (Ht & Hnd' & Hok' & Hget & Hkeys).
    + now apply mapSet_NoDup.
    + now apply mapSet_Forall.
    + cbn [fst snd] in Ht, Hget, Hkeys.
      change (Credits.accumulate (t, m) g)
        with (add t (Credits.amountOf g), Credits.mapSet m (Credits.serviceOf g) v).
      repeat split; try assumption.
      * intros svc. rewrite Hget, mapGet_mapSet.
        destruct (String.eqb_spec svc (Credits.serviceOf g)) as [->|]; reflexivity.
      * rewrite Hkeys, mapSet_keys. intros [[->|H]|(g' & Hin & Hs)].
        -- right. exists g. split; [now left | reflexivity].
        -- now left.
        -- right. exists g'. split; [now right | assumption].
      * rewrite Hkeys, mapSet_keys. intros [H|(g' & [<-|Hin] & Hs)].
        -- left. now right.
        -- left. left. now symmetry.
        -- right. now exists g'.
Qed.

Lemma map_service_toEntry (m : list (string * number)) :
  map Credits.service (map Credits.toEntry m) = map fst m.
Proof. rewrite map_map. now apply map_ext. Qed.

(** C4, as the aggregator has it.  For every answer: [total_used] is the
    absolute value of the sum of all amounts; [by_service] has exactly one
    entry for each service some group names, the name being ["Unknown"]
    for a group with no (or an empty) first key; the entry's amount is the
    absolute value of the service's running sum; and the list is sorted
    descending by amount whenever none of the reported amounts is [NaN].
    The two EC2 groups of -5.00 and -3.00 give the single entry EC2, 8. *)
Theorem credits_aggregation :
  (forall out : Response.GetCostAndUsageResponse,
      let gs := allGroups out in
      let p := Credits.creditsPayload out in
      Credits.total_used p
      = abs (fold_left (fun t g => add t (Credits.amountOf g)) gs pos_zero)
      /\ List.NoDup (map Credits.service (Credits.by_service p))
      /\ (forall svc,
             In svc (map Credits.service (Credits.by_service p))
             <-> exists g, In g gs /\ Credits.serviceOf g = svc)
      /\ (forall e, In e (Credits.by_service p) ->
                    exists t, Credits.serviceTotal (Credits.service e) gs = Some t
                              /\ Credits.amount e = abs t)
      /\ ((forall e, In e (Credits.by_service p) -> is_nan (Credits.amount e) = false) ->
          Sorted Credits.descending (Credits.by_service p)))
  /\ (forall g, firstKey g = None \/ firstKey g = Some "" ->
                Credits.serviceOf g = "Unknown")
  /\ Credits.creditsPayload
       (Sample.response [Sample.group "EC2" "-5.00"; Sample.group "EC2" "-3.00"])
     = {| Credits.total_used := of_Z 8;
          Credits.by_service := [ {| Credits.service := "EC2"; Credits.amount := of_Z 8 |} ] |}.
Proof.
  split; [|split].
  - intros out gs p. subst p. unfold Credits.creditsPayload.
    rewrite aggregate_allGroups. fold gs.
    destruct (accumulate_fold gs (pos_zero, []))
      as (Ht & Hnd & Hok & Hget & Hkeys); [constructor | constructor |].
    destruct (fold_left Credits.accumulate gs (pos_zero, [])) as [t m].
    cbn [fst snd] in *. cbn [Credits.total_used Credits.by_service].
    assert (Hperm := sort_permutation Credits.byAmountDesc (map Credits.toEntry m)).
    assert (Hservices :
              Permutation (map Credits.service
                               (Credits.sort Credits.byAmountDesc (map Credits.toEntry m)))
                          (map fst m)).
    { rewrite <- map_service_toEntry. now apply Permutation_map. }
    split; [now rewrite Ht|]. split; [|split; [|split]].
    + apply (Permutation_NoDup (Permutation_sym Hservices)), Hnd.
    + intros svc. split.
      * intros Hin. apply (Permutation_in _ Hservices) in Hin.
        apply Hkeys in Hin. destruct Hin as [[]|Hin]. exact Hin.
      * intros Hex. apply (Permutation_in _ (Permutation_sym Hservices)).
        apply Hkeys. now right.
    + intros e Hin. apply (Permutation_in _ Hperm) in Hin.
      apply in_map_iff in Hin. destruct Hin as ([k v] & <- & Hin).
      exists v. split; [|reflexivity].
      cbn [Credits.toEntry Credits.service fst]. unfold Credits.serviceTotal.
      rewrite <- Hget. now apply In_mapGet.
    + intros Hnan.
      apply (sort_sorted Credits.byAmountDesc
               (fun e => is_nan (Credits.amount e) = false
                         /\ exponent_ok (Credits.amount e))).
      * intros x y _ _. apply sub_pos_geb.
      * intros x y [Hx1 Hx2] [Hy1 Hy2]. now apply sub_not_pos_geb.
      * apply List.Forall_forall. intros e Hin. split.
        -- apply Hnan. now apply (Permutation_in _ (Permutation_sym Hperm)).
        -- apply in_map_iff in Hin. destruct Hin as ([k v] & <- & Hin).
           apply abs_exponent_ok.
           rewrite List.Forall_forall in Hok. exact (Hok _ Hin).
  - intros g [H|H]; unfold Credits.serviceOf; now rewrite H.
  - vm_compute. reflexivity.
Qed.

Lemma credits_aggregation_witness :
  Sorted Credits.descending
    (Credits.by_service
       (Credits.creditsPayload
          (Sample.response [Sample.group "Amazon S3" "-1.25";
                            Sample.group "EC2" "-5.00";
                            Sample.group "Amazon S3" "-0.75";
                            Sample.group "" "-3"]))).
Proof.
  apply (proj1 credits_aggregation).
  vm_compute. intros e [<-|[<-|[<-|[]]]]; reflexivity.
Defined.

(** C4, as stated, fails when an amount is not numeric: with the groups
    A of amount ["abc"] and B of amount ["1"], [by_service] holds A with
    [NaN] and B with 1, and no arrangement of these two entries is sorted
    descending by amount. *)
Lemma credits_not_sorted_with_NaN :
  Credits.by_service
    (Credits.creditsPayload
       (Sample.response [Sample.group "A" "abc"; Sample.group "B" "1"]))
  = [ {| Credits.service := "A"; Credits.amount := S754_nan |};
      {| Credits.service := "B"; Credits.amount := of_Z 1 |} ]
  /\ forall l,
      Permutation
        [ {| Credits.service := "A"; Credits.amount := S754_nan |};
          {| Credits.service := "B"; Credits.amount := of_Z 1 |} ] l ->
      ~ Sorted Credits.descending l.
Proof.
  split; [vm_compute; reflexivity|].
  intros l Hperm Hsorted.
  apply Permutation_length_2_inv in Hperm. destruct Hperm as [->| ->].
  - inversion Hsorted as [|? ? _ Hhd]; subst. inversion Hhd as [|? ? Hd]; subst.
    discriminate Hd.
  - inversion Hsorted as [|? ? _ Hhd]; subst. inversion Hhd as [|? ? Hd]; subst.
    discriminate Hd.
Qed.

(** * Further properties *)

(** ** Cache keys are canonical *)

Lemma unquote_quote_char (c : ascii) (rest : string) :
  unquote_char (quote_char c ++ rest) = Some (c, rest).
Proof. destruct c as [[] [] [] [] [] [] [] []]; reflexivity. Qed.

Lemma unquote_char_dquote (rest : string) : unquote_char (dquote ++ rest) = None.
Proof. reflexivity. Qed.

(** A quoted string body is read back unambiguously up to its closing
    quote. *)
Lemma quote_body_inj (s1 s2 r1 r2 : string) :
  quote_body s1 ++ dquote ++ r1 = quote_body s2 ++ dquote ++ r2 ->
  s1 = s2 /\ r1 = r2.
Proof.
  revert s2. induction s1 as [|c1 s1 IH]; intros [|c2 s2] H; cbn [quote_body] in H.
  - split; [reflexivity|]. now injection H.
  - rewrite string_app_assoc in H. apply (f_equal unquote_char) in H.
    rewrite unquote_quote_char in H. discriminate H.
  - rewrite string_app_assoc in H. apply (f_equal unquote_char) in H.
    rewrite unquote_quote_char in H. discriminate H.
  - rewrite !string_app_assoc in H. pose proof (f_equal unquote_char H) as Hc.
    rewrite !unquote_quote_char in Hc. injection Hc as -> Hrest.
    destruct (IH _ Hrest) as [-> ->]. now split.
Qed.

Lemma granularityName_inj (g1 g2 : Costs.Granularity) :
  Costs.granularityName g1 = Costs.granularityName g2 -> g1 = g2.
Proof. destruct g1, g2; intros H; try reflexivity; discriminate H. Qed.

Lemma groupingName_inj (b1 b2 : Costs.Grouping) :
  Costs.groupingName b1 = Costs.groupingName b2 -> b1 = b2.
Proof. destruct b1, b2; intros H; try reflexivity; discriminate H. Qed.

Lemma string_app_inv_head (p x y : string) : p ++ x = p ++ y -> x = y.
Proof.
  induction p as [|c p IH]; intros H; [exact H|].
  apply IH. now injection H.
Qed.

Lemma cacheKey_inj s1 e1 g1 b1 s2 e2 g2 b2 :
  Costs.cacheKey s1 e1 g1 b1 = Costs.cacheKey s2 e2 g2 b2 ->
  s1 = s2 /\ e1 = e2 /\ g1 = g2 /\ b1 = b2.
Proof.
  unfold Costs.cacheKey, JSON_quote. rewrite !string_app_assoc.
  intros H.
  do 6 apply string_app_inv_head in H.
  apply quote_body_inj in H. destruct H as [-> H].
  do 6 apply string_app_inv_head in H.
  apply quote_body_inj in H. destruct H as [-> H].
  do 6 apply string_app_inv_head in H.
  apply quote_body_inj in H. destruct H as [Hg H].
  do 6 apply string_app_inv_head in H.
  apply quote_body_inj in H. destruct H as [Hb _].
  apply granularityName_inj in Hg. apply groupingName_inj in Hb.
  now subst.
Qed.

(** X1. The cache key is a canonical serialization: two resolved queries
    have the same key exactly when they agree on start, end, granularity
    and grouping, whatever characters the dates hold. *)
Theorem cacheKey_canonical :
  forall (s1 e1 s2 e2 : string) (g1 g2 : Costs.Granularity) (b1 b2 : Costs.Grouping),
    Costs.cacheKey s1 e1 g1 b1 = Costs.cacheKey s2 e2 g2 b2
    <-> s1 = s2 /\ e1 = e2 /\ g1 = g2 /\ b1 = b2.
Proof.
  intros. split.
  - apply cacheKey_inj.
  - now intros (-> & -> & -> & ->).
Qed.

(** ** The paths of the costs handler *)

Lemma parseDate_None (o : option string) :
  Costs.parseDate o = None <-> exists s, o = Some s /\ Costs.isDateString s = false.
Proof.
  unfold Costs.parseDate. destruct o as [s|].
  - destruct (Costs.isDateString s) eqn:Hs; split.
    + discriminate.
    + intros (s' & [= <-] & H). congruence.
    + intros _. now exists s.
    + reflexivity.
  - split; [discriminate | intros (s & H & _); discriminate H].
Qed.

Lemma parseGranularity_None (o : option string) :
  Costs.parseGranularity o = None
  <-> exists s, o = Some s /\ s <> "DAILY" /\ s <> "MONTHLY".
Proof.
  unfold Costs.parseGranularity. destruct o as [s|].
  - destruct (String.eqb_spec s "DAILY") as [->|H1].
    + split; [discriminate | intros (s' & [= <-] & H & _); congruence].
    + destruct (String.eqb_spec s "MONTHLY") as [->|H2].
      * split; [discriminate | intros (s' & [= <-] & _ & H); congruence].
      * split; [intros _; now exists s | reflexivity].
  - split; [discriminate | intros (s & H & _); discriminate H].
Qed.

Lemma parseGrouping_None (o : option string) :
  Costs.parseGrouping o = None
  <-> exists s, o = Some s /\ s <> "SERVICE" /\ s <> "NONE".
Proof.
  unfold Costs.parseGrouping. destruct o as [s|].
  - destruct (String.eqb_spec s "SERVICE") as [->|H1].
    + split; [discriminate | intros (s' & [= <-] & H & _); congruence].
    + destruct (String.eqb_spec s "NONE") as [->|H2].
      * split; [discriminate | intros (s' & [= <-] & _ & H); congruence].
      * split; [intros _; now exists s | reflexivity].
  - split; [discriminate | intros (s & H & _); discriminate H].
Qed.

Lemma safeParse_None (r : Costs.RawQuery) : Costs.safeParse r = None <-> malformed r.
Proof.
  unfold Costs.safeParse, malformed.
  rewrite <- !parseDate_None, <- parseGranularity_None, <- parseGrouping_None.
  destruct (Costs.parseDate (Costs.raw_start r)), (Costs.parseDate (Costs.raw_end r)),
    (Costs.parseGranularity (Costs.raw_granularity r)),
    (Costs.parseGrouping (Costs.raw_groupBy r)); split; intros H;
    try reflexivity; try discriminate H; try tauto;
    decompose [or] H; discriminate.
Qed.

(** The defaults computed from the clock fail only with the range error
    of an invalid date. *)
Lemma isoDate_Throw (t : Z) (err : JsError) :
  Costs.isoDate t = Throw err -> err = RangeError /\ valid_time t = false.
Proof.
  unfold Costs.isoDate, toISOString. destruct (valid_time t); cbn [bind].
  - discriminate.
  - now intros [= <-].
Qed.

Lemma isoDate_valid (t : Z) :
  valid_time t = true -> exists s, Costs.isoDate t = Ok s.
Proof.
  intros H. unfold Costs.isoDate, toISOString. rewrite H. cbn [bind]. eauto.
Qed.

(** The five ways a request ends. *)
Lemma handler_cases clock query send second_first cache :
  (malformed query
   /\ Costs.handler clock query send second_first cache = (Ok badRequest, cache))
  \/ (exists q,
        Costs.safeParse query = Some q
        /\ ((Costs.end_ q = None /\ valid_time (Costs.now clock) = false)
            \/ (Costs.start q = None
                /\ valid_time (Costs.now clock - 30 * 24 * 60 * 60 * 1000) = false))
        /\ Costs.handler clock query send second_first cache = (Throw RangeError, cache))
  \/ (exists q start end_,
        Costs.safeParse query = Some q
        /\ Costs.resolveEnd (Costs.now clock) q = Ok end_
        /\ Costs.resolveStart (Costs.now clock) q = Ok start
        /\ let key := Costs.cacheKey start end_ (Costs.granularity q) (Costs.groupBy q) in
           (exists hit,
               cache !! key = Some hit /\ Costs.lookupTime clock <= expiresAt hit
               /\ Costs.handler clock query send second_first cache
                  = (Ok (okResponse (value hit)), cache))
           \/ (fst (cacheGet cache key (Costs.lookupTime clock)) = None
               /\ exists out summaryOut,
                   send (Costs.cmd start end_ q) = Ok out
                   /\ send (Costs.summaryCmd start end_) = Ok summaryOut
                   /\ Costs.handler clock query send second_first cache
                      = (Ok (okResponse (payloadOf start end_ q out summaryOut)),
                         cacheSet (delete key cache) key
                                  (payloadOf start end_ q out summaryOut)
                                  (Costs.storeTime clock)))
           \/ (fst (cacheGet cache key (Costs.lookupTime clock)) = None
               /\ exists err,
                   (send (Costs.cmd start end_ q) = Throw err
                    \/ send (Costs.summaryCmd start end_) = Throw err)
                   /\ Costs.handler clock query send second_first cache
                      = (Ok (upstreamError err), delete key cache))).
Proof.
  destruct (Costs.safeParse query) as [q|] eqn:Hq.
  2:{ left. split; [now apply safeParse_None|]. unfold Costs.handler. now rewrite Hq. }
  right.
  destruct (Costs.resolveEnd (Costs.now clock) q) as [end_|err] eqn:He.
  2:{ left. exists q. split; [reflexivity|].
      unfold Costs.resolveEnd in He. destruct (Costs.end_ q) eqn:Hend; [discriminate|].
      apply isoDate_Throw in He as [-> Hv]. split; [now left|].
      unfold Costs.handler. rewrite Hq. unfold Costs.resolveEnd. rewrite Hend.
      unfold Costs.isoDate, toISOString. now rewrite Hv. }
  destruct (Costs.resolveStart (Costs.now clock) q) as [start|err] eqn:Hs.
  2:{ left. exists q. split; [reflexivity|].
      pose proof Hs as Hs'.
      unfold Costs.resolveStart in Hs. destruct (Costs.start q) eqn:Hstart; [discriminate|].
      apply isoDate_Throw in Hs as [-> Hv]. split; [now right|].
      unfold Costs.handler. rewrite Hq, He. cbn [bind]. now rewrite Hs'. }
  right. exists q, start, end_. do 3 (split; [first [reflexivity | assumption]|]).
  cbv zeta.
  set (key := Costs.cacheKey start end_ (Costs.granularity q) (Costs.groupBy q)).
  destruct (cache !! key) as [hit|] eqn:Hk.
  - destruct (Z.le_gt_cases (Costs.lookupTime clock) (expiresAt hit)) as [Hlive|Hdead].
    + left. exists hit. split; [reflexivity|]. split; [assumption|].
      now apply costs_handler_cache_hit with q start end_.
    + right. assert (Hmiss : fst (cacheGet cache key (Costs.lookupTime clock)) = None).
      { now rewrite (cacheGet_expired _ _ _ _ Hk) by lia. }
      destruct (send (Costs.cmd start end_ q)) as [out|e1] eqn:H1;
        destruct (send (Costs.summaryCmd start end_)) as [sout|e2] eqn:H2.
      * left. split; [assumption|]. exists out, sout. repeat (split; [reflexivity|]).
        now apply costs_handler_fetch.
      * right. split; [assumption|]. exists e2. split; [now right|].
        unfold Costs.handler. rewrite Hq, He. cbn [bind]. rewrite Hs. cbn [bind].
        fold key. rewrite (cacheGet_expired _ _ _ _ Hk) by lia. now rewrite H1, H2.
      * right. split; [assumption|]. exists e1. split; [now left|].
        unfold Costs.handler. rewrite Hq, He. cbn [bind]. rewrite Hs. cbn [bind].
        fold key. rewrite (cacheGet_expired _ _ _ _ Hk) by lia. now rewrite H1, H2.
      * right. split; [assumption|].
        exists (if second_first then e2 else e1).
        split; [destruct second_first; [now right | now left]|].
        unfold Costs.handler. rewrite Hq, He. cbn [bind]. rewrite Hs. cbn [bind].
        fold key. rewrite (cacheGet_expired _ _ _ _ Hk) by lia. now rewrite H1, H2.
  - right. assert (Hmiss : fst (cacheGet cache key (Costs.lookupTime clock)) = None).
    { now rewrite (cacheGet_miss _ _ _ Hk). }
    assert (Hdel : delete key cache = cache) by now apply delete_id.
    destruct (send (Costs.cmd start end_ q)) as [out|e1] eqn:H1;
      destruct (send (Costs.summaryCmd start end_)) as [sout|e2] eqn:H2.
    * left. split; [assumption|]. exists out, sout. repeat (split; [reflexivity|]).
      now apply costs_handler_fetch.
    * right. split; [assumption|]. exists e2. split; [now right|].
      unfold Costs.handler. rewrite Hq, He. cbn [bind]. rewrite Hs. cbn [bind].
      fold key. rewrite (cacheGet_miss _ _ _ Hk), Hdel. now rewrite H1, H2.
    * right. split; [assumption|]. exists e1. split; [now left|].
      unfold Costs.handler. rewrite Hq, He. cbn [bind]. rewrite Hs. cbn [bind].
      fold key. rewrite (cacheGet_miss _ _ _ Hk), Hdel. now rewrite H1, H2.
    * right. split; [assumption|].
      exists (if second_first then e2 else e1).
      split; [destruct second_first; [now right | now left]|].
      unfold Costs.handler. rewrite Hq, He. cbn [bind]. rewrite Hs. cbn [bind].
      fold key. rewrite (cacheGet_miss _ _ _ Hk), Hdel. now rewrite H1, H2.
Qed.

(** X2. A query the schema rejects is answered with status 400 and the
    body "Invalid query", whatever the clock, the upstream client and the
    cache are, and the cache is left as it was; conversely a 400 is only
    ever the answer to such a query. *)
Theorem invalid_query_is_400 :
  forall (clock : Costs.Clock) (query : Costs.RawQuery)
         (send : Request.GetCostAndUsageCommand -> result Response.GetCostAndUsageResponse)
         (second_first : bool) (cache : gmap string (entry Costs.CostsPayload)),
    (malformed query ->
     Costs.handler clock query send second_first cache
     = (Ok {| Costs.status := 400; Costs.json := Costs.InvalidQuery "Invalid query" |},
        cache))
    /\ (forall resp,
           fst (Costs.handler clock query send second_first cache) = Ok resp ->
           Costs.status resp = 400 -> malformed query).
Proof.
  intros clock query send second_first cache. split.
  - intros Hbad. apply safeParse_None in Hbad. unfold Costs.handler. now rewrite Hbad.
  - intros resp Hresp Hst.
    destruct (handler_cases clock query send second_first cache)
      as [[Hbad _]|[(q & _ & _ & H)|(q & start & end_ & _ & _ & _ & H)]].
    + exact Hbad.
    + rewrite H in Hresp. discriminate Hresp.
    + cbv zeta in H.
      destruct H as [(hit & _ & _ & H)|[(_ & out & sout & _ & _ & H)|(_ & err & _ & H)]];
        rewrite H in Hresp; cbn [fst] in Hresp; injection Hresp as <-;
        discriminate Hst.
Qed.

Lemma invalid_query_is_400_witness :
  Costs.handler Sample.clock
    {| Costs.raw_start := Some "2024-1-1"; Costs.raw_end := None;
       Costs.raw_granularity := None; Costs.raw_groupBy := None |}
    Sample.failing false Sample.staleCache
  = (Ok {| Costs.status := 400; Costs.json := Costs.InvalidQuery "Invalid query" |},
     Sample.staleCache).
Proof.
  apply invalid_query_is_400.
  left. exists "2024-1-1". split; reflexivity.
Defined.

(** X3. While the clock reads a valid time, and so does the instant 30
    days before it, the costs handler always answers, with status 200,
    400 or 500: no exception escapes it.  An exception that escapes is
    the range error of a default date computed from an invalid time. *)
Theorem costs_handler_always_answers :
  forall (clock : Costs.Clock) (query : Costs.RawQuery)
         (send : Request.GetCostAndUsageCommand -> result Response.GetCostAndUsageResponse)
         (second_first : bool) (cache : gmap string (entry Costs.CostsPayload)),
    (valid_time (Costs.now clock) = true ->
     valid_time (Costs.now clock - 30 * 24 * 60 * 60 * 1000) = true ->
     exists resp,
       fst (Costs.handler clock query send second_first cache) = Ok resp
       /\ (Costs.status resp = 200 \/ Costs.status resp = 400
           \/ Costs.status resp = 500))
    /\ (forall err,
           fst (Costs.handler clock query send second_first cache) = Throw err ->
           err = RangeError
           /\ (valid_time (Costs.now clock) = false
               \/ valid_time (Costs.now clock - 30 * 24 * 60 * 60 * 1000) = false)).
Proof.
  intros clock query send second_first cache.
  destruct (handler_cases clock query send second_first cache)
    as [[_ H]|[(q & _ & Hv & H)|(q & start & end_ & _ & _ & _ & H)]].
  - rewrite H. split.
    + intros _ _. exists badRequest. split; [reflexivity | now right; left].
    + intros err [=].
  - rewrite H. split.
    + intros H1 H2. destruct Hv as [[_ Hv]|[_ Hv]]; congruence.
    + intros err [= <-]. split; [reflexivity|]. destruct Hv as [[_ Hv]|[_ Hv]]; auto.
  - cbv zeta in H.
    destruct H as [(hit & _ & _ & H)|[(_ & out & sout & _ & _ & H)|(_ & err & _ & H)]];
      rewrite H; (split; [intros _ _ | intros e [=]]).
    + eexists. split; [reflexivity | now left].
    + eexists. split; [reflexivity | now left].
    + eexists. split; [reflexivity | now right; right].
Qed.

Lemma costs_handler_always_answers_witness :
  exists resp,
    fst (Costs.handler Sample.clock
           {| Costs.raw_start := None; Costs.raw_end := None;
              Costs.raw_granularity := None; Costs.raw_groupBy := None |}
           Sample.failing false Sample.staleCache) = Ok resp
    /\ (Costs.status resp = 200 \/ Costs.status resp = 400 \/ Costs.status resp = 500).
Proof.
  apply costs_handler_always_answers; reflexivity.
Defined.

(** X4. After a request has fetched and stored a payload, the same query
    (resolving to the same dates) at any lookup time up to 60000 ms after
    the store time gets the very same answer and leaves the cache as it
    is, whatever the upstream client would answer then. *)
Theorem repeated_query_served_from_cache :
  forall (clock1 clock2 : Costs.Clock) (query : Costs.RawQuery)
         (send1 send2 : Request.GetCostAndUsageCommand
                        -> result Response.GetCostAndUsageResponse)
         (sf1 sf2 : bool) (cache : gmap string (entry Costs.CostsPayload))
         (q : Costs.CostsQuery) (start end_ : string)
         (out summaryOut : Response.GetCostAndUsageResponse),
    Costs.safeParse query = Some q ->
    Costs.resolveEnd (Costs.now clock1) q = Ok end_ ->
    Costs.resolveStart (Costs.now clock1) q = Ok start ->
    Costs.resolveEnd (Costs.now clock2) q = Ok end_ ->
    Costs.resolveStart (Costs.now clock2) q = Ok start ->
    fst (cacheGet cache (Costs.cacheKey start end_ (Costs.granularity q) (Costs.groupBy q))
                  (Costs.lookupTime clock1)) = None ->
    send1 (Costs.cmd start end_ q) = Ok out ->
    send1 (Costs.summaryCmd start end_) = Ok summaryOut ->
    Costs.lookupTime clock2 <= Costs.storeTime clock1 + 60000 ->
    Costs.handler clock2 query send2 sf2
                  (snd (Costs.handler clock1 query send1 sf1 cache))
    = Costs.handler clock1 query send1 sf1 cache.
Proof.
  intros clock1 clock2 query send1 send2 sf1 sf2 cache q start end_ out summaryOut
         Hq He1 Hs1 He2 Hs2 Hmiss Hout Hsum Hlive.
  rewrite (costs_handler_fetch clock1 query send1 sf1 cache q start end_ out summaryOut)
    by assumption.
  cbn [snd].
  set (key := Costs.cacheKey start end_ (Costs.granularity q) (Costs.groupBy q)).
  set (payload := {| Costs.p_start := start |}).
  rewrite (costs_handler_cache_hit clock2 query send2 sf2 _ q start end_
             {| expiresAt := Costs.storeTime clock1 + CACHE_TTL_MS; value := payload |});
    try assumption; try reflexivity.
  apply cacheSet_lookup.
Qed.

Lemma repeated_query_served_from_cache_witness :
  Costs.handler
    {| Costs.now := 1700000050000; Costs.lookupTime := 1700000060000;
       Costs.storeTime := 1700000061000 |}
    Sample.query Sample.failing true
    (snd (Costs.handler Sample.clock Sample.query
            (answering (Sample.response [Sample.group "Usage" "40.00"]))
            false Sample.staleCache))
  = Costs.handler Sample.clock Sample.query
      (answering (Sample.response [Sample.group "Usage" "40.00"]))
      false Sample.staleCache.
Proof.
  apply (repeated_query_served_from_cache
           Sample.clock _ Sample.query _ Sample.failing false true Sample.staleCache
           {| Costs.start := Some "2024-01-01"; Costs.end_ := Some "2024-01-03";
              Costs.granularity := Costs.DAILY; Costs.groupBy := Costs.SERVICE |}
           "2024-01-01" "2024-01-03"
           (Sample.response [Sample.group "Usage" "40.00"])
           (Sample.response [Sample.group "Usage" "40.00"]));
    first [reflexivity | vm_compute; reflexivity | cbn; lia].
Defined.

(** What a request can do to the cache: nothing, evict the entry under
    its own key, or replace it by a fresh one. *)
Lemma handler_cache_shape clock query send second_first cache :
  snd (Costs.handler clock query send second_first cache) = cache
  \/ exists q start end_,
      Costs.safeParse query = Some q
      /\ Costs.resolveEnd (Costs.now clock) q = Ok end_
      /\ Costs.resolveStart (Costs.now clock) q = Ok start
      /\ (snd (Costs.handler clock query send second_first cache)
          = delete (Costs.cacheKey start end_ (Costs.granularity q) (Costs.groupBy q)) cache
          \/ exists out summaryOut,
              snd (Costs.handler clock query send second_first cache)
              = cacheSet
                  (delete (Costs.cacheKey start end_ (Costs.granularity q) (Costs.groupBy q))
                          cache)
                  (Costs.cacheKey start end_ (Costs.granularity q) (Costs.groupBy q))
                  (payloadOf start end_ q out summaryOut) (Costs.storeTime clock)).
Proof.
  destruct (handler_cases clock query send second_first cache)
    as [[_ H]|[(q & _ & _ & H)|(q & start & end_ & Hq & He & Hs & H)]].
  - left. now rewrite H.
  - left. now rewrite H.
  - cbv zeta in H.
    destruct H as [(hit & _ & _ & H)|[(_ & out & sout & _ & _ & H)|(_ & err & _ & H)]].
    + left. now rewrite H.
    + right. exists q, start, end_. repeat (split; [assumption|]).
      right. exists out, sout. now rewrite H.
    + right. exists q, start, end_. repeat (split; [assumption|]).
      left. now rewrite H.
Qed.

(** X5. A request touches no cache entry but the one under its own key:
    entries of other queries, expired ones included, are neither altered
    nor evicted.  And every entry found in the cache afterwards was there
    before or is a fresh one, stored under the key of the query its
    payload echoes and expiring 60000 ms after the store time. *)
Theorem costs_handler_cache_footprint :
  forall (clock : Costs.Clock) (query : Costs.RawQuery)
         (send : Request.GetCostAndUsageCommand -> result Response.GetCostAndUsageResponse)
         (second_first : bool) (cache : gmap string (entry Costs.CostsPayload)),
    (forall key',
        (forall q start end_,
            Costs.safeParse query = Some q ->
            Costs.resolveEnd (Costs.now clock) q = Ok end_ ->
            Costs.resolveStart (Costs.now clock) q = Ok start ->
            key' <> Costs.cacheKey start end_ (Costs.granularity q) (Costs.groupBy q)) ->
        snd (Costs.handler clock query send second_first cache) !! key' = cache !! key')
    /\ (forall k e,
           snd (Costs.handler clock query send second_first cache) !! k = Some e ->
           cache !! k = Some e
           \/ (expiresAt e = Costs.storeTime clock + 60000 /\ k = keyOf (value e))).
Proof.
  intros clock query send second_first cache.
  destruct (handler_cache_shape clock query send second_first cache)
    as [->|(q & start & end_ & Hq & He & Hs & [-> | (out & sout & ->)])].
  - split; [reflexivity | now left].
  - split.
    + intros key' Hne. apply lookup_delete_ne. intros Heq. symmetry in Heq.
      now apply (Hne q start end_).
    + intros k e Hk. left. apply lookup_delete_Some in Hk. tauto.
  - set (key := Costs.cacheKey start end_ (Costs.granularity q) (Costs.groupBy q)).
    split.
    + intros key' Hne. specialize (Hne q start end_ Hq He Hs). fold key in Hne.
      rewrite cacheSet_lookup_ne by congruence. apply lookup_delete_ne. congruence.
    + intros k e Hk. destruct (decide (k = key)) as [->|Hne].
      * rewrite cacheSet_lookup in Hk. injection Hk as <-. right.
        split; reflexivity.
      * rewrite cacheSet_lookup_ne in Hk by congruence.
        left. apply lookup_delete_Some in Hk. tauto.
Qed.

Lemma costs_handler_cache_footprint_witness :
  snd (Costs.handler Sample.clock
         {| Costs.raw_start := Some "2024-02-01"; Costs.raw_end := Some "2024-02-03";
            Costs.raw_granularity := None; Costs.raw_groupBy := None |}
         (answering (Sample.response [])) false Sample.staleCache) !! Sample.key
  = Sample.staleCache !! Sample.key.
Proof.
  apply costs_handler_cache_footprint.
  intros q start end_ [= <-] [= <-] [= <-] Heq.
  apply cacheKey_inj in Heq. destruct Heq as [Heq _]. discriminate Heq.
Defined.

Lemma consistent_delete (cache : gmap string (entry Costs.CostsPayload)) (k : string) :
  consistent cache -> consistent (delete k cache).
Proof.
  intros Hc k' e Hk. apply lookup_delete_Some in Hk. now apply Hc.
Qed.

(** X6. The cache stays consistent: if every entry sits under the key of
    the query its payload echoes (as in the empty cache), so it does
    after any request.  Hence, on a consistent cache, a 200 answer always
    echoes the resolved query it answers, also when it comes out of the
    cache. *)
Theorem cache_stays_consistent :
  consistent ∅
  /\ forall (clock : Costs.Clock) (query : Costs.RawQuery)
            (send : Request.GetCostAndUsageCommand
                    -> result Response.GetCostAndUsageResponse)
            (second_first : bool) (cache : gmap string (entry Costs.CostsPayload)),
      consistent cache ->
      consistent (snd (Costs.handler clock query send second_first cache))
      /\ forall p,
          fst (Costs.handler clock query send second_first cache)
          = Ok {| Costs.status := 200; Costs.json := Costs.CostsBody p |} ->
          exists q start end_,
            Costs.safeParse query = Some q
            /\ Costs.resolveEnd (Costs.now clock) q = Ok end_
            /\ Costs.resolveStart (Costs.now clock) q = Ok start
            /\ Costs.p_start p = start /\ Costs.p_end p = end_
            /\ Costs.p_granularity p = Costs.granularity q
            /\ Costs.p_groupBy p = Costs.groupBy q.
Proof.
  split; [intros k e Hk; rewrite lookup_empty in Hk; discriminate Hk|].
  intros clock query send second_first cache Hc. split.
  - destruct (handler_cache_shape clock query send second_first cache)
      as [->|(q & start & end_ & Hq & He & Hs & [-> | (out & sout & ->)])].
    + exact Hc.
    + now apply consistent_delete.
    + intros k e Hk.
      destruct (decide (k = Costs.cacheKey start end_ (Costs.granularity q)
                                           (Costs.groupBy q))) as [->|Hne].
      * rewrite cacheSet_lookup in Hk. now injection Hk as <-.
      * rewrite cacheSet_lookup_ne in Hk by congruence.
        exact (consistent_delete cache _ Hc k e Hk).
  - intros p Hp.
    destruct (handler_cases clock query send second_first cache)
      as [[_ H]|[(q & _ & _ & H)|(q & start & end_ & Hq & He & Hs & H)]].
    + rewrite H in Hp. discriminate Hp.
    + rewrite H in Hp. discriminate Hp.
    + exists q, start, end_. repeat (split; [assumption|]). cbv zeta in H.
      destruct H as [(hit & Hk & _ & H)|[(_ & out & sout & _ & _ & H)|(_ & err & _ & H)]];
        rewrite H in Hp; cbn [fst] in Hp.
      * injection Hp as <-. apply Hc in Hk. unfold keyOf in Hk.
        apply cacheKey_inj in Hk. destruct Hk as (-> & -> & -> & ->). now repeat split.
      * injection Hp as <-. now repeat split.
      * discriminate Hp.
Qed.

Lemma cache_stays_consistent_witness :
  consistent (∅ : gmap string (entry Costs.CostsPayload))
  /\ consistent
       (snd (Costs.handler Sample.clock Sample.query
               (answering (Sample.response [Sample.group "Usage" "40.00"]))
               false ∅)).
Proof.
  destruct cache_stays_consistent as [Hempty Hstep].
  split; [exact Hempty | apply Hstep; exact Hempty].
Defined.

(** ** Default dates and the calendar day *)

Lemma digit_char_inj (a b : Z) :
  0 <= a <= 9 -> 0 <= b <= 9 -> digit_char a = digit_char b -> a = b.
Proof.
  unfold digit_char. intros Ha Hb H. apply (f_equal N_of_ascii) in H.
  rewrite !N_ascii_embedding in H by lia. lia.
Qed.

Lemma digit_mod_inj (a b : Z) : digit_char (a mod 10) = digit_char (b mod 10) ->
  a mod 10 = b mod 10.
Proof.
  apply digit_char_inj.
  - pose proof (Z.mod_pos_bound a 10 eq_refl). lia.
  - pose proof (Z.mod_pos_bound b 10 eq_refl). lia.
Qed.

(** In the years 0 to 9999 the date string determines the day. *)
Lemma date_string_inj (d1 d2 : Z) :
  0 <= fst (fst (civil_from_days d1)) <= 9999 ->
  0 <= fst (fst (civil_from_days d2)) <= 9999 ->
  date_string d1 = date_string d2 -> d1 = d2.
Proof.
  intros Hy1 Hy2.
  destruct (civil_from_days_round_trip d1) as (y1 & m1 & a1 & E1 & Hm1 & Ha1 & B1).
  destruct (civil_from_days_round_trip d2) as (y2 & m2 & a2 & E2 & Hm2 & Ha2 & B2).
  unfold date_string. rewrite E1, E2 in *. cbn [fst] in Hy1, Hy2.
  unfold year_string.
  destruct (Z.leb_spec 0 y1); [|lia]. destruct (Z.leb_spec y1 9999); [|lia].
  destruct (Z.leb_spec 0 y2); [|lia]. destruct (Z.leb_spec y2 9999); [|lia].
  cbn [andb]. rewrite !pad_4, !pad_2. cbv [String.append].
  intros Heq. injection Heq as D1 D2 D3 D4 D5 D6 D7 D8.
  apply digit_mod_inj in D1, D2, D3, D4, D5, D6, D7, D8.
  assert (y1 = y2) by (Z.div_mod_to_equations; lia).
  assert (m1 = m2) by (Z.div_mod_to_equations; lia).
  assert (a1 = a2) by (Z.div_mod_to_equations; lia).
  subst. congruence.
Qed.

(** X7. A request that leaves out [start] or [end] is the request that
    spells out the calendar date of [now] for [end] and the date 30 days
    before for [start]: while the clock lies in the years 0 to 9999, both
    get the same answer and leave the same cache.  In particular the
    dates the server computes pass its own validation. *)
Theorem omitted_dates_can_be_spelled_out :
  forall (clock : Costs.Clock) (query : Costs.RawQuery)
         (send : Request.GetCostAndUsageCommand -> result Response.GetCostAndUsageResponse)
         (second_first : bool) (cache : gmap string (entry Costs.CostsPayload)),
    -62164627200000 <= Costs.now clock < 253402300800000 ->
    Costs.handler clock (withDefaults (Costs.now clock) query) send second_first cache
    = Costs.handler clock query send second_first cache.
Proof.
  intros clock [rs re rg rb] send second_first cache Hnow.
  destruct (isoDate_date_string (Costs.now clock)) as [He Hfe]; [lia|].
  destruct (isoDate_date_string (Costs.now clock - 30 * 24 * 60 * 60 * 1000))
    as [Hs Hfs]; [lia|].
  rewrite Day_30_days_before in Hs, Hfs.
  unfold Costs.handler, Costs.safeParse, withDefaults, Costs.parseDate.
  cbn [Costs.raw_start Costs.raw_end Costs.raw_granularity Costs.raw_groupBy].
  destruct rs as [s|], re as [e|]; cbn [orElse]; rewrite ?Hfe, ?Hfs.
  - reflexivity.
  - destruct (Costs.isDateString s); [|reflexivity].
    destruct (Costs.parseGranularity rg); [|reflexivity].
    destruct (Costs.parseGrouping rb); [|reflexivity].
    unfold Costs.resolveEnd, Costs.resolveStart.
    cbn [Costs.end_ Costs.start]. rewrite He. reflexivity.
  - destruct (Costs.isDateString e); [|reflexivity].
    destruct (Costs.parseGranularity rg); [|reflexivity].
    destruct (Costs.parseGrouping rb); [|reflexivity].
    unfold Costs.resolveEnd, Costs.resolveStart.
    cbn [Costs.end_ Costs.start]. rewrite Hs. reflexivity.
  - destruct (Costs.parseGranularity rg); [|reflexivity].
    destruct (Costs.parseGrouping rb); [|reflexivity].
    unfold Costs.resolveEnd, Costs.resolveStart.
    cbn [Costs.end_ Costs.start]. rewrite He, Hs. reflexivity.
Qed.

Lemma omitted_dates_can_be_spelled_out_witness :
  Costs.handler Sample.clock
    (withDefaults (Costs.now Sample.clock)
       {| Costs.raw_start := None; Costs.raw_end := None;
          Costs.raw_granularity := Some "MONTHLY"; Costs.raw_groupBy := None |})
    (answering (Sample.response [Sample.group "Usage" "40.00"])) false ∅
  = Costs.handler Sample.clock
      {| Costs.raw_start := None; Costs.raw_end := None;
         Costs.raw_granularity := Some "MONTHLY"; Costs.raw_groupBy := None |}
      (answering (Sample.response [Sample.group "Usage" "40.00"])) false ∅.
Proof.
  apply omitted_dates_can_be_spelled_out. cbn. lia.
Defined.

(** X8. [isoDate] tells calendar days apart and nothing finer: in the
    years 0 to 9999 two instants get the same date string exactly when
    they fall on the same UTC day.  So the cache key of a request with
    default dates is shared by the requests of one UTC day and changes at
    midnight UTC. *)
Theorem default_dates_follow_the_utc_day :
  forall (t1 t2 : Z),
    -62164627200000 <= t1 < 253402300800000 ->
    -62164627200000 <= t2 < 253402300800000 ->
    (Costs.isoDate t1 = Costs.isoDate t2 <-> Day t1 = Day t2)
    /\ forall (q : Costs.CostsQuery) (s1 e1 s2 e2 : string),
        Costs.start q = None -> Costs.end_ q = None ->
        Costs.resolveStart t1 q = Ok s1 -> Costs.resolveEnd t1 q = Ok e1 ->
        Costs.resolveStart t2 q = Ok s2 -> Costs.resolveEnd t2 q = Ok e2 ->
        (Costs.cacheKey s1 e1 (Costs.granularity q) (Costs.groupBy q)
         = Costs.cacheKey s2 e2 (Costs.granularity q) (Costs.groupBy q)
         <-> Day t1 = Day t2).
Proof.
  intros t1 t2 H1 H2.
  destruct (isoDate_date_string t1) as [E1 _]; [lia|].
  destruct (isoDate_date_string t2) as [E2 _]; [lia|].
  destruct (isoDate_date_string (t1 - 30 * 24 * 60 * 60 * 1000)) as [S1 _]; [lia|].
  destruct (isoDate_date_string (t2 - 30 * 24 * 60 * 60 * 1000)) as [S2 _]; [lia|].
  rewrite Day_30_days_before in S1, S2.
  assert (Hinj : date_string (Day t1) = date_string (Day t2) -> Day t1 = Day t2).
  { apply date_string_inj; apply year_of_day_bounds, Day_bounds; lia. }
  split.
  - rewrite E1, E2. split.
    + intros [= H]. now apply Hinj.
    + now intros ->.
  - intros q s1 e1 s2 e2 Hs He.
    unfold Costs.resolveStart, Costs.resolveEnd. rewrite Hs, He, S1, S2, E1, E2.
    intros [= <-] [= <-] [= <-] [= <-]. split.
    + intros H. apply cacheKey_inj in H. apply Hinj. tauto.
    + now intros ->.
Qed.

Lemma default_dates_follow_the_utc_day_witness :
  (Costs.isoDate 1700000000000 = Costs.isoDate 1700006399999
   <-> Day 1700000000000 = Day 1700006399999)
  /\ (Costs.isoDate 1700000000000 = Costs.isoDate 1700006400000
      <-> Day 1700000000000 = Day 1700006400000).
Proof.
  split.
  - apply (default_dates_follow_the_utc_day 1700000000000 1700006399999); lia.
  - apply (default_dates_follow_the_utc_day 1700000000000 1700006400000); lia.
Defined.

(** ** The result normalizer *)

(** X9. The normalizer keeps what upstream sent in the order it was
    sent: the payload has one period for each upstream period, at the
    same position and with the same dates, and the period has one group
    for each upstream group, at the same position and with the same keys
    (no keys when upstream gave none).  Nothing is dropped, merged or
    reordered. *)
Theorem normalizer_keeps_upstream_order :
  forall (out : Response.GetCostAndUsageResponse),
    length (Payload.normalize out) = length (orElse [] (Response.ResultsByTime out))
    /\ forall (i : nat) (r : Response.ResultByTime),
        orElse [] (Response.ResultsByTime out) !! i = Some r ->
        exists p,
          Payload.normalize out !! i = Some p
          /\ Payload.start p
             = match Response.TimePeriod r with
               | Some t => Response.Start t
               | None => None
               end
          /\ Payload.end_ p
             = match Response.TimePeriod r with
               | Some t => Response.End t
               | None => None
               end
          /\ length (Payload.groups p) = length (orElse [] (Response.Groups r))
          /\ forall (j : nat) (g : Response.Group),
              orElse [] (Response.Groups r) !! j = Some g ->
              exists g',
                Payload.groups p !! j = Some g'
                /\ Payload.keys g' = orElse [] (Response.Keys g)
                /\ Payload.metrics g' = Payload.metricSet (Response.Metrics g).
Proof.
  intros out. unfold Payload.normalize. split; [apply length_map|].
  intros i r Hi. exists (Payload.normalizePeriod r). split.
  - rewrite list_lookup_fmap, Hi. reflexivity.
  - split; [reflexivity|]. split; [reflexivity|]. split.
    + apply length_map.
    + intros j g Hj. exists (Payload.normalizeGroup g). split.
      * cbn [Payload.normalizePeriod Payload.groups].
        change (map Payload.normalizeGroup (orElse [] (Response.Groups r)) !! j
                = Some (Payload.normalizeGroup g)).
        rewrite list_lookup_fmap, Hj. reflexivity.
      * split; reflexivity.
Qed.

Lemma normalizer_keeps_upstream_order_witness :
  exists p,
    Payload.normalize
      (Sample.response [Sample.group "EC2" "1.5"; Sample.group "S3" "0.5"]) !! 0%nat
    = Some p
    /\ map Payload.keys (Payload.groups p) = [["EC2"]; ["S3"]].
Proof.
  destruct (proj2 (normalizer_keeps_upstream_order
                     (Sample.response [Sample.group "EC2" "1.5"; Sample.group "S3" "0.5"]))
                  0%nat _ eq_refl) as (p & Hp & _).
  exists p. split; [exact Hp|].
  injection Hp as <-. reflexivity.
Defined.

(** ** The classifier's buckets *)

Section RunningSums.

Context {num : Type} (plus : num -> num -> num) (parse : string -> num).

Lemma classify_buckets_from (gs : list Response.Group) (s : Summary.SummaryTotals num) :
  let s' := fold_left (Summary.classifyGroup plus parse) gs s in
  Summary.credit s'
  = runningSum (Summary.credit s) plus parse (List.filter (ofType "Credit") gs)
  /\ Summary.tax s'
     = runningSum (Summary.tax s) plus parse (List.filter (ofType "Tax") gs)
  /\ Summary.refund s'
     = runningSum (Summary.refund s) plus parse (List.filter (ofType "Refund") gs)
  /\ Summary.usage s'
     = runningSum (Summary.usage s) plus parse (List.filter (ofType "Usage") gs)
  /\ Summary.other s'
     = runningSum (Summary.other s) plus parse (List.filter ofOtherType gs)
  /\ Summary.total s' = runningSum (Summary.total s) plus parse gs.
Proof.
  revert s. induction gs as [|g gs IH]; intros s; [cbn; tauto|].
  cbn zeta. cbn [fold_left]. specialize (IH (Summary.classifyGroup plus parse s g)).
  cbn zeta in IH. destruct IH as (Hc & Ht & Hr & Hu & Ho & Hall).
  rewrite Hc, Ht, Hr, Hu, Ho, Hall. clear Hc Ht Hr Hu Ho Hall.
  cbn [List.filter]. unfold ofOtherType, ofType, Summary.classifyGroup.
  destruct (firstKey g) as [t|]; cbn [Summary.isType].
  - destruct (String.eqb_spec t "Credit") as [->|Hc]; [cbn; tauto|].
    destruct (String.eqb_spec t "Tax") as [->|Ht]; [cbn; tauto|].
    destruct (String.eqb_spec t "Refund") as [->|Hr]; [cbn; tauto|].
    destruct (String.eqb_spec t "Usage") as [->|Hu]; [cbn; tauto|].
    cbn. tauto.
  - cbn. tauto.
Qed.

End RunningSums.

(** X10. Each bucket of the summary is the sum, added from left to right
    in upstream order, of the amounts of exactly the groups of its record
    type, [other] that of the groups of no known type, and [total] that
    of all groups.  Groups of another type never enter a bucket's sum, so
    they cannot change it even by rounding.  This holds for any addition,
    the server's floating-point one included. *)
Theorem summary_buckets_are_running_sums :
  forall (num : Type) (zero : num) (plus : num -> num -> num) (parse : string -> num)
         (out : Response.GetCostAndUsageResponse),
    let s := Summary.classify zero plus parse out in
    Summary.credit s
    = runningSum zero plus parse (List.filter (ofType "Credit") (allGroups out))
    /\ Summary.tax s
       = runningSum zero plus parse (List.filter (ofType "Tax") (allGroups out))
    /\ Summary.refund s
       = runningSum zero plus parse (List.filter (ofType "Refund") (allGroups out))
    /\ Summary.usage s
       = runningSum zero plus parse (List.filter (ofType "Usage") (allGroups out))
    /\ Summary.other s
       = runningSum zero plus parse (List.filter ofOtherType (allGroups out))
    /\ Summary.total s = runningSum zero plus parse (allGroups out).
Proof.
  intros num zero plus parse out s. subst s.
  rewrite classify_allGroups.
  exact (classify_buckets_from plus parse (allGroups out) (Summary.emptySummary zero)).
Qed.

(** ** The credits endpoint *)

Lemma Day_365_days_before (t : Z) : Day (t - 365 * 24 * 60 * 60 * 1000) = Day t - 365.
Proof. unfold Day, msPerDay. Z.div_mod_to_equations. lia. Qed.

Lemma creditsPayload_no_groups (out : Response.GetCostAndUsageResponse) :
  allGroups out = [] -> Credits.creditsPayload out = Credits.fallback.
Proof.
  intros H. unfold Credits.creditsPayload. rewrite aggregate_allGroups, H. reflexivity.
Qed.

Lemma is_neg_abs (a : number) : is_neg (abs a) = false.
Proof. now destruct a. Qed.



(** X12. On the credits endpoint an account without credits cannot be
    told from a failure: when the upstream answer holds no group at all,
    the handler answers exactly what it answers when the call is
    rejected. *)
Theorem no_credits_looks_like_failure :
  forall (now now' : Z)
         (send failing : Request.GetCostAndUsageCommand
                         -> result Response.GetCostAndUsageResponse),
    (forall c out, send c = Ok out -> allGroups out = []) ->
    (forall c, exists err, failing c = Throw err) ->
    Credits.handler now now' send = Credits.handler now now' failing.
Proof.
  intros now now' send failing Hempty Hfail. unfold Credits.handler.
  destruct (Costs.isoDate now) as [end_|e]; [|reflexivity]. cbn [bind].
  destruct (Costs.isoDate _) as [start|e]; [|reflexivity]. cbn [bind].
  destruct (Hfail (Credits.cmd start end_)) as [err ->].
  destruct (send (Credits.cmd start end_)) as [out|e] eqn:Hout; [|reflexivity].
  cbn [bind try_catch]. now rewrite (creditsPayload_no_groups out (Hempty _ _ Hout)).
Qed.

Lemma no_credits_looks_like_failure_witness :
  Credits.handler 1700000000000 1700000000000 (answering (Sample.response []))
  = Credits.handler 1700000000000 1700000000000 Sample.failing.
Proof.
  apply no_credits_looks_like_failure.
  - intros c out Hout. injection Hout as <-. reflexivity.
  - intros c. exists Sample.failure. reflexivity.
Defined.

(** X13. Whatever upstream answers, and whether or not the call fails,
    no amount in the credits answer is negative: neither [total_used] nor
    the amount of any service. *)
Theorem credits_amounts_are_never_negative :
  forall (now now' : Z)
         (send : Request.GetCostAndUsageCommand -> result Response.GetCostAndUsageResponse),
    let p := Credits.json (Credits.handler now now' send) in
    is_neg (Credits.total_used p) = false
    /\ forall e, In e (Credits.by_service p) -> is_neg (Credits.amount e) = false.
Proof.
  intros now now' send p. subst p.
  assert (Hpayload : forall out,
             is_neg (Credits.total_used (Credits.creditsPayload out)) = false
             /\ forall e, In e (Credits.by_service (Credits.creditsPayload out)) ->
                          is_neg (Credits.amount e) = false).
  { intros out. unfold Credits.creditsPayload.
    destruct (Credits.aggregate out) as [t m].
    cbn [Credits.total_used Credits.by_service]. split; [apply is_neg_abs|].
    intros e Hin.
    apply (Permutation_in _ (sort_permutation Credits.byAmountDesc _)) in Hin.
    apply in_map_iff in Hin. destruct Hin as (kv & <- & _). apply is_neg_abs. }
  unfold Credits.handler.
  destruct (Costs.isoDate now) as [end_|e]; [|split; [reflexivity | intros ? []]].
  cbn [bind].
  destruct (Costs.isoDate _) as [start|e]; [|split; [reflexivity | intros ? []]].
  cbn [bind].
  destruct (send _) as [out|e]; [|split; [reflexivity | intros ? []]].
  apply Hpayload.
Qed.

(** ** The two conversions of an amount *)

Lemma digit_of_10 (c : ascii) :
  digit_of 10 c = if Costs.isDigit c then Some (N_of_ascii c - 48)%N else None.
Proof.
  unfold digit_of, Costs.isDigit. cbv zeta.
  repeat match goal with
         | |- context [N.leb ?a ?b] => destruct (N.leb_spec a b)
         end; cbn [andb];
    repeat match goal with
           | |- context [N.ltb ?a ?b] => destruct (N.ltb_spec a b)
           end; try reflexivity; lia.
Qed.

Lemma read_digits_dropDigits (s : string) (acc : N) (cnt : Z) :
  exists a n,
    read_digits s acc cnt = (a, n, dropDigits s)
    /\ cnt <= n /\ (startsWithDigit s = true -> cnt < n).
Proof.
  revert acc cnt. induction s as [|c s IH]; intros acc cnt.
  - exists acc, cnt. repeat split; [lia | discriminate].
  - cbn [read_digits dropDigits startsWithDigit]. rewrite digit_of_10.
    destruct (Costs.isDigit c).
    + destruct (IH (10 * acc + (N_of_ascii c - 48))%N (cnt + 1)) as (a & n & E & Hle & _).
      exists a, n. repeat split; [exact E | lia | lia].
    + exists acc, cnt. repeat split; [lia | discriminate].
Qed.

Lemma isDigit_not_space (c : ascii) : Costs.isDigit c = true -> is_space c = false.
Proof.
  unfold Costs.isDigit, is_space. cbv zeta. intros H.
  apply andb_true_iff in H. destruct H as [H1 H2].
  apply N.leb_le in H1, H2.
  repeat (apply orb_false_intro); apply N.eqb_neq; lia.
Qed.

Lemma no_space_dropDigits (s : string) : no_space (dropDigits s) = true -> no_space s = true.
Proof.
  induction s as [|c s IH]; [trivial|]. cbn [dropDigits no_space].
  destruct (Costs.isDigit c) eqn:Hc; [|trivial].
  intros H. now rewrite (isDigit_not_space c Hc), (IH H).
Qed.

Lemma trim_end_no_space (s : string) : no_space s = true -> trim_end s = s.
Proof.
  induction s as [|c s IH]; [reflexivity|]. cbn [no_space trim_end]. intros H.
  apply andb_true_iff in H. destruct H as [Hc Hs]. rewrite (IH Hs).
  destruct s; [|reflexivity]. apply negb_true_iff in Hc. now rewrite Hc.
Qed.

Lemma unsignedDecimal_no_space (s : string) : unsignedDecimal s = true -> no_space s = true.
Proof.
  unfold unsignedDecimal. intros H. apply andb_true_iff in H. destruct H as [_ H].
  apply no_space_dropDigits. destruct (dropDigits s) as [|c fp]; [reflexivity|].
  apply andb_true_iff in H. destruct H as [H Hfp].
  apply andb_true_iff in H. destruct H as [Hc _].
  apply Ascii.eqb_eq in Hc. subst c. cbn [no_space].
  apply no_space_dropDigits. now destruct (dropDigits fp).
Qed.

Lemma unsignedDecimal_head (s : string) :
  unsignedDecimal s = true -> exists c t, s = String c t /\ Costs.isDigit c = true.
Proof.
  unfold unsignedDecimal. intros H. apply andb_true_iff in H. destruct H as [H _].
  destruct s as [|c t]; [discriminate|]. now exists c, t.
Qed.

Lemma read_unsigned_plain (s : string) :
  unsignedDecimal s = true ->
  exists m k, read_unsigned s = Some (LitDecimal m k, "").
Proof.
  intros H. destruct (unsignedDecimal_head s H) as (c & t & -> & Hc).
  unfold unsignedDecimal in H. apply andb_true_iff in H. destruct H as [Hs H].
  unfold read_unsigned.
  change (String.prefix "Infinity" (String c t))
    with (if ascii_dec "I" c then String.prefix "nfinity" t else false).
  destruct (ascii_dec "I" c) as [<-|_]; [discriminate Hc|].
  destruct (read_digits_dropDigits (String c t) 0 0) as (a & n & E & _ & Hn).
  specialize (Hn Hs). rewrite E.
  destruct (dropDigits (String c t)) as [|p fp].
  - cbn [read_point]. destruct (Z.eqb_spec n 0); [lia|].
    exists a, 0. reflexivity.
  - apply andb_true_iff in H. destruct H as [H Hrest].
    apply andb_true_iff in H. destruct H as [Hp Hfp].
    apply Ascii.eqb_eq in Hp. subst p. cbn [read_point Ascii.eqb Bool.eqb].
    destruct (read_digits_dropDigits fp a 0) as (a' & n' & E' & _ & Hn').
    specialize (Hn' Hfp). rewrite E'.
    destruct (dropDigits fp); [|discriminate Hrest].
    destruct (Z.eqb_spec n 0); [lia|]. cbn [andb].
    exists a', (0 - n'). reflexivity.
Qed.

Lemma read_decimal_plain (s : string) :
  plainDecimal s = true -> exists v, read_decimal s = Some (v, "").
Proof.
  unfold plainDecimal. destruct s as [|c t]; [discriminate|].
  unfold read_decimal, read_literal, read_sign.
  destruct (Ascii.eqb_spec c "-") as [->|Hminus]; intros H.
  - cbn [Ascii.eqb Bool.eqb].
    destruct (read_unsigned_plain t H) as (m & k & ->). now eexists.
  - destruct (unsignedDecimal_head _ H) as (c' & t' & [= <- <-] & Hc).
    destruct (Ascii.eqb_spec c "+") as [->|_]; [discriminate Hc|].
    destruct (read_unsigned_plain _ H) as (m & k & ->). now eexists.
Qed.

Lemma plainDecimal_no_space (s : string) : plainDecimal s = true -> no_space s = true.
Proof.
  unfold plainDecimal. destruct s as [|c t]; [discriminate|].
  destruct (Ascii.eqb_spec c "-") as [->|_]; intros H.
  - cbn [no_space]. now rewrite (unsignedDecimal_no_space t H).
  - now apply unsignedDecimal_no_space.
Qed.

Lemma read_non_decimal_plain (s : string) :
  plainDecimal s = true -> read_non_decimal s = None.
Proof.
  unfold plainDecimal. destruct s as [|z [|c [|d t]]]; try reflexivity.
  destruct (Ascii.eqb_spec z "-") as [->|_]; [reflexivity|].
  unfold unsignedDecimal. cbn [startsWithDigit dropDigits]. intros H.
  apply andb_true_iff in H. destruct H as [Hz H]. rewrite Hz in H.
  unfold read_non_decimal.
  destruct (Ascii.eqb z "0"); [|reflexivity].
  destruct (Ascii.eqb_spec c "x") as [->|_]; [discriminate H|].
  destruct (Ascii.eqb_spec c "X") as [->|_]; [discriminate H|].
  destruct (Ascii.eqb_spec c "o") as [->|_]; [discriminate H|].
  destruct (Ascii.eqb_spec c "O") as [->|_]; [discriminate H|].
  destruct (Ascii.eqb_spec c "b") as [->|_]; [discriminate H|].
  destruct (Ascii.eqb_spec c "B") as [->|_]; [discriminate H|].
  reflexivity.
Qed.

(** X14. On a plain decimal numeral (an optional minus sign, digits,
    optionally a point and more digits) the two conversions the server
    uses agree: [Number], which the normalizer applies, and [parseFloat],
    which the summary classifier and the credits aggregator apply.  So a
    group's unblended amount is the same number in the detail results, in
    the summary and in the credits. *)
Theorem plain_amounts_convert_alike :
  forall (s : string),
    plainDecimal s = true ->
    StringToNumber s = parseFloat s
    /\ forall (g : Response.Group),
        unblendedAmount g = Some s ->
        Payload.amount (Payload.unblended (Payload.metrics (Payload.normalizeGroup g)))
        = Summary.groupAmount parseFloat g
        /\ Credits.amountOf g = Summary.groupAmount parseFloat g.
Proof.
  intros s Hs.
  assert (Heq : StringToNumber s = parseFloat s).
  { unfold StringToNumber, parseFloat.
    assert (Hstart : trim_start s = s).
    { pose proof (plainDecimal_no_space s Hs) as Hns.
      destruct s as [|c t]; [reflexivity|]. cbn [no_space] in Hns.
      apply andb_true_iff in Hns. destruct Hns as [Hc _].
      apply negb_true_iff in Hc. cbn [trim_start]. now rewrite Hc. }
    rewrite Hstart, (trim_end_no_space s (plainDecimal_no_space s Hs)).
    rewrite (read_non_decimal_plain s Hs).
    destruct (read_decimal_plain s Hs) as (v & ->).
    destruct s; [discriminate Hs | reflexivity]. }
  split; [exact Heq|].
  intros g Hg. unfold Credits.amountOf, Summary.groupAmount. split; [|reflexivity].
  rewrite Hg.
  assert (Hor : orString "0" (Some s) = s) by (destruct s; [discriminate Hs | reflexivity]).
  rewrite Hor, <- Heq.
  unfold unblendedAmount in Hg.
  cbn [Payload.normalizeGroup Payload.metrics Payload.metricSet Payload.unblended
       Payload.getMetric Payload.amount].
  unfold Payload.metricOf, Payload.rawAmount.
  destruct (Response.Metrics g) as [m|]; [|discriminate Hg].
  destruct (m !! "UnblendedCost") as [v|]; [|discriminate Hg].
  now rewrite Hg.
Qed.

Lemma plain_amounts_convert_alike_witness :
  StringToNumber "-5.00" = parseFloat "-5.00"
  /\ StringToNumber "0.0000012" = parseFloat "0.0000012".
Proof.
  split.
  - exact (proj1 (plain_amounts_convert_alike "-5.00" eq_refl)).
  - exact (proj1 (plain_amounts_convert_alike "0.0000012" eq_refl)).
Defined.

(** ** Requests in flight *)

(** A request that nothing interrupts: arrival, then the answers. *)
Lemma handler_in_two_phases clock query send second_first cache :
  Costs.handler clock query send second_first cache
  = match Server.arrive (Costs.now clock) (Costs.lookupTime clock) query cache with
    | (Server.Answered r, cache1) => (r, cache1)
    | (Server.Awaiting f, cache1) =>
        let '(r, cache2) :=
          Server.settle f
            (Promise_all second_first (send (fst (Server.commands f)))
                         (send (snd (Server.commands f))))
            (Costs.storeTime clock) cache1 in
        (Ok r, cache2)
    end.
Proof.
  unfold Costs.handler, Server.arrive.
  destruct (Costs.safeParse query) as [q|]; [|reflexivity].
  destruct (bind _ _) as [[start end_]|err]; [|reflexivity].
  cbv zeta. destruct (cacheGet _ _ _) as [[cached|] cache1]; [reflexivity|].
  cbn [Server.commands Server.f_start Server.f_end Server.f_query fst snd].
  now destruct (Promise_all _ _ _) as [[out summaryOut]|err].
Qed.

Lemma arrive_cache now lookupTime query cache :
  snd (Server.arrive now lookupTime query cache) = cache
  \/ exists k, snd (Server.arrive now lookupTime query cache) = delete k cache.
Proof.
  unfold Server.arrive.
  destruct (Costs.safeParse query) as [q|]; [|now left].
  destruct (bind _ _) as [[start end_]|err]; [|now left].
  cbv zeta. unfold cacheGet.
  destruct (cache !! _) as [hit|]; [|now left].
  destruct (expiresAt hit <? lookupTime); [right; now eexists | now left].
Qed.

Lemma resolve_inv now q start end_ :
  bind (Costs.resolveEnd now q)
       (fun e => bind (Costs.resolveStart now q) (fun s => Ok (s, e))) = Ok (start, end_) ->
  Costs.resolveEnd now q = Ok end_ /\ Costs.resolveStart now q = Ok start.
Proof.
  destruct (Costs.resolveEnd now q) as [e|]; [|discriminate]. cbn [bind].
  destruct (Costs.resolveStart now q) as [s|]; [|discriminate]. cbn [bind].
  now intros [= -> ->].
Qed.

Lemma arrive_hit now lookupTime query cache p cache1 :
  Server.arrive now lookupTime query cache
  = (Server.Answered (Ok {| Costs.status := 200; Costs.json := Costs.CostsBody p |}),
     cache1) ->
  exists q start end_ hit,
    Costs.safeParse query = Some q
    /\ Costs.resolveEnd now q = Ok end_
    /\ Costs.resolveStart now q = Ok start
    /\ cache !! Costs.cacheKey start end_ (Costs.granularity q) (Costs.groupBy q)
       = Some hit
    /\ value hit = p /\ lookupTime <= expiresAt hit /\ cache1 = cache.
Proof.
  unfold Server.arrive.
  destruct (Costs.safeParse query) as [q|]; [|discriminate].
  destruct (bind _ _) as [[start end_]|err] eqn:Hres; [|discriminate].
  apply resolve_inv in Hres. destruct Hres as [He Hs].
  cbv zeta. destruct (cacheGet _ _ _) as [[cached|] c1] eqn:Hget; [|discriminate].
  intros [= -> ->].
  apply cacheGet_Some_inv in Hget. destruct Hget as (hit & Hk & Hv & Hle & Hc).
  now exists q, start, end_, hit.
Qed.

Lemma arrive_awaiting now lookupTime query cache q start end_ :
  Costs.safeParse query = Some q ->
  Costs.resolveEnd now q = Ok end_ ->
  Costs.resolveStart now q = Ok start ->
  fst (cacheGet cache (Costs.cacheKey start end_ (Costs.granularity q) (Costs.groupBy q))
                lookupTime) = None ->
  Server.arrive now lookupTime query cache
  = (Server.Awaiting {| Server.f_start := start; Server.f_end := end_;
                        Server.f_query := q |},
     delete (Costs.cacheKey start end_ (Costs.granularity q) (Costs.groupBy q)) cache).
Proof.
  intros Hq He Hs Hmiss. unfold Server.arrive. rewrite Hq, He. cbn [bind].
  rewrite Hs. cbn [bind]. cbv zeta.
  pose proof (cacheGet_None_cache _ _ _ Hmiss) as Hc.
  destruct (cacheGet _ _ _) as [o c1]. cbn [fst snd] in Hmiss, Hc. now subst.
Qed.

Lemma run_snoc st evs ev :
  Server.run st (evs ++ [ev])%list = fst (Server.step (Server.run st evs) ev).
Proof. unfold Server.run. now rewrite fold_left_app. Qed.

Lemma storedBy_snoc evs ev k e : storedBy evs k e -> storedBy (evs ++ [ev])%list k e.
Proof.
  intros (pre & post & id & s & out & sout & f & -> & H).
  exists pre, (post ++ [ev])%list, id, s, out, sout, f. split; [|exact H].
  now rewrite <- app_assoc.
Qed.

(** Whatever the events were, every entry of the cache was stored by one
    of them. *)
Lemma cache_storedBy evs k e :
  Server.cache (Server.run Server.initial evs) !! k = Some e -> storedBy evs k e.
Proof.
  revert k e. induction evs as [|ev evs IH] using rev_ind; intros k e.
  - cbn. rewrite lookup_empty. discriminate.
  - rewrite run_snoc. intros Hk.
    destruct ev as [id now lookupTime query|id storeTime answers]; cbn [Server.step] in Hk.
    + apply storedBy_snoc, IH.
      destruct (arrive_cache now lookupTime query
                  (Server.cache (Server.run Server.initial evs))) as [Hc|[k' Hc]];
        destruct (Server.arrive _ _ _ _) as [[r|f] c1]; cbn [fst snd Server.cache] in *;
        subst c1; try exact Hk; apply lookup_delete_Some in Hk; tauto.
    + destruct (Server.inflight (Server.run Server.initial evs) !! id) as [f|] eqn:Hf;
        [|now apply storedBy_snoc, IH].
      destruct answers as [[out sout]|err]; cbn [Server.settle fst Server.cache] in Hk;
        [|now apply storedBy_snoc, IH].
      destruct (decide (k = Server.f_key f)) as [->|Hne].
      * rewrite cacheSet_lookup in Hk. injection Hk as <-.
        exists evs, [], id, storeTime, out, sout, f. repeat split. exact Hf.
      * rewrite cacheSet_lookup_ne in Hk by congruence. now apply storedBy_snoc, IH.
Qed.

(** X15. Whatever requests and upstream answers the server has seen since
    it started with an empty cache, in whatever order, a request answered
    from the cache gets a payload that was built from upstream answers to
    the very two commands this request would send, and that was stored at
    a store time no more than 60000 ms before this request's lookup time:
    the cache never serves another query's payload, nor one older than
    the time to live. *)
Theorem cached_answers_are_fresh :
  forall (evs : list Server.Event) (id : nat) (now lookupTime : Z)
         (query : Costs.RawQuery) (p : Costs.CostsPayload),
    snd (Server.step (Server.run Server.initial evs)
                     (Server.Arrives id now lookupTime query))
    = Server.Replies id (Ok {| Costs.status := 200; Costs.json := Costs.CostsBody p |}) ->
    exists pre post id' s out summaryOut f q start end_,
      evs = (pre ++ Server.Settles id' s (Ok (out, summaryOut)) :: post)%list
      /\ Server.inflight (Server.run Server.initial pre) !! id' = Some f
      /\ p = Server.payload f out summaryOut
      /\ lookupTime <= s + 60000
      /\ Costs.safeParse query = Some q
      /\ Costs.resolveEnd now q = Ok end_
      /\ Costs.resolveStart now q = Ok start
      /\ Server.commands f = (Costs.cmd start end_ q, Costs.summaryCmd start end_).
Proof.
  intros evs id now lookupTime query p. cbn [Server.step].
  destruct (Server.arrive _ _ _ _) as [[r|f] c1] eqn:Harr; cbn [snd]; [|discriminate].
  intros [= ->].
  apply arrive_hit in Harr.
  destruct Harr as (q & start & end_ & hit & Hq & He & Hs & Hk & Hv & Hle & _).
  apply cache_storedBy in Hk.
  destruct Hk as (pre & post & id' & s & out & sout & f & Hevs & Hf & Hkey & Hval & Hexp).
  exists pre, post, id', s, out, sout, f, q, start, end_.
  repeat (split; [first [assumption | congruence | lia]|]).
  unfold Server.f_key in Hkey. apply cacheKey_inj in Hkey.
  destruct Hkey as (Hs' & He' & Hg & Hb).
  unfold Server.commands, Costs.cmd. now rewrite <- Hs', <- He', <- Hg, <- Hb.
Qed.

Lemma cached_answers_are_fresh_witness :
  exists pre post id' s out summaryOut f q start end_,
    [Server.Arrives 1 1700000000000 1700000000000 Sample.query;
     Server.Settles 1 1700000000500
       (Ok (Sample.response [Sample.group "Amazon S3" "1.25"],
            Sample.response [Sample.group "Usage" "1.25"]))]
    = (pre ++ Server.Settles id' s (Ok (out, summaryOut)) :: post)%list
    /\ Server.inflight (Server.run Server.initial pre) !! id' = Some f
    /\ {| Costs.p_start := "2024-01-01"; Costs.p_end := "2024-01-03";
          Costs.p_granularity := Costs.DAILY; Costs.p_groupBy := Costs.SERVICE;
          Costs.results :=
            Payload.normalize (Sample.response [Sample.group "Amazon S3" "1.25"]);
          Costs.summary :=
            Summary.classifySummary (Sample.response [Sample.group "Usage" "1.25"]) |}
       = Server.payload f out summaryOut
    /\ 1700000060500 <= s + 60000
    /\ Costs.safeParse Sample.query = Some q
    /\ Costs.resolveEnd 1700000030000 q = Ok end_
    /\ Costs.resolveStart 1700000030000 q = Ok start
    /\ Server.commands f = (Costs.cmd start end_ q, Costs.summaryCmd start end_).
Proof.
  apply (cached_answers_are_fresh _ 2%nat).
  vm_compute. reflexivity.
Defined.

(** X16. Requests are not coalesced.  While a request waits for its
    upstream answers, another request for the same query finds nothing in
    the cache and sends the same two commands again.  When both are
    answered, the entry left under their key is the one of the answers
    that came in last, whichever request had arrived first. *)
Theorem requests_are_not_coalesced :
  forall (st : Server.State) (id1 id2 : nat) (now1 lookupTime1 now2 lookupTime2 : Z)
         (query : Costs.RawQuery) (q : Costs.CostsQuery) (start end_ : string),
    Costs.safeParse query = Some q ->
    Costs.resolveEnd now1 q = Ok end_ ->
    Costs.resolveStart now1 q = Ok start ->
    Costs.resolveEnd now2 q = Ok end_ ->
    Costs.resolveStart now2 q = Ok start ->
    fst (cacheGet (Server.cache st)
                  (Costs.cacheKey start end_ (Costs.granularity q) (Costs.groupBy q))
                  lookupTime1) = None ->
    id1 <> id2 ->
    let f := {| Server.f_start := start; Server.f_end := end_; Server.f_query := q |} in
    let st1 := fst (Server.step st (Server.Arrives id1 now1 lookupTime1 query)) in
    let st2 := fst (Server.step st1 (Server.Arrives id2 now2 lookupTime2 query)) in
    snd (Server.step st (Server.Arrives id1 now1 lookupTime1 query)) = Server.Sends id1 f
    /\ snd (Server.step st1 (Server.Arrives id2 now2 lookupTime2 query))
       = Server.Sends id2 f
    /\ forall (s1 s2 : Z) (out1 sum1 out2 sum2 : Response.GetCostAndUsageResponse),
        Server.cache
          (Server.run st2 [Server.Settles id1 s1 (Ok (out1, sum1));
                           Server.Settles id2 s2 (Ok (out2, sum2))])
        !! Server.f_key f
        = Some {| expiresAt := s2 + 60000; value := Server.payload f out2 sum2 |}
        /\ Server.cache
             (Server.run st2 [Server.Settles id2 s2 (Ok (out2, sum2));
                              Server.Settles id1 s1 (Ok (out1, sum1))])
           !! Server.f_key f
           = Some {| expiresAt := s1 + 60000; value := Server.payload f out1 sum1 |}.
Proof.
  intros st id1 id2 now1 lookupTime1 now2 lookupTime2 query q start end_
         Hq He1 Hs1 He2 Hs2 Hmiss Hne f st1 st2.
  set (key := Costs.cacheKey start end_ (Costs.granularity q) (Costs.groupBy q)) in *.
  assert (H1 : Server.step st (Server.Arrives id1 now1 lookupTime1 query)
               = ({| Server.cache := delete key (Server.cache st);
                     Server.inflight := <[id1 := f]> (Server.inflight st) |},
                  Server.Sends id1 f)).
  { cbn [Server.step]. now rewrite (arrive_awaiting _ _ _ _ q start end_). }
  assert (H2 : Server.step st1 (Server.Arrives id2 now2 lookupTime2 query)
               = ({| Server.cache := delete key (Server.cache st);
                     Server.inflight := <[id2 := f]> (<[id1 := f]> (Server.inflight st)) |},
                  Server.Sends id2 f)).
  { subst st1. rewrite H1. cbn [Server.step fst Server.cache Server.inflight].
    rewrite (arrive_awaiting _ _ _ _ q start end_); try assumption.
    - now rewrite delete_delete_eq.
    - unfold cacheGet. fold key. now rewrite lookup_delete_eq. }
  split; [now rewrite H1|]. split; [now rewrite H2|].
  intros s1 s2 out1 sum1 out2 sum2. subst st2. rewrite H2. cbn [fst].
  unfold Server.run. cbn [fold_left Server.step Server.inflight Server.cache].
  split.
  - rewrite lookup_insert_ne, lookup_insert_eq by congruence.
    cbn [Server.settle fst Server.inflight Server.cache].
    rewrite lookup_delete_ne, lookup_insert_eq by congruence.
    cbn [Server.settle fst Server.cache]. apply cacheSet_lookup.
  - rewrite lookup_insert_eq.
    cbn [Server.settle fst Server.inflight Server.cache].
    rewrite lookup_delete_ne, lookup_insert_ne, lookup_insert_eq by congruence.
    cbn [Server.settle fst Server.cache]. apply cacheSet_lookup.
Qed.

Lemma requests_are_not_coalesced_witness :
  Server.cache
    (Server.run
       (fst (Server.step
               (fst (Server.step Server.initial
                       (Server.Arrives 1 1700000000000 1700000000000 Sample.query)))
               (Server.Arrives 2 1700000000100 1700000000100 Sample.query)))
       [Server.Settles 2 1700000000900
          (Ok (Sample.response [Sample.group "Amazon S3" "2"], Sample.response []));
        Server.Settles 1 1700000000800
          (Ok (Sample.response [Sample.group "Amazon S3" "1"], Sample.response []))])
  !! Sample.key
  = Some {| expiresAt := 1700000000800 + 60000;
            value :=
              Server.payload
                {| Server.f_start := "2024-01-01"; Server.f_end := "2024-01-03";
                   Server.f_query :=
                     {| Costs.start := Some "2024-01-01"; Costs.end_ := Some "2024-01-03";
                        Costs.granularity := Costs.DAILY;
                        Costs.groupBy := Costs.SERVICE |} |}
                (Sample.response [Sample.group "Amazon S3" "1"]) (Sample.response []) |}.
Proof.
  refine (proj2 (proj2 (proj2 (requests_are_not_coalesced
            Server.initial 1%nat 2%nat 1700000000000 1700000000000
            1700000000100 1700000000100 Sample.query
            {| Costs.start := Some "2024-01-01"; Costs.end_ := Some "2024-01-03";
               Costs.granularity := Costs.DAILY; Costs.groupBy := Costs.SERVICE |}
            "2024-01-01" "2024-01-03" eq_refl eq_refl eq_refl eq_refl eq_refl _ _))
            1700000000800 1700000000900 _ _ _ _)).
  - vm_compute. reflexivity.
  - lia.
Defined.

(** ** The order of services with equal amounts *)

Lemma sub_diag_not_pos (a : number) : is_pos (sub a a) = false.
Proof.
  destruct a as [s|s| |s m e]; try (now destruct s); [reflexivity|].
  unfold sub, SFsub. cbv zeta. now rewrite Z.sub_diag.
Qed.

Section Stability.

Context {A : Type} (compare : A -> A -> number).
Context (P : A -> Prop) `{!forall x, Decision (P x)}.
Hypothesis tie : forall x y, P x -> P y -> is_pos (compare x y) = false.

(** Sorting does not reorder elements the comparator never puts behind
    one another. *)
Lemma filter_insert (x : A) (l : list A) :
  filter P (Credits.insert compare x l) = filter P (x :: l).
Proof.
  induction l as [|y l IH]; [reflexivity|]. cbn [Credits.insert].
  destruct (is_pos (compare x y)) eqn:Hxy; [|reflexivity].
  rewrite (filter_cons _ y), IH, !filter_cons.
  destruct (decide (P x)) as [Hx|], (decide (P y)) as [Hy|]; try reflexivity.
  rewrite (tie x y Hx Hy) in Hxy. discriminate Hxy.
Qed.

Lemma filter_sort (l : list A) : filter P (Credits.sort compare l) = filter P l.
Proof.
  induction l as [|x l IH]; [reflexivity|].
  change (Credits.sort compare (x :: l))
    with (Credits.insert compare x (Credits.sort compare l)).
  now rewrite filter_insert, !filter_cons, IH.
Qed.

End Stability.

Lemma mapSet_fst (m : list (string * number)) (k : string) (v : number) :
  map fst (Credits.mapSet m k v)
  = if decide (k ∈ map fst m) then map fst m else (map fst m ++ [k])%list.
Proof.
  induction m as [|[k0 v0] m IH]; cbn [Credits.mapSet map fst].
  - destruct (decide (k ∈ [])) as [Hin|]; [|reflexivity]. now apply elem_of_nil in Hin.
  - destruct (String.eqb_spec k k0) as [->|Hk]; cbn [map fst].
    + destruct (decide (k0 ∈ k0 :: map fst m)) as [|Hn]; [reflexivity|].
      exfalso. apply Hn. now left.
    + rewrite IH.
      destruct (decide (k ∈ map fst m)) as [Hin|Hn],
               (decide (k ∈ k0 :: map fst m)) as [Hin'|Hn']; try reflexivity.
      * exfalso. apply Hn'. now right.
      * exfalso. apply elem_of_cons in Hin'. destruct Hin'; [congruence | contradiction].
Qed.

(** The services of [serviceMap], in the order it iterates them. *)
Lemma accumulate_keys (gs : list Response.Group) (st : number * list (string * number)) :
  map fst (snd (fold_left Credits.accumulate gs st))
  = (map fst (snd st)
     ++ filter (fun k => k ∉ map fst (snd st))
               (firstOccurrences (map Credits.serviceOf gs)))%list.
Proof.
  revert st. induction gs as [|g gs IH]; intros [t m]; cbn [fold_left map firstOccurrences].
  - cbn. now rewrite app_nil_r.
  - rewrite IH. cbn [Credits.accumulate snd]. rewrite mapSet_fst, filter_cons.
    set (k := Credits.serviceOf g). set (L := firstOccurrences (map Credits.serviceOf gs)).
    destruct (decide (k ∈ map fst m)) as [Hin|Hn].
    + destruct (decide (k ∉ map fst m)) as [Hc|_]; [contradiction|].
      f_equal. rewrite list_filter_filter. apply list_filter_iff.
      intros x. split; [intros Hx; split; [exact Hx | congruence] | tauto].
    + destruct (decide (k ∉ map fst m)) as [_|Hc]; [|contradiction].
      rewrite <- app_assoc. cbn [app]. do 2 f_equal.
      rewrite list_filter_filter. apply list_filter_iff.
      intros x. rewrite elem_of_app, list_elem_of_singleton. tauto.
Qed.

(** X17. Services whose reported amounts are equal appear in
    [by_service] in the order in which upstream first names them: for
    every amount, the entries of that amount are, in this order, those of
    the services as first seen.  This is stated when no reported amount
    is [NaN], where the comparator is consistent and the outcome of the
    stable sort is determined. *)
Theorem credits_ties_keep_first_seen_order :
  forall (out : Response.GetCostAndUsageResponse) (a : number),
    let gs := allGroups out in
    let p := Credits.creditsPayload out in
    (forall e, In e (Credits.by_service p) -> is_nan (Credits.amount e) = false) ->
    filter (fun e => Credits.amount e = a) (Credits.by_service p)
    = filter (fun e => Credits.amount e = a)
             (map (entryOf gs) (firstOccurrences (map Credits.serviceOf gs))).
Proof.
  intros out a gs p _. subst p. unfold Credits.creditsPayload.
  rewrite aggregate_allGroups. fold gs.
  destruct (accumulate_fold gs (pos_zero, []))
    as (_ & Hnd & _ & Hget & _); [constructor | constructor |].
  pose proof (accumulate_keys gs (pos_zero, [])) as Hkeys.
  destruct (fold_left Credits.accumulate gs (pos_zero, [])) as [t m].
  cbn [fst snd map app Credits.mapGet] in Hnd, Hget, Hkeys.
  cbn [Credits.by_service].
  rewrite filter_sort.
  - f_equal.
    assert (Hfilter : filter (fun k : string => k ∉ [])
                             (firstOccurrences (map Credits.serviceOf gs))
                      = firstOccurrences (map Credits.serviceOf gs)).
    { clear. induction (firstOccurrences _) as [|k l IH]; [reflexivity|].
      rewrite filter_cons, IH.
      destruct (decide (k ∉ [])) as [|Hn]; [reflexivity|].
      exfalso. apply Hn. apply not_elem_of_nil. }
    rewrite Hfilter in Hkeys. rewrite <- Hkeys, map_map.
    apply map_ext_in. intros [k v] Hin. unfold Credits.toEntry, entryOf. cbn [fst snd].
    unfold Credits.serviceTotal. rewrite <- Hget, (In_mapGet m k v Hnd Hin). reflexivity.
  - intros x y Hx Hy. unfold Credits.byAmountDesc. rewrite Hx, Hy.
    apply sub_diag_not_pos.
Qed.

Lemma credits_ties_keep_first_seen_order_witness :
  filter (fun e => Credits.amount e = of_Z 1)
         (Credits.by_service
            (Credits.creditsPayload
               (Sample.response [Sample.group "Lambda" "-1"; Sample.group "EC2" "-1";
                                 Sample.group "Amazon S3" "-2"])))
  = [ {| Credits.service := "Lambda"; Credits.amount := of_Z 1 |};
      {| Credits.service := "EC2"; Credits.amount := of_Z 1 |} ].
Proof.
  etransitivity.
  - apply (credits_ties_keep_first_seen_order
             (Sample.response [Sample.group "Lambda" "-1"; Sample.group "EC2" "-1";
                               Sample.group "Amazon S3" "-2"])).
    vm_compute. intros e [<-|[<-|[<-|[]]]]; reflexivity.
  - vm_compute. reflexivity.
Defined.
